(** * The user repository of Large-Scale-Discovery's web backend

    A shallow embedding of [web_backend/database/database_user.go]: the
    [T_user] record, its constructor [NewUser], the write hook [BeforeSave]
    and the repository operations [Create], [Save], [Delete], [GetUsers],
    [GetAdministrators], [GetUser] and [GetUserByMail].

    Go strings are byte sequences, so they are Rocq [string]s (one [ascii]
    per byte): [len s] is [String.length s] and [s[:1]] keeps one byte.
    The packages the file imports are modelled under their own names:
    modules [utf8], [unicode], [strings], [bluemonday] and [sql], and the
    [gorm_] operations on the store with the callbacks they run. What
    gorm leaves to its release or to declarations of other files of the
    package is a parameter: how a selected name that is no field is read,
    and what an upsert of ownerships leaves. The database handle
    [backendDb] is passed explicitly, and a function that writes returns
    the store it leaves. *)

From Stdlib Require Import ZArith List String Ascii Bool Lia.
Import ListNotations.

Local Open Scope string_scope.
Local Open Scope bool_scope.
Local Open Scope Z_scope.

(** ** Bytes *)

Definition byte_val (c : ascii) : Z := Z.of_N (N_of_ascii c).
Definition byte_of (z : Z) : ascii := ascii_of_N (Z.to_N z).

Fixpoint bytes_of (l : list Z) : string :=
  match l with
  | [] => EmptyString
  | z :: t => String (byte_of z) (bytes_of t)
  end.

Fixpoint string_map (f : ascii -> ascii) (s : string) : string :=
  match s with
  | EmptyString => EmptyString
  | String c t => String (f c) (string_map f t)
  end.

Fixpoint string_forallb (p : ascii -> bool) (s : string) : bool :=
  match s with
  | EmptyString => true
  | String c t => p c && string_forallb p t
  end.

Fixpoint drop (n : nat) (s : string) : string :=
  match n, s with
  | O, _ => s
  | S _, EmptyString => EmptyString
  | S m, String _ t => drop m t
  end.

(** ** Package [unicode/utf8] *)

Module utf8.

Definition RuneError : Z := 0xFFFD.
Definition RuneSelf : Z := 0x80.
Definition MaxRune : Z := 0x10FFFF.

Definition locb : Z := 0x80.
Definition hicb : Z := 0xBF.
Definition maskx : Z := 0x3F.
Definition mask2 : Z := 0x1F.
Definition mask3 : Z := 0x0F.
Definition mask4 : Z := 0x07.

(** What the table [first] and [acceptRanges] say of a leading byte: an
    ASCII byte, an illegal one, or the size of the sequence it starts with
    the range its second byte must lie in. *)
Inductive lead : Type :=
| lead_as
| lead_xx
| lead_sz (size : nat) (lo hi : Z).

Definition first (p0 : Z) : lead :=
  if p0 <? 0x80 then lead_as
  else if p0 <? 0xC2 then lead_xx
  else if p0 <? 0xE0 then lead_sz 2 locb hicb
  else if p0 =? 0xE0 then lead_sz 3 0xA0 hicb
  else if p0 <? 0xED then lead_sz 3 locb hicb
  else if p0 =? 0xED then lead_sz 3 locb 0x9F
  else if p0 <? 0xF0 then lead_sz 3 locb hicb
  else if p0 =? 0xF0 then lead_sz 4 0x90 hicb
  else if p0 <? 0xF4 then lead_sz 4 locb hicb
  else if p0 =? 0xF4 then lead_sz 4 locb 0x8F
  else lead_xx.

Definition outside (lo hi b : Z) : bool := (b <? lo) || (hi <? b).

(** [DecodeRuneInString]: the first rune of [s] and its width in bytes;
    an invalid or short sequence is [(RuneError, 1)]. *)
Definition DecodeRuneInString (s : string) : Z * nat :=
  match s with
  | EmptyString => (RuneError, 0%nat)
  | String c0 t1 =>
    let p0 := byte_val c0 in
    match first p0 with
    | lead_as => (p0, 1%nat)
    | lead_xx => (RuneError, 1%nat)
    | lead_sz sz lo hi =>
      if (String.length s <? sz)%nat then (RuneError, 1%nat) else
      match t1 with
      | EmptyString => (RuneError, 1%nat)
      | String c1 t2 =>
        let b1 := byte_val c1 in
        if outside lo hi b1 then (RuneError, 1%nat) else
        if (sz <=? 2)%nat then
          (Z.lor (Z.shiftl (Z.land p0 mask2) 6) (Z.land b1 maskx), 2%nat)
        else
        match t2 with
        | EmptyString => (RuneError, 1%nat)
        | String c2 t3 =>
          let b2 := byte_val c2 in
          if outside locb hicb b2 then (RuneError, 1%nat) else
          if (sz <=? 3)%nat then
            (Z.lor (Z.lor (Z.shiftl (Z.land p0 mask3) 12)
                          (Z.shiftl (Z.land b1 maskx) 6))
                   (Z.land b2 maskx), 3%nat)
          else
          match t3 with
          | EmptyString => (RuneError, 1%nat)
          | String c3 _ =>
            let b3 := byte_val c3 in
            if outside locb hicb b3 then (RuneError, 1%nat) else
            (Z.lor (Z.lor (Z.lor (Z.shiftl (Z.land p0 mask4) 18)
                                 (Z.shiftl (Z.land b1 maskx) 12))
                          (Z.shiftl (Z.land b2 maskx) 6))
                   (Z.land b3 maskx), 4%nat)
          end
        end
      end
    end
  end.

(** [AppendRune] to the empty buffer: the UTF-8 encoding of [r], that of
    [RuneError] for a surrogate or a value out of range. *)
Definition EncodeRune (r : Z) : list Z :=
  if (0 <=? r) && (r <=? 0x7F) then [r]
  else if (0 <=? r) && (r <=? 0x7FF) then
    [Z.lor 0xC0 (Z.shiftr r 6); Z.lor 0x80 (Z.land r maskx)]
  else if (r <? 0) || (MaxRune <? r) || ((0xD800 <=? r) && (r <=? 0xDFFF)) then
    [0xEF; 0xBF; 0xBD]
  else if r <=? 0xFFFF then
    [Z.lor 0xE0 (Z.shiftr r 12);
     Z.lor 0x80 (Z.land (Z.shiftr r 6) maskx);
     Z.lor 0x80 (Z.land r maskx)]
  else
    [Z.lor 0xF0 (Z.shiftr r 18);
     Z.lor 0x80 (Z.land (Z.shiftr r 12) maskx);
     Z.lor 0x80 (Z.land (Z.shiftr r 6) maskx);
     Z.lor 0x80 (Z.land r maskx)].

(** The runes a [for _, c := range s] loop visits. Every step consumes at
    least one byte, so [String.length s] steps are enough. *)
Fixpoint range_loop (fuel : nat) (s : string) : list Z :=
  match fuel with
  | O => []
  | S fuel' =>
    match s with
    | EmptyString => []
    | String _ _ =>
      let (r, w) := DecodeRuneInString s in
      r :: range_loop fuel' (drop w s)
    end
  end.

Definition runes (s : string) : list Z := range_loop (String.length s) s.

(** [ValidString]: no step of the loop meets an invalid byte, which is
    what a [RuneError] of width 1 reports. *)
Fixpoint valid_loop (fuel : nat) (s : string) : bool :=
  match fuel with
  | O => true
  | S fuel' =>
    match s with
    | EmptyString => true
    | String _ _ =>
      let (r, w) := DecodeRuneInString s in
      negb ((r =? RuneError) && (w =? 1)%nat) && valid_loop fuel' (drop w s)
    end
  end.

Definition ValidString (s : string) : bool := valid_loop (String.length s) s.

End utf8.

(** ** Package [unicode] *)

Module unicode.

Definition MaxASCII : Z := 0x7F.

(** An entry of [CaseRanges]: the runes [Lo..Hi] and the distance to their
    upper-case and lower-case forms. *)
Record CaseRange : Type := mkCaseRange {
  Lo : Z;
  Hi : Z;
  deltaUpper : Z;
  deltaLower : Z
}.

(** Go's table [CaseRanges]: the simple upper-case and lower-case
    mappings of the Unicode Character Database (version 14.0), one entry
    for each run of consecutive runes at the same distances. Go writes a
    run of alternating upper and lower case letters as one entry marked
    [UpperLower]; here each letter of such a run has its own entry. A
    rune outside every range has no case and is returned unchanged. *)
Definition CaseRanges : list CaseRange :=
  [ mkCaseRange 0x0041 0x005A 0 32; mkCaseRange 0x0061 0x007A (-32) 0;
    mkCaseRange 0x00B5 0x00B5 743 0; mkCaseRange 0x00C0 0x00D6 0 32;
    mkCaseRange 0x00D8 0x00DE 0 32; mkCaseRange 0x00E0 0x00F6 (-32) 0;
    mkCaseRange 0x00F8 0x00FE (-32) 0; mkCaseRange 0x00FF 0x00FF 121 0;
    mkCaseRange 0x0100 0x0100 0 1; mkCaseRange 0x0101 0x0101 (-1) 0;
    mkCaseRange 0x0102 0x0102 0 1; mkCaseRange 0x0103 0x0103 (-1) 0;
    mkCaseRange 0x0104 0x0104 0 1; mkCaseRange 0x0105 0x0105 (-1) 0;
    mkCaseRange 0x0106 0x0106 0 1; mkCaseRange 0x0107 0x0107 (-1) 0;
    mkCaseRange 0x0108 0x0108 0 1; mkCaseRange 0x0109 0x0109 (-1) 0;
    mkCaseRange 0x010A 0x010A 0 1; mkCaseRange 0x010B 0x010B (-1) 0;
    mkCaseRange 0x010C 0x010C 0 1; mkCaseRange 0x010D 0x010D (-1) 0;
    mkCaseRange 0x010E 0x010E 0 1; mkCaseRange 0x010F 0x010F (-1) 0;
    mkCaseRange 0x0110 0x0110 0 1; mkCaseRange 0x0111 0x0111 (-1) 0;
    mkCaseRange 0x0112 0x0112 0 1; mkCaseRange 0x0113 0x0113 (-1) 0;
    mkCaseRange 0x0114 0x0114 0 1; mkCaseRange 0x0115 0x0115 (-1) 0;
    mkCaseRange 0x0116 0x0116 0 1; mkCaseRange 0x0117 0x0117 (-1) 0;
    mkCaseRange 0x0118 0x0118 0 1; mkCaseRange 0x0119 0x0119 (-1) 0;
    mkCaseRange 0x011A 0x011A 0 1; mkCaseRange 0x011B 0x011B (-1) 0;
    mkCaseRange 0x011C 0x011C 0 1; mkCaseRange 0x011D 0x011D (-1) 0;
    mkCaseRange 0x011E 0x011E 0 1; mkCaseRange 0x011F 0x011F (-1) 0;
    mkCaseRange 0x0120 0x0120 0 1; mkCaseRange 0x0121 0x0121 (-1) 0;
    mkCaseRange 0x0122 0x0122 0 1; mkCaseRange 0x0123 0x0123 (-1) 0;
    mkCaseRange 0x0124 0x0124 0 1; mkCaseRange 0x0125 0x0125 (-1) 0;
    mkCaseRange 0x0126 0x0126 0 1; mkCaseRange 0x0127 0x0127 (-1) 0;
    mkCaseRange 0x0128 0x0128 0 1; mkCaseRange 0x0129 0x0129 (-1) 0;
    mkCaseRange 0x012A 0x012A 0 1; mkCaseRange 0x012B 0x012B (-1) 0;
    mkCaseRange 0x012C 0x012C 0 1; mkCaseRange 0x012D 0x012D (-1) 0;
    mkCaseRange 0x012E 0x012E 0 1; mkCaseRange 0x012F 0x012F (-1) 0;
    mkCaseRange 0x0130 0x0130 0 (-199); mkCaseRange 0x0131 0x0131 (-232) 0;
    mkCaseRange 0x0132 0x0132 0 1; mkCaseRange 0x0133 0x0133 (-1) 0;
    mkCaseRange 0x0134 0x0134 0 1; mkCaseRange 0x0135 0x0135 (-1) 0;
    mkCaseRange 0x0136 0x0136 0 1; mkCaseRange 0x0137 0x0137 (-1) 0;
    mkCaseRange 0x0139 0x0139 0 1; mkCaseRange 0x013A 0x013A (-1) 0;
    mkCaseRange 0x013B 0x013B 0 1; mkCaseRange 0x013C 0x013C (-1) 0;
    mkCaseRange 0x013D 0x013D 0 1; mkCaseRange 0x013E 0x013E (-1) 0;
    mkCaseRange 0x013F 0x013F 0 1; mkCaseRange 0x0140 0x0140 (-1) 0;
    mkCaseRange 0x0141 0x0141 0 1; mkCaseRange 0x0142 0x0142 (-1) 0;
    mkCaseRange 0x0143 0x0143 0 1; mkCaseRange 0x0144 0x0144 (-1) 0;
    mkCaseRange 0x0145 0x0145 0 1; mkCaseRange 0x0146 0x0146 (-1) 0;
    mkCaseRange 0x0147 0x0147 0 1; mkCaseRange 0x0148 0x0148 (-1) 0;
    mkCaseRange 0x014A 0x014A 0 1; mkCaseRange 0x014B 0x014B (-1) 0;
    mkCaseRange 0x014C 0x014C 0 1; mkCaseRange 0x014D 0x014D (-1) 0;
    mkCaseRange 0x014E 0x014E 0 1; mkCaseRange 0x014F 0x014F (-1) 0;
    mkCaseRange 0x0150 0x0150 0 1; mkCaseRange 0x0151 0x0151 (-1) 0;
    mkCaseRange 0x0152 0x0152 0 1; mkCaseRange 0x0153 0x0153 (-1) 0;
    mkCaseRange 0x0154 0x0154 0 1; mkCaseRange 0x0155 0x0155 (-1) 0;
    mkCaseRange 0x0156 0x0156 0 1; mkCaseRange 0x0157 0x0157 (-1) 0;
    mkCaseRange 0x0158 0x0158 0 1; mkCaseRange 0x0159 0x0159 (-1) 0;
    mkCaseRange 0x015A 0x015A 0 1; mkCaseRange 0x015B 0x015B (-1) 0;
    mkCaseRange 0x015C 0x015C 0 1; mkCaseRange 0x015D 0x015D (-1) 0;
    mkCaseRange 0x015E 0x015E 0 1; mkCaseRange 0x015F 0x015F (-1) 0;
    mkCaseRange 0x0160 0x0160 0 1; mkCaseRange 0x0161 0x0161 (-1) 0;
    mkCaseRange 0x0162 0x0162 0 1; mkCaseRange 0x0163 0x0163 (-1) 0;
    mkCaseRange 0x0164 0x0164 0 1; mkCaseRange 0x0165 0x0165 (-1) 0;
    mkCaseRange 0x0166 0x0166 0 1; mkCaseRange 0x0167 0x0167 (-1) 0;
    mkCaseRange 0x0168 0x0168 0 1; mkCaseRange 0x0169 0x0169 (-1) 0;
    mkCaseRange 0x016A 0x016A 0 1; mkCaseRange 0x016B 0x016B (-1) 0;
    mkCaseRange 0x016C 0x016C 0 1; mkCaseRange 0x016D 0x016D (-1) 0;
    mkCaseRange 0x016E 0x016E 0 1; mkCaseRange 0x016F 0x016F (-1) 0;
    mkCaseRange 0x0170 0x0170 0 1; mkCaseRange 0x0171 0x0171 (-1) 0;
    mkCaseRange 0x0172 0x0172 0 1; mkCaseRange 0x0173 0x0173 (-1) 0;
    mkCaseRange 0x0174 0x0174 0 1; mkCaseRange 0x0175 0x0175 (-1) 0;
    mkCaseRange 0x0176 0x0176 0 1; mkCaseRange 0x0177 0x0177 (-1) 0;
    mkCaseRange 0x0178 0x0178 0 (-121); mkCaseRange 0x0179 0x0179 0 1;
    mkCaseRange 0x017A 0x017A (-1) 0; mkCaseRange 0x017B 0x017B 0 1;
    mkCaseRange 0x017C 0x017C (-1) 0; mkCaseRange 0x017D 0x017D 0 1;
    mkCaseRange 0x017E 0x017E (-1) 0; mkCaseRange 0x017F 0x017F (-300) 0;
    mkCaseRange 0x0180 0x0180 195 0; mkCaseRange 0x0181 0x0181 0 210;
    mkCaseRange 0x0182 0x0182 0 1; mkCaseRange 0x0183 0x0183 (-1) 0;
    mkCaseRange 0x0184 0x0184 0 1; mkCaseRange 0x0185 0x0185 (-1) 0;
    mkCaseRange 0x0186 0x0186 0 206; mkCaseRange 0x0187 0x0187 0 1;
    mkCaseRange 0x0188 0x0188 (-1) 0; mkCaseRange 0x0189 0x018A 0 205;
    mkCaseRange 0x018B 0x018B 0 1; mkCaseRange 0x018C 0x018C (-1) 0;
    mkCaseRange 0x018E 0x018E 0 79; mkCaseRange 0x018F 0x018F 0 202;
    mkCaseRange 0x0190 0x0190 0 203; mkCaseRange 0x0191 0x0191 0 1;
    mkCaseRange 0x0192 0x0192 (-1) 0; mkCaseRange 0x0193 0x0193 0 205;
    mkCaseRange 0x0194 0x0194 0 207; mkCaseRange 0x0195 0x0195 97 0;
    mkCaseRange 0x0196 0x0196 0 211; mkCaseRange 0x0197 0x0197 0 209;
    mkCaseRange 0x0198 0x0198 0 1; mkCaseRange 0x0199 0x0199 (-1) 0;
    mkCaseRange 0x019A 0x019A 163 0; mkCaseRange 0x019C 0x019C 0 211;
    mkCaseRange 0x019D 0x019D 0 213; mkCaseRange 0x019E 0x019E 130 0;
    mkCaseRange 0x019F 0x019F 0 214; mkCaseRange 0x01A0 0x01A0 0 1;
    mkCaseRange 0x01A1 0x01A1 (-1) 0; mkCaseRange 0x01A2 0x01A2 0 1;
    mkCaseRange 0x01A3 0x01A3 (-1) 0; mkCaseRange 0x01A4 0x01A4 0 1;
    mkCaseRange 0x01A5 0x01A5 (-1) 0; mkCaseRange 0x01A6 0x01A6 0 218;
    mkCaseRange 0x01A7 0x01A7 0 1; mkCaseRange 0x01A8 0x01A8 (-1) 0;
    mkCaseRange 0x01A9 0x01A9 0 218; mkCaseRange 0x01AC 0x01AC 0 1;
    mkCaseRange 0x01AD 0x01AD (-1) 0; mkCaseRange 0x01AE 0x01AE 0 218;
    mkCaseRange 0x01AF 0x01AF 0 1; mkCaseRange 0x01B0 0x01B0 (-1) 0;
    mkCaseRange 0x01B1 0x01B2 0 217; mkCaseRange 0x01B3 0x01B3 0 1;
    mkCaseRange 0x01B4 0x01B4 (-1) 0; mkCaseRange 0x01B5 0x01B5 0 1;
    mkCaseRange 0x01B6 0x01B6 (-1) 0; mkCaseRange 0x01B7 0x01B7 0 219;
    mkCaseRange 0x01B8 0x01B8 0 1; mkCaseRange 0x01B9 0x01B9 (-1) 0;
    mkCaseRange 0x01BC 0x01BC 0 1; mkCaseRange 0x01BD 0x01BD (-1) 0;
    mkCaseRange 0x01BF 0x01BF 56 0; mkCaseRange 0x01C4 0x01C4 0 2;
    mkCaseRange 0x01C5 0x01C5 (-1) 1; mkCaseRange 0x01C6 0x01C6 (-2) 0;
    mkCaseRange 0x01C7 0x01C7 0 2; mkCaseRange 0x01C8 0x01C8 (-1) 1;
    mkCaseRange 0x01C9 0x01C9 (-2) 0; mkCaseRange 0x01CA 0x01CA 0 2;
    mkCaseRange 0x01CB 0x01CB (-1) 1; mkCaseRange 0x01CC 0x01CC (-2) 0;
    mkCaseRange 0x01CD 0x01CD 0 1; mkCaseRange 0x01CE 0x01CE (-1) 0;
    mkCaseRange 0x01CF 0x01CF 0 1; mkCaseRange 0x01D0 0x01D0 (-1) 0;
    mkCaseRange 0x01D1 0x01D1 0 1; mkCaseRange 0x01D2 0x01D2 (-1) 0;
    mkCaseRange 0x01D3 0x01D3 0 1; mkCaseRange 0x01D4 0x01D4 (-1) 0;
    mkCaseRange 0x01D5 0x01D5 0 1; mkCaseRange 0x01D6 0x01D6 (-1) 0;
    mkCaseRange 0x01D7 0x01D7 0 1; mkCaseRange 0x01D8 0x01D8 (-1) 0;
    mkCaseRange 0x01D9 0x01D9 0 1; mkCaseRange 0x01DA 0x01DA (-1) 0;
    mkCaseRange 0x01DB 0x01DB 0 1; mkCaseRange 0x01DC 0x01DC (-1) 0;
    mkCaseRange 0x01DD 0x01DD (-79) 0; mkCaseRange 0x01DE 0x01DE 0 1;
    mkCaseRange 0x01DF 0x01DF (-1) 0; mkCaseRange 0x01E0 0x01E0 0 1;
    mkCaseRange 0x01E1 0x01E1 (-1) 0; mkCaseRange 0x01E2 0x01E2 0 1;
    mkCaseRange 0x01E3 0x01E3 (-1) 0; mkCaseRange 0x01E4 0x01E4 0 1;
    mkCaseRange 0x01E5 0x01E5 (-1) 0; mkCaseRange 0x01E6 0x01E6 0 1;
    mkCaseRange 0x01E7 0x01E7 (-1) 0; mkCaseRange 0x01E8 0x01E8 0 1;
    mkCaseRange 0x01E9 0x01E9 (-1) 0; mkCaseRange 0x01EA 0x01EA 0 1;
    mkCaseRange 0x01EB 0x01EB (-1) 0; mkCaseRange 0x01EC 0x01EC 0 1;
    mkCaseRange 0x01ED 0x01ED (-1) 0; mkCaseRange 0x01EE 0x01EE 0 1;
    mkCaseRange 0x01EF 0x01EF (-1) 0; mkCaseRange 0x01F1 0x01F1 0 2;
    mkCaseRange 0x01F2 0x01F2 (-1) 1; mkCaseRange 0x01F3 0x01F3 (-2) 0;
    mkCaseRange 0x01F4 0x01F4 0 1; mkCaseRange 0x01F5 0x01F5 (-1) 0;
    mkCaseRange 0x01F6 0x01F6 0 (-97); mkCaseRange 0x01F7 0x01F7 0 (-56);
    mkCaseRange 0x01F8 0x01F8 0 1; mkCaseRange 0x01F9 0x01F9 (-1) 0;
    mkCaseRange 0x01FA 0x01FA 0 1; mkCaseRange 0x01FB 0x01FB (-1) 0;
    mkCaseRange 0x01FC 0x01FC 0 1; mkCaseRange 0x01FD 0x01FD (-1) 0;
    mkCaseRange 0x01FE 0x01FE 0 1; mkCaseRange 0x01FF 0x01FF (-1) 0;
    mkCaseRange 0x0200 0x0200 0 1; mkCaseRange 0x0201 0x0201 (-1) 0;
    mkCaseRange 0x0202 0x0202 0 1; mkCaseRange 0x0203 0x0203 (-1) 0;
    mkCaseRange 0x0204 0x0204 0 1; mkCaseRange 0x0205 0x0205 (-1) 0;
    mkCaseRange 0x0206 0x0206 0 1; mkCaseRange 0x0207 0x0207 (-1) 0;
    mkCaseRange 0x0208 0x0208 0 1; mkCaseRange 0x0209 0x0209 (-1) 0;
    mkCaseRange 0x020A 0x020A 0 1; mkCaseRange 0x020B 0x020B (-1) 0;
    mkCaseRange 0x020C 0x020C 0 1; mkCaseRange 0x020D 0x020D (-1) 0;
    mkCaseRange 0x020E 0x020E 0 1; mkCaseRange 0x020F 0x020F (-1) 0;
    mkCaseRange 0x0210 0x0210 0 1; mkCaseRange 0x0211 0x0211 (-1) 0;
    mkCaseRange 0x0212 0x0212 0 1; mkCaseRange 0x0213 0x0213 (-1) 0;
    mkCaseRange 0x0214 0x0214 0 1; mkCaseRange 0x0215 0x0215 (-1) 0;
    mkCaseRange 0x0216 0x0216 0 1; mkCaseRange 0x0217 0x0217 (-1) 0;
    mkCaseRange 0x0218 0x0218 0 1; mkCaseRange 0x0219 0x0219 (-1) 0;
    mkCaseRange 0x021A 0x021A 0 1; mkCaseRange 0x021B 0x021B (-1) 0;
    mkCaseRange 0x021C 0x021C 0 1; mkCaseRange 0x021D 0x021D (-1) 0;
    mkCaseRange 0x021E 0x021E 0 1; mkCaseRange 0x021F 0x021F (-1) 0;
    mkCaseRange 0x0220 0x0220 0 (-130); mkCaseRange 0x0222 0x0222 0 1;
    mkCaseRange 0x0223 0x0223 (-1) 0; mkCaseRange 0x0224 0x0224 0 1;
    mkCaseRange 0x0225 0x0225 (-1) 0; mkCaseRange 0x0226 0x0226 0 1;
    mkCaseRange 0x0227 0x0227 (-1) 0; mkCaseRange 0x0228 0x0228 0 1;
    mkCaseRange 0x0229 0x0229 (-1) 0; mkCaseRange 0x022A 0x022A 0 1;
    mkCaseRange 0x022B 0x022B (-1) 0; mkCaseRange 0x022C 0x022C 0 1;
    mkCaseRange 0x022D 0x022D (-1) 0; mkCaseRange 0x022E 0x022E 0 1;
    mkCaseRange 0x022F 0x022F (-1) 0; mkCaseRange 0x0230 0x0230 0 1;
    mkCaseRange 0x0231 0x0231 (-1) 0; mkCaseRange 0x0232 0x0232 0 1;
    mkCaseRange 0x0233 0x0233 (-1) 0; mkCaseRange 0x023A 0x023A 0 10795;
    mkCaseRange 0x023B 0x023B 0 1; mkCaseRange 0x023C 0x023C (-1) 0;
    mkCaseRange 0x023D 0x023D 0 (-163); mkCaseRange 0x023E 0x023E 0 10792;
    mkCaseRange 0x023F 0x0240 10815 0; mkCaseRange 0x0241 0x0241 0 1;
    mkCaseRange 0x0242 0x0242 (-1) 0; mkCaseRange 0x0243 0x0243 0 (-195);
    mkCaseRange 0x0244 0x0244 0 69; mkCaseRange 0x0245 0x0245 0 71;
    mkCaseRange 0x0246 0x0246 0 1; mkCaseRange 0x0247 0x0247 (-1) 0;
    mkCaseRange 0x0248 0x0248 0 1; mkCaseRange 0x0249 0x0249 (-1) 0;
    mkCaseRange 0x024A 0x024A 0 1; mkCaseRange 0x024B 0x024B (-1) 0;
    mkCaseRange 0x024C 0x024C 0 1; mkCaseRange 0x024D 0x024D (-1) 0;
    mkCaseRange 0x024E 0x024E 0 1; mkCaseRange 0x024F 0x024F (-1) 0;
    mkCaseRange 0x0250 0x0250 10783 0; mkCaseRange 0x0251 0x0251 10780 0;
    mkCaseRange 0x0252 0x0252 10782 0; mkCaseRange 0x0253 0x0253 (-210) 0;
    mkCaseRange 0x0254 0x0254 (-206) 0; mkCaseRange 0x0256 0x0257 (-205) 0;
    mkCaseRange 0x0259 0x0259 (-202) 0; mkCaseRange 0x025B 0x025B (-203) 0;
    mkCaseRange 0x025C 0x025C 42319 0; mkCaseRange 0x0260 0x0260 (-205) 0;
    mkCaseRange 0x0261 0x0261 42315 0; mkCaseRange 0x0263 0x0263 (-207) 0;
    mkCaseRange 0x0265 0x0265 42280 0; mkCaseRange 0x0266 0x0266 42308 0;
    mkCaseRange 0x0268 0x0268 (-209) 0; mkCaseRange 0x0269 0x0269 (-211) 0;
    mkCaseRange 0x026A 0x026A 42308 0; mkCaseRange 0x026B 0x026B 10743 0;
    mkCaseRange 0x026C 0x026C 42305 0; mkCaseRange 0x026F 0x026F (-211) 0;
    mkCaseRange 0x0271 0x0271 10749 0; mkCaseRange 0x0272 0x0272 (-213) 0;
    mkCaseRange 0x0275 0x0275 (-214) 0; mkCaseRange 0x027D 0x027D 10727 0;
    mkCaseRange 0x0280 0x0280 (-218) 0; mkCaseRange 0x0282 0x0282 42307 0;
    mkCaseRange 0x0283 0x0283 (-218) 0; mkCaseRange 0x0287 0x0287 42282 0;
    mkCaseRange 0x0288 0x0288 (-218) 0; mkCaseRange 0x0289 0x0289 (-69) 0;
    mkCaseRange 0x028A 0x028B (-217) 0; mkCaseRange 0x028C 0x028C (-71) 0;
    mkCaseRange 0x0292 0x0292 (-219) 0; mkCaseRange 0x029D 0x029D 42261 0;
    mkCaseRange 0x029E 0x029E 42258 0; mkCaseRange 0x0345 0x0345 84 0;
    mkCaseRange 0x0370 0x0370 0 1; mkCaseRange 0x0371 0x0371 (-1) 0;
    mkCaseRange 0x0372 0x0372 0 1; mkCaseRange 0x0373 0x0373 (-1) 0;
    mkCaseRange 0x0376 0x0376 0 1; mkCaseRange 0x0377 0x0377 (-1) 0;
    mkCaseRange 0x037B 0x037D 130 0; mkCaseRange 0x037F 0x037F 0 116;
    mkCaseRange 0x0386 0x0386 0 38; mkCaseRange 0x0388 0x038A 0 37;
    mkCaseRange 0x038C 0x038C 0 64; mkCaseRange 0x038E 0x038F 0 63;
    mkCaseRange 0x0391 0x03A1 0 32; mkCaseRange 0x03A3 0x03AB 0 32;
    mkCaseRange 0x03AC 0x03AC (-38) 0; mkCaseRange 0x03AD 0x03AF (-37) 0;
    mkCaseRange 0x03B1 0x03C1 (-32) 0; mkCaseRange 0x03C2 0x03C2 (-31) 0;
    mkCaseRange 0x03C3 0x03CB (-32) 0; mkCaseRange 0x03CC 0x03CC (-64) 0;
    mkCaseRange 0x03CD 0x03CE (-63) 0; mkCaseRange 0x03CF 0x03CF 0 8;
    mkCaseRange 0x03D0 0x03D0 (-62) 0; mkCaseRange 0x03D1 0x03D1 (-57) 0;
    mkCaseRange 0x03D5 0x03D5 (-47) 0; mkCaseRange 0x03D6 0x03D6 (-54) 0;
    mkCaseRange 0x03D7 0x03D7 (-8) 0; mkCaseRange 0x03D8 0x03D8 0 1;
    mkCaseRange 0x03D9 0x03D9 (-1) 0; mkCaseRange 0x03DA 0x03DA 0 1;
    mkCaseRange 0x03DB 0x03DB (-1) 0; mkCaseRange 0x03DC 0x03DC 0 1;
    mkCaseRange 0x03DD 0x03DD (-1) 0; mkCaseRange 0x03DE 0x03DE 0 1;
    mkCaseRange 0x03DF 0x03DF (-1) 0; mkCaseRange 0x03E0 0x03E0 0 1;
    mkCaseRange 0x03E1 0x03E1 (-1) 0; mkCaseRange 0x03E2 0x03E2 0 1;
    mkCaseRange 0x03E3 0x03E3 (-1) 0; mkCaseRange 0x03E4 0x03E4 0 1;
    mkCaseRange 0x03E5 0x03E5 (-1) 0; mkCaseRange 0x03E6 0x03E6 0 1;
    mkCaseRange 0x03E7 0x03E7 (-1) 0; mkCaseRange 0x03E8 0x03E8 0 1;
    mkCaseRange 0x03E9 0x03E9 (-1) 0; mkCaseRange 0x03EA 0x03EA 0 1;
    mkCaseRange 0x03EB 0x03EB (-1) 0; mkCaseRange 0x03EC 0x03EC 0 1;
    mkCaseRange 0x03ED 0x03ED (-1) 0; mkCaseRange 0x03EE 0x03EE 0 1;
    mkCaseRange 0x03EF 0x03EF (-1) 0; mkCaseRange 0x03F0 0x03F0 (-86) 0;
    mkCaseRange 0x03F1 0x03F1 (-80) 0; mkCaseRange 0x03F2 0x03F2 7 0;
    mkCaseRange 0x03F3 0x03F3 (-116) 0; mkCaseRange 0x03F4 0x03F4 0 (-60);
    mkCaseRange 0x03F5 0x03F5 (-96) 0; mkCaseRange 0x03F7 0x03F7 0 1;
    mkCaseRange 0x03F8 0x03F8 (-1) 0; mkCaseRange 0x03F9 0x03F9 0 (-7);
    mkCaseRange 0x03FA 0x03FA 0 1; mkCaseRange 0x03FB 0x03FB (-1) 0;
    mkCaseRange 0x03FD 0x03FF 0 (-130); mkCaseRange 0x0400 0x040F 0 80;
    mkCaseRange 0x0410 0x042F 0 32; mkCaseRange 0x0430 0x044F (-32) 0;
    mkCaseRange 0x0450 0x045F (-80) 0; mkCaseRange 0x0460 0x0460 0 1;
    mkCaseRange 0x0461 0x0461 (-1) 0; mkCaseRange 0x0462 0x0462 0 1;
    mkCaseRange 0x0463 0x0463 (-1) 0; mkCaseRange 0x0464 0x0464 0 1;
    mkCaseRange 0x0465 0x0465 (-1) 0; mkCaseRange 0x0466 0x0466 0 1;
    mkCaseRange 0x0467 0x0467 (-1) 0; mkCaseRange 0x0468 0x0468 0 1;
    mkCaseRange 0x0469 0x0469 (-1) 0; mkCaseRange 0x046A 0x046A 0 1;
    mkCaseRange 0x046B 0x046B (-1) 0; mkCaseRange 0x046C 0x046C 0 1;
    mkCaseRange 0x046D 0x046D (-1) 0; mkCaseRange 0x046E 0x046E 0 1;
    mkCaseRange 0x046F 0x046F (-1) 0; mkCaseRange 0x0470 0x0470 0 1;
    mkCaseRange 0x0471 0x0471 (-1) 0; mkCaseRange 0x0472 0x0472 0 1;
    mkCaseRange 0x0473 0x0473 (-1) 0; mkCaseRange 0x0474 0x0474 0 1;
    mkCaseRange 0x0475 0x0475 (-1) 0; mkCaseRange 0x0476 0x0476 0 1;
    mkCaseRange 0x0477 0x0477 (-1) 0; mkCaseRange 0x0478 0x0478 0 1;
    mkCaseRange 0x0479 0x0479 (-1) 0; mkCaseRange 0x047A 0x047A 0 1;
    mkCaseRange 0x047B 0x047B (-1) 0; mkCaseRange 0x047C 0x047C 0 1;
    mkCaseRange 0x047D 0x047D (-1) 0; mkCaseRange 0x047E 0x047E 0 1;
    mkCaseRange 0x047F 0x047F (-1) 0; mkCaseRange 0x0480 0x0480 0 1;
    mkCaseRange 0x0481 0x0481 (-1) 0; mkCaseRange 0x048A 0x048A 0 1;
    mkCaseRange 0x048B 0x048B (-1) 0; mkCaseRange 0x048C 0x048C 0 1;
    mkCaseRange 0x048D 0x048D (-1) 0; mkCaseRange 0x048E 0x048E 0 1;
    mkCaseRange 0x048F 0x048F (-1) 0; mkCaseRange 0x0490 0x0490 0 1;
    mkCaseRange 0x0491 0x0491 (-1) 0; mkCaseRange 0x0492 0x0492 0 1;
    mkCaseRange 0x0493 0x0493 (-1) 0; mkCaseRange 0x0494 0x0494 0 1;
    mkCaseRange 0x0495 0x0495 (-1) 0; mkCaseRange 0x0496 0x0496 0 1;
    mkCaseRange 0x0497 0x0497 (-1) 0; mkCaseRange 0x0498 0x0498 0 1;
    mkCaseRange 0x0499 0x0499 (-1) 0; mkCaseRange 0x049A 0x049A 0 1;
    mkCaseRange 0x049B 0x049B (-1) 0; mkCaseRange 0x049C 0x049C 0 1;
    mkCaseRange 0x049D 0x049D (-1) 0; mkCaseRange 0x049E 0x049E 0 1;
    mkCaseRange 0x049F 0x049F (-1) 0; mkCaseRange 0x04A0 0x04A0 0 1;
    mkCaseRange 0x04A1 0x04A1 (-1) 0; mkCaseRange 0x04A2 0x04A2 0 1;
    mkCaseRange 0x04A3 0x04A3 (-1) 0; mkCaseRange 0x04A4 0x04A4 0 1;
    mkCaseRange 0x04A5 0x04A5 (-1) 0; mkCaseRange 0x04A6 0x04A6 0 1;
    mkCaseRange 0x04A7 0x04A7 (-1) 0; mkCaseRange 0x04A8 0x04A8 0 1;
    mkCaseRange 0x04A9 0x04A9 (-1) 0; mkCaseRange 0x04AA 0x04AA 0 1;
    mkCaseRange 0x04AB 0x04AB (-1) 0; mkCaseRange 0x04AC 0x04AC 0 1;
    mkCaseRange 0x04AD 0x04AD (-1) 0; mkCaseRange 0x04AE 0x04AE 0 1;
    mkCaseRange 0x04AF 0x04AF (-1) 0; mkCaseRange 0x04B0 0x04B0 0 1;
    mkCaseRange 0x04B1 0x04B1 (-1) 0; mkCaseRange 0x04B2 0x04B2 0 1;
    mkCaseRange 0x04B3 0x04B3 (-1) 0; mkCaseRange 0x04B4 0x04B4 0 1;
    mkCaseRange 0x04B5 0x04B5 (-1) 0; mkCaseRange 0x04B6 0x04B6 0 1;
    mkCaseRange 0x04B7 0x04B7 (-1) 0; mkCaseRange 0x04B8 0x04B8 0 1;
    mkCaseRange 0x04B9 0x04B9 (-1) 0; mkCaseRange 0x04BA 0x04BA 0 1;
    mkCaseRange 0x04BB 0x04BB (-1) 0; mkCaseRange 0x04BC 0x04BC 0 1;
    mkCaseRange 0x04BD 0x04BD (-1) 0; mkCaseRange 0x04BE 0x04BE 0 1;
    mkCaseRange 0x04BF 0x04BF (-1) 0; mkCaseRange 0x04C0 0x04C0 0 15;
    mkCaseRange 0x04C1 0x04C1 0 1; mkCaseRange 0x04C2 0x04C2 (-1) 0;
    mkCaseRange 0x04C3 0x04C3 0 1; mkCaseRange 0x04C4 0x04C4 (-1) 0;
    mkCaseRange 0x04C5 0x04C5 0 1; mkCaseRange 0x04C6 0x04C6 (-1) 0;
    mkCaseRange 0x04C7 0x04C7 0 1; mkCaseRange 0x04C8 0x04C8 (-1) 0;
    mkCaseRange 0x04C9 0x04C9 0 1; mkCaseRange 0x04CA 0x04CA (-1) 0;
    mkCaseRange 0x04CB 0x04CB 0 1; mkCaseRange 0x04CC 0x04CC (-1) 0;
    mkCaseRange 0x04CD 0x04CD 0 1; mkCaseRange 0x04CE 0x04CE (-1) 0;
    mkCaseRange 0x04CF 0x04CF (-15) 0; mkCaseRange 0x04D0 0x04D0 0 1;
    mkCaseRange 0x04D1 0x04D1 (-1) 0; mkCaseRange 0x04D2 0x04D2 0 1;
    mkCaseRange 0x04D3 0x04D3 (-1) 0; mkCaseRange 0x04D4 0x04D4 0 1;
    mkCaseRange 0x04D5 0x04D5 (-1) 0; mkCaseRange 0x04D6 0x04D6 0 1;
    mkCaseRange 0x04D7 0x04D7 (-1) 0; mkCaseRange 0x04D8 0x04D8 0 1;
    mkCaseRange 0x04D9 0x04D9 (-1) 0; mkCaseRange 0x04DA 0x04DA 0 1;
    mkCaseRange 0x04DB 0x04DB (-1) 0; mkCaseRange 0x04DC 0x04DC 0 1;
    mkCaseRange 0x04DD 0x04DD (-1) 0; mkCaseRange 0x04DE 0x04DE 0 1;
    mkCaseRange 0x04DF 0x04DF (-1) 0; mkCaseRange 0x04E0 0x04E0 0 1;
    mkCaseRange 0x04E1 0x04E1 (-1) 0; mkCaseRange 0x04E2 0x04E2 0 1;
    mkCaseRange 0x04E3 0x04E3 (-1) 0; mkCaseRange 0x04E4 0x04E4 0 1;
    mkCaseRange 0x04E5 0x04E5 (-1) 0; mkCaseRange 0x04E6 0x04E6 0 1;
    mkCaseRange 0x04E7 0x04E7 (-1) 0; mkCaseRange 0x04E8 0x04E8 0 1;
    mkCaseRange 0x04E9 0x04E9 (-1) 0; mkCaseRange 0x04EA 0x04EA 0 1;
    mkCaseRange 0x04EB 0x04EB (-1) 0; mkCaseRange 0x04EC 0x04EC 0 1;
    mkCaseRange 0x04ED 0x04ED (-1) 0; mkCaseRange 0x04EE 0x04EE 0 1;
    mkCaseRange 0x04EF 0x04EF (-1) 0; mkCaseRange 0x04F0 0x04F0 0 1;
    mkCaseRange 0x04F1 0x04F1 (-1) 0; mkCaseRange 0x04F2 0x04F2 0 1;
    mkCaseRange 0x04F3 0x04F3 (-1) 0; mkCaseRange 0x04F4 0x04F4 0 1;
    mkCaseRange 0x04F5 0x04F5 (-1) 0; mkCaseRange 0x04F6 0x04F6 0 1;
    mkCaseRange 0x04F7 0x04F7 (-1) 0; mkCaseRange 0x04F8 0x04F8 0 1;
    mkCaseRange 0x04F9 0x04F9 (-1) 0; mkCaseRange 0x04FA 0x04FA 0 1;
    mkCaseRange 0x04FB 0x04FB (-1) 0; mkCaseRange 0x04FC 0x04FC 0 1;
    mkCaseRange 0x04FD 0x04FD (-1) 0; mkCaseRange 0x04FE 0x04FE 0 1;
    mkCaseRange 0x04FF 0x04FF (-1) 0; mkCaseRange 0x0500 0x0500 0 1;
    mkCaseRange 0x0501 0x0501 (-1) 0; mkCaseRange 0x0502 0x0502 0 1;
    mkCaseRange 0x0503 0x0503 (-1) 0; mkCaseRange 0x0504 0x0504 0 1;
    mkCaseRange 0x0505 0x0505 (-1) 0; mkCaseRange 0x0506 0x0506 0 1;
    mkCaseRange 0x0507 0x0507 (-1) 0; mkCaseRange 0x0508 0x0508 0 1;
    mkCaseRange 0x0509 0x0509 (-1) 0; mkCaseRange 0x050A 0x050A 0 1;
    mkCaseRange 0x050B 0x050B (-1) 0; mkCaseRange 0x050C 0x050C 0 1;
    mkCaseRange 0x050D 0x050D (-1) 0; mkCaseRange 0x050E 0x050E 0 1;
    mkCaseRange 0x050F 0x050F (-1) 0; mkCaseRange 0x0510 0x0510 0 1;
    mkCaseRange 0x0511 0x0511 (-1) 0; mkCaseRange 0x0512 0x0512 0 1;
    mkCaseRange 0x0513 0x0513 (-1) 0; mkCaseRange 0x0514 0x0514 0 1;
    mkCaseRange 0x0515 0x0515 (-1) 0; mkCaseRange 0x0516 0x0516 0 1;
    mkCaseRange 0x0517 0x0517 (-1) 0; mkCaseRange 0x0518 0x0518 0 1;
    mkCaseRange 0x0519 0x0519 (-1) 0; mkCaseRange 0x051A 0x051A 0 1;
    mkCaseRange 0x051B 0x051B (-1) 0; mkCaseRange 0x051C 0x051C 0 1;
    mkCaseRange 0x051D 0x051D (-1) 0; mkCaseRange 0x051E 0x051E 0 1;
    mkCaseRange 0x051F 0x051F (-1) 0; mkCaseRange 0x0520 0x0520 0 1;
    mkCaseRange 0x0521 0x0521 (-1) 0; mkCaseRange 0x0522 0x0522 0 1;
    mkCaseRange 0x0523 0x0523 (-1) 0; mkCaseRange 0x0524 0x0524 0 1;
    mkCaseRange 0x0525 0x0525 (-1) 0; mkCaseRange 0x0526 0x0526 0 1;
    mkCaseRange 0x0527 0x0527 (-1) 0; mkCaseRange 0x0528 0x0528 0 1;
    mkCaseRange 0x0529 0x0529 (-1) 0; mkCaseRange 0x052A 0x052A 0 1;
    mkCaseRange 0x052B 0x052B (-1) 0; mkCaseRange 0x052C 0x052C 0 1;
    mkCaseRange 0x052D 0x052D (-1) 0; mkCaseRange 0x052E 0x052E 0 1;
    mkCaseRange 0x052F 0x052F (-1) 0; mkCaseRange 0x0531 0x0556 0 48;
    mkCaseRange 0x0561 0x0586 (-48) 0; mkCaseRange 0x10A0 0x10C5 0 7264;
    mkCaseRange 0x10C7 0x10C7 0 7264; mkCaseRange 0x10CD 0x10CD 0 7264;
    mkCaseRange 0x10D0 0x10FA 3008 0; mkCaseRange 0x10FD 0x10FF 3008 0;
    mkCaseRange 0x13A0 0x13EF 0 38864; mkCaseRange 0x13F0 0x13F5 0 8;
    mkCaseRange 0x13F8 0x13FD (-8) 0; mkCaseRange 0x1C80 0x1C80 (-6254) 0;
    mkCaseRange 0x1C81 0x1C81 (-6253) 0; mkCaseRange 0x1C82 0x1C82 (-6244) 0;
    mkCaseRange 0x1C83 0x1C84 (-6242) 0; mkCaseRange 0x1C85 0x1C85 (-6243) 0;
    mkCaseRange 0x1C86 0x1C86 (-6236) 0; mkCaseRange 0x1C87 0x1C87 (-6181) 0;
    mkCaseRange 0x1C88 0x1C88 35266 0; mkCaseRange 0x1C90 0x1CBA 0 (-3008);
    mkCaseRange 0x1CBD 0x1CBF 0 (-3008); mkCaseRange 0x1D79 0x1D79 35332 0;
    mkCaseRange 0x1D7D 0x1D7D 3814 0; mkCaseRange 0x1D8E 0x1D8E 35384 0;
    mkCaseRange 0x1E00 0x1E00 0 1; mkCaseRange 0x1E01 0x1E01 (-1) 0;
    mkCaseRange 0x1E02 0x1E02 0 1; mkCaseRange 0x1E03 0x1E03 (-1) 0;
    mkCaseRange 0x1E04 0x1E04 0 1; mkCaseRange 0x1E05 0x1E05 (-1) 0;
    mkCaseRange 0x1E06 0x1E06 0 1; mkCaseRange 0x1E07 0x1E07 (-1) 0;
    mkCaseRange 0x1E08 0x1E08 0 1; mkCaseRange 0x1E09 0x1E09 (-1) 0;
    mkCaseRange 0x1E0A 0x1E0A 0 1; mkCaseRange 0x1E0B 0x1E0B (-1) 0;
    mkCaseRange 0x1E0C 0x1E0C 0 1; mkCaseRange 0x1E0D 0x1E0D (-1) 0;
    mkCaseRange 0x1E0E 0x1E0E 0 1; mkCaseRange 0x1E0F 0x1E0F (-1) 0;
    mkCaseRange 0x1E10 0x1E10 0 1; mkCaseRange 0x1E11 0x1E11 (-1) 0;
    mkCaseRange 0x1E12 0x1E12 0 1; mkCaseRange 0x1E13 0x1E13 (-1) 0;
    mkCaseRange 0x1E14 0x1E14 0 1; mkCaseRange 0x1E15 0x1E15 (-1) 0;
    mkCaseRange 0x1E16 0x1E16 0 1; mkCaseRange 0x1E17 0x1E17 (-1) 0;
    mkCaseRange 0x1E18 0x1E18 0 1; mkCaseRange 0x1E19 0x1E19 (-1) 0;
    mkCaseRange 0x1E1A 0x1E1A 0 1; mkCaseRange 0x1E1B 0x1E1B (-1) 0;
    mkCaseRange 0x1E1C 0x1E1C 0 1; mkCaseRange 0x1E1D 0x1E1D (-1) 0;
    mkCaseRange 0x1E1E 0x1E1E 0 1; mkCaseRange 0x1E1F 0x1E1F (-1) 0;
    mkCaseRange 0x1E20 0x1E20 0 1; mkCaseRange 0x1E21 0x1E21 (-1) 0;
    mkCaseRange 0x1E22 0x1E22 0 1; mkCaseRange 0x1E23 0x1E23 (-1) 0;
    mkCaseRange 0x1E24 0x1E24 0 1; mkCaseRange 0x1E25 0x1E25 (-1) 0;
    mkCaseRange 0x1E26 0x1E26 0 1; mkCaseRange 0x1E27 0x1E27 (-1) 0;
    mkCaseRange 0x1E28 0x1E28 0 1; mkCaseRange 0x1E29 0x1E29 (-1) 0;
    mkCaseRange 0x1E2A 0x1E2A 0 1; mkCaseRange 0x1E2B 0x1E2B (-1) 0;
    mkCaseRange 0x1E2C 0x1E2C 0 1; mkCaseRange 0x1E2D 0x1E2D (-1) 0;
    mkCaseRange 0x1E2E 0x1E2E 0 1; mkCaseRange 0x1E2F 0x1E2F (-1) 0;
    mkCaseRange 0x1E30 0x1E30 0 1; mkCaseRange 0x1E31 0x1E31 (-1) 0;
    mkCaseRange 0x1E32 0x1E32 0 1; mkCaseRange 0x1E33 0x1E33 (-1) 0;
    mkCaseRange 0x1E34 0x1E34 0 1; mkCaseRange 0x1E35 0x1E35 (-1) 0;
    mkCaseRange 0x1E36 0x1E36 0 1; mkCaseRange 0x1E37 0x1E37 (-1) 0;
    mkCaseRange 0x1E38 0x1E38 0 1; mkCaseRange 0x1E39 0x1E39 (-1) 0;
    mkCaseRange 0x1E3A 0x1E3A 0 1; mkCaseRange 0x1E3B 0x1E3B (-1) 0;
    mkCaseRange 0x1E3C 0x1E3C 0 1; mkCaseRange 0x1E3D 0x1E3D (-1) 0;
    mkCaseRange 0x1E3E 0x1E3E 0 1; mkCaseRange 0x1E3F 0x1E3F (-1) 0;
    mkCaseRange 0x1E40 0x1E40 0 1; mkCaseRange 0x1E41 0x1E41 (-1) 0;
    mkCaseRange 0x1E42 0x1E42 0 1; mkCaseRange 0x1E43 0x1E43 (-1) 0;
    mkCaseRange 0x1E44 0x1E44 0 1; mkCaseRange 0x1E45 0x1E45 (-1) 0;
    mkCaseRange 0x1E46 0x1E46 0 1; mkCaseRange 0x1E47 0x1E47 (-1) 0;
    mkCaseRange 0x1E48 0x1E48 0 1; mkCaseRange 0x1E49 0x1E49 (-1) 0;
    mkCaseRange 0x1E4A 0x1E4A 0 1; mkCaseRange 0x1E4B 0x1E4B (-1) 0;
    mkCaseRange 0x1E4C 0x1E4C 0 1; mkCaseRange 0x1E4D 0x1E4D (-1) 0;
    mkCaseRange 0x1E4E 0x1E4E 0 1; mkCaseRange 0x1E4F 0x1E4F (-1) 0;
    mkCaseRange 0x1E50 0x1E50 0 1; mkCaseRange 0x1E51 0x1E51 (-1) 0;
    mkCaseRange 0x1E52 0x1E52 0 1; mkCaseRange 0x1E53 0x1E53 (-1) 0;
    mkCaseRange 0x1E54 0x1E54 0 1; mkCaseRange 0x1E55 0x1E55 (-1) 0;
    mkCaseRange 0x1E56 0x1E56 0 1; mkCaseRange 0x1E57 0x1E57 (-1) 0;
    mkCaseRange 0x1E58 0x1E58 0 1; mkCaseRange 0x1E59 0x1E59 (-1) 0;
    mkCaseRange 0x1E5A 0x1E5A 0 1; mkCaseRange 0x1E5B 0x1E5B (-1) 0;
    mkCaseRange 0x1E5C 0x1E5C 0 1; mkCaseRange 0x1E5D 0x1E5D (-1) 0;
    mkCaseRange 0x1E5E 0x1E5E 0 1; mkCaseRange 0x1E5F 0x1E5F (-1) 0;
    mkCaseRange 0x1E60 0x1E60 0 1; mkCaseRange 0x1E61 0x1E61 (-1) 0;
    mkCaseRange 0x1E62 0x1E62 0 1; mkCaseRange 0x1E63 0x1E63 (-1) 0;
    mkCaseRange 0x1E64 0x1E64 0 1; mkCaseRange 0x1E65 0x1E65 (-1) 0;
    mkCaseRange 0x1E66 0x1E66 0 1; mkCaseRange 0x1E67 0x1E67 (-1) 0;
    mkCaseRange 0x1E68 0x1E68 0 1; mkCaseRange 0x1E69 0x1E69 (-1) 0;
    mkCaseRange 0x1E6A 0x1E6A 0 1; mkCaseRange 0x1E6B 0x1E6B (-1) 0;
    mkCaseRange 0x1E6C 0x1E6C 0 1; mkCaseRange 0x1E6D 0x1E6D (-1) 0;
    mkCaseRange 0x1E6E 0x1E6E 0 1; mkCaseRange 0x1E6F 0x1E6F (-1) 0;
    mkCaseRange 0x1E70 0x1E70 0 1; mkCaseRange 0x1E71 0x1E71 (-1) 0;
    mkCaseRange 0x1E72 0x1E72 0 1; mkCaseRange 0x1E73 0x1E73 (-1) 0;
    mkCaseRange 0x1E74 0x1E74 0 1; mkCaseRange 0x1E75 0x1E75 (-1) 0;
    mkCaseRange 0x1E76 0x1E76 0 1; mkCaseRange 0x1E77 0x1E77 (-1) 0;
    mkCaseRange 0x1E78 0x1E78 0 1; mkCaseRange 0x1E79 0x1E79 (-1) 0;
    mkCaseRange 0x1E7A 0x1E7A 0 1; mkCaseRange 0x1E7B 0x1E7B (-1) 0;
    mkCaseRange 0x1E7C 0x1E7C 0 1; mkCaseRange 0x1E7D 0x1E7D (-1) 0;
    mkCaseRange 0x1E7E 0x1E7E 0 1; mkCaseRange 0x1E7F 0x1E7F (-1) 0;
    mkCaseRange 0x1E80 0x1E80 0 1; mkCaseRange 0x1E81 0x1E81 (-1) 0;
    mkCaseRange 0x1E82 0x1E82 0 1; mkCaseRange 0x1E83 0x1E83 (-1) 0;
    mkCaseRange 0x1E84 0x1E84 0 1; mkCaseRange 0x1E85 0x1E85 (-1) 0;
    mkCaseRange 0x1E86 0x1E86 0 1; mkCaseRange 0x1E87 0x1E87 (-1) 0;
    mkCaseRange 0x1E88 0x1E88 0 1; mkCaseRange 0x1E89 0x1E89 (-1) 0;
    mkCaseRange 0x1E8A 0x1E8A 0 1; mkCaseRange 0x1E8B 0x1E8B (-1) 0;
    mkCaseRange 0x1E8C 0x1E8C 0 1; mkCaseRange 0x1E8D 0x1E8D (-1) 0;
    mkCaseRange 0x1E8E 0x1E8E 0 1; mkCaseRange 0x1E8F 0x1E8F (-1) 0;
    mkCaseRange 0x1E90 0x1E90 0 1; mkCaseRange 0x1E91 0x1E91 (-1) 0;
    mkCaseRange 0x1E92 0x1E92 0 1; mkCaseRange 0x1E93 0x1E93 (-1) 0;
    mkCaseRange 0x1E94 0x1E94 0 1; mkCaseRange 0x1E95 0x1E95 (-1) 0;
    mkCaseRange 0x1E9B 0x1E9B (-59) 0; mkCaseRange 0x1E9E 0x1E9E 0 (-7615);
    mkCaseRange 0x1EA0 0x1EA0 0 1; mkCaseRange 0x1EA1 0x1EA1 (-1) 0;
    mkCaseRange 0x1EA2 0x1EA2 0 1; mkCaseRange 0x1EA3 0x1EA3 (-1) 0;
    mkCaseRange 0x1EA4 0x1EA4 0 1; mkCaseRange 0x1EA5 0x1EA5 (-1) 0;
    mkCaseRange 0x1EA6 0x1EA6 0 1; mkCaseRange 0x1EA7 0x1EA7 (-1) 0;
    mkCaseRange 0x1EA8 0x1EA8 0 1; mkCaseRange 0x1EA9 0x1EA9 (-1) 0;
    mkCaseRange 0x1EAA 0x1EAA 0 1; mkCaseRange 0x1EAB 0x1EAB (-1) 0;
    mkCaseRange 0x1EAC 0x1EAC 0 1; mkCaseRange 0x1EAD 0x1EAD (-1) 0;
    mkCaseRange 0x1EAE 0x1EAE 0 1; mkCaseRange 0x1EAF 0x1EAF (-1) 0;
    mkCaseRange 0x1EB0 0x1EB0 0 1; mkCaseRange 0x1EB1 0x1EB1 (-1) 0;
    mkCaseRange 0x1EB2 0x1EB2 0 1; mkCaseRange 0x1EB3 0x1EB3 (-1) 0;
    mkCaseRange 0x1EB4 0x1EB4 0 1; mkCaseRange 0x1EB5 0x1EB5 (-1) 0;
    mkCaseRange 0x1EB6 0x1EB6 0 1; mkCaseRange 0x1EB7 0x1EB7 (-1) 0;
    mkCaseRange 0x1EB8 0x1EB8 0 1; mkCaseRange 0x1EB9 0x1EB9 (-1) 0;
    mkCaseRange 0x1EBA 0x1EBA 0 1; mkCaseRange 0x1EBB 0x1EBB (-1) 0;
    mkCaseRange 0x1EBC 0x1EBC 0 1; mkCaseRange 0x1EBD 0x1EBD (-1) 0;
    mkCaseRange 0x1EBE 0x1EBE 0 1; mkCaseRange 0x1EBF 0x1EBF (-1) 0;
    mkCaseRange 0x1EC0 0x1EC0 0 1; mkCaseRange 0x1EC1 0x1EC1 (-1) 0;
    mkCaseRange 0x1EC2 0x1EC2 0 1; mkCaseRange 0x1EC3 0x1EC3 (-1) 0;
    mkCaseRange 0x1EC4 0x1EC4 0 1; mkCaseRange 0x1EC5 0x1EC5 (-1) 0;
    mkCaseRange 0x1EC6 0x1EC6 0 1; mkCaseRange 0x1EC7 0x1EC7 (-1) 0;
    mkCaseRange 0x1EC8 0x1EC8 0 1; mkCaseRange 0x1EC9 0x1EC9 (-1) 0;
    mkCaseRange 0x1ECA 0x1ECA 0 1; mkCaseRange 0x1ECB 0x1ECB (-1) 0;
    mkCaseRange 0x1ECC 0x1ECC 0 1; mkCaseRange 0x1ECD 0x1ECD (-1) 0;
    mkCaseRange 0x1ECE 0x1ECE 0 1; mkCaseRange 0x1ECF 0x1ECF (-1) 0;
    mkCaseRange 0x1ED0 0x1ED0 0 1; mkCaseRange 0x1ED1 0x1ED1 (-1) 0;
    mkCaseRange 0x1ED2 0x1ED2 0 1; mkCaseRange 0x1ED3 0x1ED3 (-1) 0;
    mkCaseRange 0x1ED4 0x1ED4 0 1; mkCaseRange 0x1ED5 0x1ED5 (-1) 0;
    mkCaseRange 0x1ED6 0x1ED6 0 1; mkCaseRange 0x1ED7 0x1ED7 (-1) 0;
    mkCaseRange 0x1ED8 0x1ED8 0 1; mkCaseRange 0x1ED9 0x1ED9 (-1) 0;
    mkCaseRange 0x1EDA 0x1EDA 0 1; mkCaseRange 0x1EDB 0x1EDB (-1) 0;
    mkCaseRange 0x1EDC 0x1EDC 0 1; mkCaseRange 0x1EDD 0x1EDD (-1) 0;
    mkCaseRange 0x1EDE 0x1EDE 0 1; mkCaseRange 0x1EDF 0x1EDF (-1) 0;
    mkCaseRange 0x1EE0 0x1EE0 0 1; mkCaseRange 0x1EE1 0x1EE1 (-1) 0;
    mkCaseRange 0x1EE2 0x1EE2 0 1; mkCaseRange 0x1EE3 0x1EE3 (-1) 0;
    mkCaseRange 0x1EE4 0x1EE4 0 1; mkCaseRange 0x1EE5 0x1EE5 (-1) 0;
    mkCaseRange 0x1EE6 0x1EE6 0 1; mkCaseRange 0x1EE7 0x1EE7 (-1) 0;
    mkCaseRange 0x1EE8 0x1EE8 0 1; mkCaseRange 0x1EE9 0x1EE9 (-1) 0;
    mkCaseRange 0x1EEA 0x1EEA 0 1; mkCaseRange 0x1EEB 0x1EEB (-1) 0;
    mkCaseRange 0x1EEC 0x1EEC 0 1; mkCaseRange 0x1EED 0x1EED (-1) 0;
    mkCaseRange 0x1EEE 0x1EEE 0 1; mkCaseRange 0x1EEF 0x1EEF (-1) 0;
    mkCaseRange 0x1EF0 0x1EF0 0 1; mkCaseRange 0x1EF1 0x1EF1 (-1) 0;
    mkCaseRange 0x1EF2 0x1EF2 0 1; mkCaseRange 0x1EF3 0x1EF3 (-1) 0;
    mkCaseRange 0x1EF4 0x1EF4 0 1; mkCaseRange 0x1EF5 0x1EF5 (-1) 0;
    mkCaseRange 0x1EF6 0x1EF6 0 1; mkCaseRange 0x1EF7 0x1EF7 (-1) 0;
    mkCaseRange 0x1EF8 0x1EF8 0 1; mkCaseRange 0x1EF9 0x1EF9 (-1) 0;
    mkCaseRange 0x1EFA 0x1EFA 0 1; mkCaseRange 0x1EFB 0x1EFB (-1) 0;
    mkCaseRange 0x1EFC 0x1EFC 0 1; mkCaseRange 0x1EFD 0x1EFD (-1) 0;
    mkCaseRange 0x1EFE 0x1EFE 0 1; mkCaseRange 0x1EFF 0x1EFF (-1) 0;
    mkCaseRange 0x1F00 0x1F07 8 0; mkCaseRange 0x1F08 0x1F0F 0 (-8);
    mkCaseRange 0x1F10 0x1F15 8 0; mkCaseRange 0x1F18 0x1F1D 0 (-8);
    mkCaseRange 0x1F20 0x1F27 8 0; mkCaseRange 0x1F28 0x1F2F 0 (-8);
    mkCaseRange 0x1F30 0x1F37 8 0; mkCaseRange 0x1F38 0x1F3F 0 (-8);
    mkCaseRange 0x1F40 0x1F45 8 0; mkCaseRange 0x1F48 0x1F4D 0 (-8);
    mkCaseRange 0x1F51 0x1F51 8 0; mkCaseRange 0x1F53 0x1F53 8 0;
    mkCaseRange 0x1F55 0x1F55 8 0; mkCaseRange 0x1F57 0x1F57 8 0;
    mkCaseRange 0x1F59 0x1F59 0 (-8); mkCaseRange 0x1F5B 0x1F5B 0 (-8);
    mkCaseRange 0x1F5D 0x1F5D 0 (-8); mkCaseRange 0x1F5F 0x1F5F 0 (-8);
    mkCaseRange 0x1F60 0x1F67 8 0; mkCaseRange 0x1F68 0x1F6F 0 (-8);
    mkCaseRange 0x1F70 0x1F71 74 0; mkCaseRange 0x1F72 0x1F75 86 0;
    mkCaseRange 0x1F76 0x1F77 100 0; mkCaseRange 0x1F78 0x1F79 128 0;
    mkCaseRange 0x1F7A 0x1F7B 112 0; mkCaseRange 0x1F7C 0x1F7D 126 0;
    mkCaseRange 0x1F80 0x1F87 8 0; mkCaseRange 0x1F88 0x1F8F 0 (-8);
    mkCaseRange 0x1F90 0x1F97 8 0; mkCaseRange 0x1F98 0x1F9F 0 (-8);
    mkCaseRange 0x1FA0 0x1FA7 8 0; mkCaseRange 0x1FA8 0x1FAF 0 (-8);
    mkCaseRange 0x1FB0 0x1FB1 8 0; mkCaseRange 0x1FB3 0x1FB3 9 0;
    mkCaseRange 0x1FB8 0x1FB9 0 (-8); mkCaseRange 0x1FBA 0x1FBB 0 (-74);
    mkCaseRange 0x1FBC 0x1FBC 0 (-9); mkCaseRange 0x1FBE 0x1FBE (-7205) 0;
    mkCaseRange 0x1FC3 0x1FC3 9 0; mkCaseRange 0x1FC8 0x1FCB 0 (-86);
    mkCaseRange 0x1FCC 0x1FCC 0 (-9); mkCaseRange 0x1FD0 0x1FD1 8 0;
    mkCaseRange 0x1FD8 0x1FD9 0 (-8); mkCaseRange 0x1FDA 0x1FDB 0 (-100);
    mkCaseRange 0x1FE0 0x1FE1 8 0; mkCaseRange 0x1FE5 0x1FE5 7 0;
    mkCaseRange 0x1FE8 0x1FE9 0 (-8); mkCaseRange 0x1FEA 0x1FEB 0 (-112);
    mkCaseRange 0x1FEC 0x1FEC 0 (-7); mkCaseRange 0x1FF3 0x1FF3 9 0;
    mkCaseRange 0x1FF8 0x1FF9 0 (-128); mkCaseRange 0x1FFA 0x1FFB 0 (-126);
    mkCaseRange 0x1FFC 0x1FFC 0 (-9); mkCaseRange 0x2126 0x2126 0 (-7517);
    mkCaseRange 0x212A 0x212A 0 (-8383); mkCaseRange 0x212B 0x212B 0 (-8262);
    mkCaseRange 0x2132 0x2132 0 28; mkCaseRange 0x214E 0x214E (-28) 0;
    mkCaseRange 0x2160 0x216F 0 16; mkCaseRange 0x2170 0x217F (-16) 0;
    mkCaseRange 0x2183 0x2183 0 1; mkCaseRange 0x2184 0x2184 (-1) 0;
    mkCaseRange 0x24B6 0x24CF 0 26; mkCaseRange 0x24D0 0x24E9 (-26) 0;
    mkCaseRange 0x2C00 0x2C2F 0 48; mkCaseRange 0x2C30 0x2C5F (-48) 0;
    mkCaseRange 0x2C60 0x2C60 0 1; mkCaseRange 0x2C61 0x2C61 (-1) 0;
    mkCaseRange 0x2C62 0x2C62 0 (-10743); mkCaseRange 0x2C63 0x2C63 0 (-3814);
    mkCaseRange 0x2C64 0x2C64 0 (-10727); mkCaseRange 0x2C65 0x2C65 (-10795) 0;
    mkCaseRange 0x2C66 0x2C66 (-10792) 0; mkCaseRange 0x2C67 0x2C67 0 1;
    mkCaseRange 0x2C68 0x2C68 (-1) 0; mkCaseRange 0x2C69 0x2C69 0 1;
    mkCaseRange 0x2C6A 0x2C6A (-1) 0; mkCaseRange 0x2C6B 0x2C6B 0 1;
    mkCaseRange 0x2C6C 0x2C6C (-1) 0; mkCaseRange 0x2C6D 0x2C6D 0 (-10780);
    mkCaseRange 0x2C6E 0x2C6E 0 (-10749); mkCaseRange 0x2C6F 0x2C6F 0 (-10783);
    mkCaseRange 0x2C70 0x2C70 0 (-10782); mkCaseRange 0x2C72 0x2C72 0 1;
    mkCaseRange 0x2C73 0x2C73 (-1) 0; mkCaseRange 0x2C75 0x2C75 0 1;
    mkCaseRange 0x2C76 0x2C76 (-1) 0; mkCaseRange 0x2C7E 0x2C7F 0 (-10815);
    mkCaseRange 0x2C80 0x2C80 0 1; mkCaseRange 0x2C81 0x2C81 (-1) 0;
    mkCaseRange 0x2C82 0x2C82 0 1; mkCaseRange 0x2C83 0x2C83 (-1) 0;
    mkCaseRange 0x2C84 0x2C84 0 1; mkCaseRange 0x2C85 0x2C85 (-1) 0;
    mkCaseRange 0x2C86 0x2C86 0 1; mkCaseRange 0x2C87 0x2C87 (-1) 0;
    mkCaseRange 0x2C88 0x2C88 0 1; mkCaseRange 0x2C89 0x2C89 (-1) 0;
    mkCaseRange 0x2C8A 0x2C8A 0 1; mkCaseRange 0x2C8B 0x2C8B (-1) 0;
    mkCaseRange 0x2C8C 0x2C8C 0 1; mkCaseRange 0x2C8D 0x2C8D (-1) 0;
    mkCaseRange 0x2C8E 0x2C8E 0 1; mkCaseRange 0x2C8F 0x2C8F (-1) 0;
    mkCaseRange 0x2C90 0x2C90 0 1; mkCaseRange 0x2C91 0x2C91 (-1) 0;
    mkCaseRange 0x2C92 0x2C92 0 1; mkCaseRange 0x2C93 0x2C93 (-1) 0;
    mkCaseRange 0x2C94 0x2C94 0 1; mkCaseRange 0x2C95 0x2C95 (-1) 0;
    mkCaseRange 0x2C96 0x2C96 0 1; mkCaseRange 0x2C97 0x2C97 (-1) 0;
    mkCaseRange 0x2C98 0x2C98 0 1; mkCaseRange 0x2C99 0x2C99 (-1) 0;
    mkCaseRange 0x2C9A 0x2C9A 0 1; mkCaseRange 0x2C9B 0x2C9B (-1) 0;
    mkCaseRange 0x2C9C 0x2C9C 0 1; mkCaseRange 0x2C9D 0x2C9D (-1) 0;
    mkCaseRange 0x2C9E 0x2C9E 0 1; mkCaseRange 0x2C9F 0x2C9F (-1) 0;
    mkCaseRange 0x2CA0 0x2CA0 0 1; mkCaseRange 0x2CA1 0x2CA1 (-1) 0;
    mkCaseRange 0x2CA2 0x2CA2 0 1; mkCaseRange 0x2CA3 0x2CA3 (-1) 0;
    mkCaseRange 0x2CA4 0x2CA4 0 1; mkCaseRange 0x2CA5 0x2CA5 (-1) 0;
    mkCaseRange 0x2CA6 0x2CA6 0 1; mkCaseRange 0x2CA7 0x2CA7 (-1) 0;
    mkCaseRange 0x2CA8 0x2CA8 0 1; mkCaseRange 0x2CA9 0x2CA9 (-1) 0;
    mkCaseRange 0x2CAA 0x2CAA 0 1; mkCaseRange 0x2CAB 0x2CAB (-1) 0;
    mkCaseRange 0x2CAC 0x2CAC 0 1; mkCaseRange 0x2CAD 0x2CAD (-1) 0;
    mkCaseRange 0x2CAE 0x2CAE 0 1; mkCaseRange 0x2CAF 0x2CAF (-1) 0;
    mkCaseRange 0x2CB0 0x2CB0 0 1; mkCaseRange 0x2CB1 0x2CB1 (-1) 0;
    mkCaseRange 0x2CB2 0x2CB2 0 1; mkCaseRange 0x2CB3 0x2CB3 (-1) 0;
    mkCaseRange 0x2CB4 0x2CB4 0 1; mkCaseRange 0x2CB5 0x2CB5 (-1) 0;
    mkCaseRange 0x2CB6 0x2CB6 0 1; mkCaseRange 0x2CB7 0x2CB7 (-1) 0;
    mkCaseRange 0x2CB8 0x2CB8 0 1; mkCaseRange 0x2CB9 0x2CB9 (-1) 0;
    mkCaseRange 0x2CBA 0x2CBA 0 1; mkCaseRange 0x2CBB 0x2CBB (-1) 0;
    mkCaseRange 0x2CBC 0x2CBC 0 1; mkCaseRange 0x2CBD 0x2CBD (-1) 0;
    mkCaseRange 0x2CBE 0x2CBE 0 1; mkCaseRange 0x2CBF 0x2CBF (-1) 0;
    mkCaseRange 0x2CC0 0x2CC0 0 1; mkCaseRange 0x2CC1 0x2CC1 (-1) 0;
    mkCaseRange 0x2CC2 0x2CC2 0 1; mkCaseRange 0x2CC3 0x2CC3 (-1) 0;
    mkCaseRange 0x2CC4 0x2CC4 0 1; mkCaseRange 0x2CC5 0x2CC5 (-1) 0;
    mkCaseRange 0x2CC6 0x2CC6 0 1; mkCaseRange 0x2CC7 0x2CC7 (-1) 0;
    mkCaseRange 0x2CC8 0x2CC8 0 1; mkCaseRange 0x2CC9 0x2CC9 (-1) 0;
    mkCaseRange 0x2CCA 0x2CCA 0 1; mkCaseRange 0x2CCB 0x2CCB (-1) 0;
    mkCaseRange 0x2CCC 0x2CCC 0 1; mkCaseRange 0x2CCD 0x2CCD (-1) 0;
    mkCaseRange 0x2CCE 0x2CCE 0 1; mkCaseRange 0x2CCF 0x2CCF (-1) 0;
    mkCaseRange 0x2CD0 0x2CD0 0 1; mkCaseRange 0x2CD1 0x2CD1 (-1) 0;
    mkCaseRange 0x2CD2 0x2CD2 0 1; mkCaseRange 0x2CD3 0x2CD3 (-1) 0;
    mkCaseRange 0x2CD4 0x2CD4 0 1; mkCaseRange 0x2CD5 0x2CD5 (-1) 0;
    mkCaseRange 0x2CD6 0x2CD6 0 1; mkCaseRange 0x2CD7 0x2CD7 (-1) 0;
    mkCaseRange 0x2CD8 0x2CD8 0 1; mkCaseRange 0x2CD9 0x2CD9 (-1) 0;
    mkCaseRange 0x2CDA 0x2CDA 0 1; mkCaseRange 0x2CDB 0x2CDB (-1) 0;
    mkCaseRange 0x2CDC 0x2CDC 0 1; mkCaseRange 0x2CDD 0x2CDD (-1) 0;
    mkCaseRange 0x2CDE 0x2CDE 0 1; mkCaseRange 0x2CDF 0x2CDF (-1) 0;
    mkCaseRange 0x2CE0 0x2CE0 0 1; mkCaseRange 0x2CE1 0x2CE1 (-1) 0;
    mkCaseRange 0x2CE2 0x2CE2 0 1; mkCaseRange 0x2CE3 0x2CE3 (-1) 0;
    mkCaseRange 0x2CEB 0x2CEB 0 1; mkCaseRange 0x2CEC 0x2CEC (-1) 0;
    mkCaseRange 0x2CED 0x2CED 0 1; mkCaseRange 0x2CEE 0x2CEE (-1) 0;
    mkCaseRange 0x2CF2 0x2CF2 0 1; mkCaseRange 0x2CF3 0x2CF3 (-1) 0;
    mkCaseRange 0x2D00 0x2D25 (-7264) 0; mkCaseRange 0x2D27 0x2D27 (-7264) 0;
    mkCaseRange 0x2D2D 0x2D2D (-7264) 0; mkCaseRange 0xA640 0xA640 0 1;
    mkCaseRange 0xA641 0xA641 (-1) 0; mkCaseRange 0xA642 0xA642 0 1;
    mkCaseRange 0xA643 0xA643 (-1) 0; mkCaseRange 0xA644 0xA644 0 1;
    mkCaseRange 0xA645 0xA645 (-1) 0; mkCaseRange 0xA646 0xA646 0 1;
    mkCaseRange 0xA647 0xA647 (-1) 0; mkCaseRange 0xA648 0xA648 0 1;
    mkCaseRange 0xA649 0xA649 (-1) 0; mkCaseRange 0xA64A 0xA64A 0 1;
    mkCaseRange 0xA64B 0xA64B (-1) 0; mkCaseRange 0xA64C 0xA64C 0 1;
    mkCaseRange 0xA64D 0xA64D (-1) 0; mkCaseRange 0xA64E 0xA64E 0 1;
    mkCaseRange 0xA64F 0xA64F (-1) 0; mkCaseRange 0xA650 0xA650 0 1;
    mkCaseRange 0xA651 0xA651 (-1) 0; mkCaseRange 0xA652 0xA652 0 1;
    mkCaseRange 0xA653 0xA653 (-1) 0; mkCaseRange 0xA654 0xA654 0 1;
    mkCaseRange 0xA655 0xA655 (-1) 0; mkCaseRange 0xA656 0xA656 0 1;
    mkCaseRange 0xA657 0xA657 (-1) 0; mkCaseRange 0xA658 0xA658 0 1;
    mkCaseRange 0xA659 0xA659 (-1) 0; mkCaseRange 0xA65A 0xA65A 0 1;
    mkCaseRange 0xA65B 0xA65B (-1) 0; mkCaseRange 0xA65C 0xA65C 0 1;
    mkCaseRange 0xA65D 0xA65D (-1) 0; mkCaseRange 0xA65E 0xA65E 0 1;
    mkCaseRange 0xA65F 0xA65F (-1) 0; mkCaseRange 0xA660 0xA660 0 1;
    mkCaseRange 0xA661 0xA661 (-1) 0; mkCaseRange 0xA662 0xA662 0 1;
    mkCaseRange 0xA663 0xA663 (-1) 0; mkCaseRange 0xA664 0xA664 0 1;
    mkCaseRange 0xA665 0xA665 (-1) 0; mkCaseRange 0xA666 0xA666 0 1;
    mkCaseRange 0xA667 0xA667 (-1) 0; mkCaseRange 0xA668 0xA668 0 1;
    mkCaseRange 0xA669 0xA669 (-1) 0; mkCaseRange 0xA66A 0xA66A 0 1;
    mkCaseRange 0xA66B 0xA66B (-1) 0; mkCaseRange 0xA66C 0xA66C 0 1;
    mkCaseRange 0xA66D 0xA66D (-1) 0; mkCaseRange 0xA680 0xA680 0 1;
    mkCaseRange 0xA681 0xA681 (-1) 0; mkCaseRange 0xA682 0xA682 0 1;
    mkCaseRange 0xA683 0xA683 (-1) 0; mkCaseRange 0xA684 0xA684 0 1;
    mkCaseRange 0xA685 0xA685 (-1) 0; mkCaseRange 0xA686 0xA686 0 1;
    mkCaseRange 0xA687 0xA687 (-1) 0; mkCaseRange 0xA688 0xA688 0 1;
    mkCaseRange 0xA689 0xA689 (-1) 0; mkCaseRange 0xA68A 0xA68A 0 1;
    mkCaseRange 0xA68B 0xA68B (-1) 0; mkCaseRange 0xA68C 0xA68C 0 1;
    mkCaseRange 0xA68D 0xA68D (-1) 0; mkCaseRange 0xA68E 0xA68E 0 1;
    mkCaseRange 0xA68F 0xA68F (-1) 0; mkCaseRange 0xA690 0xA690 0 1;
    mkCaseRange 0xA691 0xA691 (-1) 0; mkCaseRange 0xA692 0xA692 0 1;
    mkCaseRange 0xA693 0xA693 (-1) 0; mkCaseRange 0xA694 0xA694 0 1;
    mkCaseRange 0xA695 0xA695 (-1) 0; mkCaseRange 0xA696 0xA696 0 1;
    mkCaseRange 0xA697 0xA697 (-1) 0; mkCaseRange 0xA698 0xA698 0 1;
    mkCaseRange 0xA699 0xA699 (-1) 0; mkCaseRange 0xA69A 0xA69A 0 1;
    mkCaseRange 0xA69B 0xA69B (-1) 0; mkCaseRange 0xA722 0xA722 0 1;
    mkCaseRange 0xA723 0xA723 (-1) 0; mkCaseRange 0xA724 0xA724 0 1;
    mkCaseRange 0xA725 0xA725 (-1) 0; mkCaseRange 0xA726 0xA726 0 1;
    mkCaseRange 0xA727 0xA727 (-1) 0; mkCaseRange 0xA728 0xA728 0 1;
    mkCaseRange 0xA729 0xA729 (-1) 0; mkCaseRange 0xA72A 0xA72A 0 1;
    mkCaseRange 0xA72B 0xA72B (-1) 0; mkCaseRange 0xA72C 0xA72C 0 1;
    mkCaseRange 0xA72D 0xA72D (-1) 0; mkCaseRange 0xA72E 0xA72E 0 1;
    mkCaseRange 0xA72F 0xA72F (-1) 0; mkCaseRange 0xA732 0xA732 0 1;
    mkCaseRange 0xA733 0xA733 (-1) 0; mkCaseRange 0xA734 0xA734 0 1;
    mkCaseRange 0xA735 0xA735 (-1) 0; mkCaseRange 0xA736 0xA736 0 1;
    mkCaseRange 0xA737 0xA737 (-1) 0; mkCaseRange 0xA738 0xA738 0 1;
    mkCaseRange 0xA739 0xA739 (-1) 0; mkCaseRange 0xA73A 0xA73A 0 1;
    mkCaseRange 0xA73B 0xA73B (-1) 0; mkCaseRange 0xA73C 0xA73C 0 1;
    mkCaseRange 0xA73D 0xA73D (-1) 0; mkCaseRange 0xA73E 0xA73E 0 1;
    mkCaseRange 0xA73F 0xA73F (-1) 0; mkCaseRange 0xA740 0xA740 0 1;
    mkCaseRange 0xA741 0xA741 (-1) 0; mkCaseRange 0xA742 0xA742 0 1;
    mkCaseRange 0xA743 0xA743 (-1) 0; mkCaseRange 0xA744 0xA744 0 1;
    mkCaseRange 0xA745 0xA745 (-1) 0; mkCaseRange 0xA746 0xA746 0 1;
    mkCaseRange 0xA747 0xA747 (-1) 0; mkCaseRange 0xA748 0xA748 0 1;
    mkCaseRange 0xA749 0xA749 (-1) 0; mkCaseRange 0xA74A 0xA74A 0 1;
    mkCaseRange 0xA74B 0xA74B (-1) 0; mkCaseRange 0xA74C 0xA74C 0 1;
    mkCaseRange 0xA74D 0xA74D (-1) 0; mkCaseRange 0xA74E 0xA74E 0 1;
    mkCaseRange 0xA74F 0xA74F (-1) 0; mkCaseRange 0xA750 0xA750 0 1;
    mkCaseRange 0xA751 0xA751 (-1) 0; mkCaseRange 0xA752 0xA752 0 1;
    mkCaseRange 0xA753 0xA753 (-1) 0; mkCaseRange 0xA754 0xA754 0 1;
    mkCaseRange 0xA755 0xA755 (-1) 0; mkCaseRange 0xA756 0xA756 0 1;
    mkCaseRange 0xA757 0xA757 (-1) 0; mkCaseRange 0xA758 0xA758 0 1;
    mkCaseRange 0xA759 0xA759 (-1) 0; mkCaseRange 0xA75A 0xA75A 0 1;
    mkCaseRange 0xA75B 0xA75B (-1) 0; mkCaseRange 0xA75C 0xA75C 0 1;
    mkCaseRange 0xA75D 0xA75D (-1) 0; mkCaseRange 0xA75E 0xA75E 0 1;
    mkCaseRange 0xA75F 0xA75F (-1) 0; mkCaseRange 0xA760 0xA760 0 1;
    mkCaseRange 0xA761 0xA761 (-1) 0; mkCaseRange 0xA762 0xA762 0 1;
    mkCaseRange 0xA763 0xA763 (-1) 0; mkCaseRange 0xA764 0xA764 0 1;
    mkCaseRange 0xA765 0xA765 (-1) 0; mkCaseRange 0xA766 0xA766 0 1;
    mkCaseRange 0xA767 0xA767 (-1) 0; mkCaseRange 0xA768 0xA768 0 1;
    mkCaseRange 0xA769 0xA769 (-1) 0; mkCaseRange 0xA76A 0xA76A 0 1;
    mkCaseRange 0xA76B 0xA76B (-1) 0; mkCaseRange 0xA76C 0xA76C 0 1;
    mkCaseRange 0xA76D 0xA76D (-1) 0; mkCaseRange 0xA76E 0xA76E 0 1;
    mkCaseRange 0xA76F 0xA76F (-1) 0; mkCaseRange 0xA779 0xA779 0 1;
    mkCaseRange 0xA77A 0xA77A (-1) 0; mkCaseRange 0xA77B 0xA77B 0 1;
    mkCaseRange 0xA77C 0xA77C (-1) 0; mkCaseRange 0xA77D 0xA77D 0 (-35332);
    mkCaseRange 0xA77E 0xA77E 0 1; mkCaseRange 0xA77F 0xA77F (-1) 0;
    mkCaseRange 0xA780 0xA780 0 1; mkCaseRange 0xA781 0xA781 (-1) 0;
    mkCaseRange 0xA782 0xA782 0 1; mkCaseRange 0xA783 0xA783 (-1) 0;
    mkCaseRange 0xA784 0xA784 0 1; mkCaseRange 0xA785 0xA785 (-1) 0;
    mkCaseRange 0xA786 0xA786 0 1; mkCaseRange 0xA787 0xA787 (-1) 0;
    mkCaseRange 0xA78B 0xA78B 0 1; mkCaseRange 0xA78C 0xA78C (-1) 0;
    mkCaseRange 0xA78D 0xA78D 0 (-42280); mkCaseRange 0xA790 0xA790 0 1;
    mkCaseRange 0xA791 0xA791 (-1) 0; mkCaseRange 0xA792 0xA792 0 1;
    mkCaseRange 0xA793 0xA793 (-1) 0; mkCaseRange 0xA794 0xA794 48 0;
    mkCaseRange 0xA796 0xA796 0 1; mkCaseRange 0xA797 0xA797 (-1) 0;
    mkCaseRange 0xA798 0xA798 0 1; mkCaseRange 0xA799 0xA799 (-1) 0;
    mkCaseRange 0xA79A 0xA79A 0 1; mkCaseRange 0xA79B 0xA79B (-1) 0;
    mkCaseRange 0xA79C 0xA79C 0 1; mkCaseRange 0xA79D 0xA79D (-1) 0;
    mkCaseRange 0xA79E 0xA79E 0 1; mkCaseRange 0xA79F 0xA79F (-1) 0;
    mkCaseRange 0xA7A0 0xA7A0 0 1; mkCaseRange 0xA7A1 0xA7A1 (-1) 0;
    mkCaseRange 0xA7A2 0xA7A2 0 1; mkCaseRange 0xA7A3 0xA7A3 (-1) 0;
    mkCaseRange 0xA7A4 0xA7A4 0 1; mkCaseRange 0xA7A5 0xA7A5 (-1) 0;
    mkCaseRange 0xA7A6 0xA7A6 0 1; mkCaseRange 0xA7A7 0xA7A7 (-1) 0;
    mkCaseRange 0xA7A8 0xA7A8 0 1; mkCaseRange 0xA7A9 0xA7A9 (-1) 0;
    mkCaseRange 0xA7AA 0xA7AA 0 (-42308); mkCaseRange 0xA7AB 0xA7AB 0 (-42319);
    mkCaseRange 0xA7AC 0xA7AC 0 (-42315); mkCaseRange 0xA7AD 0xA7AD 0 (-42305);
    mkCaseRange 0xA7AE 0xA7AE 0 (-42308); mkCaseRange 0xA7B0 0xA7B0 0 (-42258);
    mkCaseRange 0xA7B1 0xA7B1 0 (-42282); mkCaseRange 0xA7B2 0xA7B2 0 (-42261);
    mkCaseRange 0xA7B3 0xA7B3 0 928; mkCaseRange 0xA7B4 0xA7B4 0 1;
    mkCaseRange 0xA7B5 0xA7B5 (-1) 0; mkCaseRange 0xA7B6 0xA7B6 0 1;
    mkCaseRange 0xA7B7 0xA7B7 (-1) 0; mkCaseRange 0xA7B8 0xA7B8 0 1;
    mkCaseRange 0xA7B9 0xA7B9 (-1) 0; mkCaseRange 0xA7BA 0xA7BA 0 1;
    mkCaseRange 0xA7BB 0xA7BB (-1) 0; mkCaseRange 0xA7BC 0xA7BC 0 1;
    mkCaseRange 0xA7BD 0xA7BD (-1) 0; mkCaseRange 0xA7BE 0xA7BE 0 1;
    mkCaseRange 0xA7BF 0xA7BF (-1) 0; mkCaseRange 0xA7C0 0xA7C0 0 1;
    mkCaseRange 0xA7C1 0xA7C1 (-1) 0; mkCaseRange 0xA7C2 0xA7C2 0 1;
    mkCaseRange 0xA7C3 0xA7C3 (-1) 0; mkCaseRange 0xA7C4 0xA7C4 0 (-48);
    mkCaseRange 0xA7C5 0xA7C5 0 (-42307); mkCaseRange 0xA7C6 0xA7C6 0 (-35384);
    mkCaseRange 0xA7C7 0xA7C7 0 1; mkCaseRange 0xA7C8 0xA7C8 (-1) 0;
    mkCaseRange 0xA7C9 0xA7C9 0 1; mkCaseRange 0xA7CA 0xA7CA (-1) 0;
    mkCaseRange 0xA7D0 0xA7D0 0 1; mkCaseRange 0xA7D1 0xA7D1 (-1) 0;
    mkCaseRange 0xA7D6 0xA7D6 0 1; mkCaseRange 0xA7D7 0xA7D7 (-1) 0;
    mkCaseRange 0xA7D8 0xA7D8 0 1; mkCaseRange 0xA7D9 0xA7D9 (-1) 0;
    mkCaseRange 0xA7F5 0xA7F5 0 1; mkCaseRange 0xA7F6 0xA7F6 (-1) 0;
    mkCaseRange 0xAB53 0xAB53 (-928) 0; mkCaseRange 0xAB70 0xABBF (-38864) 0;
    mkCaseRange 0xFF21 0xFF3A 0 32; mkCaseRange 0xFF41 0xFF5A (-32) 0;
    mkCaseRange 0x10400 0x10427 0 40; mkCaseRange 0x10428 0x1044F (-40) 0;
    mkCaseRange 0x104B0 0x104D3 0 40; mkCaseRange 0x104D8 0x104FB (-40) 0;
    mkCaseRange 0x10570 0x1057A 0 39; mkCaseRange 0x1057C 0x1058A 0 39;
    mkCaseRange 0x1058C 0x10592 0 39; mkCaseRange 0x10594 0x10595 0 39;
    mkCaseRange 0x10597 0x105A1 (-39) 0; mkCaseRange 0x105A3 0x105B1 (-39) 0;
    mkCaseRange 0x105B3 0x105B9 (-39) 0; mkCaseRange 0x105BB 0x105BC (-39) 0;
    mkCaseRange 0x10C80 0x10CB2 0 64; mkCaseRange 0x10CC0 0x10CF2 (-64) 0;
    mkCaseRange 0x118A0 0x118BF 0 32; mkCaseRange 0x118C0 0x118DF (-32) 0;
    mkCaseRange 0x16E40 0x16E5F 0 32; mkCaseRange 0x16E60 0x16E7F (-32) 0;
    mkCaseRange 0x1E900 0x1E921 0 34; mkCaseRange 0x1E922 0x1E943 (-34) 0 ].

(** [to] finds the range of [r] (Go by binary search, here from the
    front: the ranges are disjoint) and adds the distance. *)
Fixpoint to (delta : CaseRange -> Z) (r : Z) (caseRange : list CaseRange) : Z :=
  match caseRange with
  | [] => r
  | cr :: rest =>
    if (Lo cr <=? r) && (r <=? Hi cr) then r + delta cr
    else to delta r rest
  end.

Definition ToUpper (r : Z) : Z :=
  if r <=? MaxASCII then
    (if (97 <=? r) && (r <=? 122) then r - 32 else r)
  else to deltaUpper r CaseRanges.

Definition ToLower (r : Z) : Z :=
  if r <=? MaxASCII then
    (if (65 <=? r) && (r <=? 90) then r + 32 else r)
  else to deltaLower r CaseRanges.

End unicode.

(** ** Package [strings] *)

Module strings.

Definition isASCII (s : string) : bool :=
  string_forallb (fun c => byte_val c <? utf8.RuneSelf) s.

Definition upper_byte (c : ascii) : ascii :=
  let b := byte_val c in
  if (97 <=? b) && (b <=? 122) then byte_of (b - 32) else c.

Definition lower_byte (c : ascii) : ascii :=
  let b := byte_val c in
  if (65 <=? b) && (b <=? 90) then byte_of (b + 32) else c.

(** [Map]: every rune of [s] (an invalid byte counts as [RuneError]) is
    replaced by the encoding of its image; a negative image is dropped. *)
Definition Map (mapping : Z -> Z) (s : string) : string :=
  bytes_of
    (flat_map (fun c => let r := mapping c in
                        if r <? 0 then [] else utf8.EncodeRune r)
              (utf8.runes s)).

(** [ToUpper] and [ToLower] rewrite an ASCII-only string byte by byte and
    go through [Map] otherwise. *)
Definition ToUpper (s : string) : string :=
  if isASCII s then string_map upper_byte s else Map unicode.ToUpper s.

Definition ToLower (s : string) : string :=
  if isASCII s then string_map lower_byte s else Map unicode.ToLower s.

End strings.

(** ** Package [bluemonday] *)

Module bluemonday.

(** The bytes [html.EscapeString] rewrites or the tokenizer reads as
    markup: [&], ['], [<], [>], the double quote, carriage return, and
    NUL. *)
Definition special (c : ascii) : bool :=
  let b := byte_val c in
  (b =? 38) || (b =? 39) || (b =? 60) || (b =? 62) || (b =? 34) ||
  (b =? 13) || (b =? 0).

(** Text with no markup in it: no tag can start, no entity, nothing to
    escape. *)
Definition plain (s : string) : bool :=
  string_forallb (fun c => negb (special c)) s.

(** A policy as [BeforeSave] uses it: its method [Sanitize]. Of the
    strict policy one fact is used: text without markup reaches the
    output unchanged (the tokenizer reads it as one text token, which has
    no entity to decode and nothing to escape). *)
Record Policy : Type := mkPolicy {
  Sanitize : string -> string;
  Sanitize_plain : forall s, plain s = true -> Sanitize s = s
}.

(** One such policy, to evaluate the hook on concrete users: it drops
    everything from a [<] to the next [>] and every other special byte. *)
Fixpoint strip (inTag : bool) (s : string) : string :=
  match s with
  | EmptyString => EmptyString
  | String c t =>
    if inTag then strip (negb (byte_val c =? 62)) t
    else if byte_val c =? 60 then strip true t
    else if special c then strip false t
    else String c (strip false t)
  end.

Lemma strip_plain (s : string) : plain s = true -> strip false s = s.
Proof.
  induction s as [|c t IH]; simpl; [reflexivity|].
  intros H. apply andb_prop in H. destruct H as [Hc Ht].
  assert (Hlt : (byte_val c =? 60) = false).
  { unfold special in Hc. destruct (byte_val c =? 60); [|reflexivity].
    rewrite !orb_true_r in Hc. discriminate. }
  rewrite Hlt. apply negb_true_iff in Hc. rewrite Hc. f_equal. exact (IH Ht).
Qed.

Definition reference : Policy := mkPolicy (strip false) strip_plain.

(** [html.EscapeString] on one byte. *)
Definition escape (c : ascii) : string :=
  let b := byte_val c in
  if b =? 38 then "&amp;"
  else if b =? 39 then "&#39;"
  else if b =? 60 then "&lt;"
  else if b =? 62 then "&gt;"
  else if b =? 34 then "&#34;"
  else if b =? 13 then "&#13;"
  else String c EmptyString.

(** A policy that reads character references as the HTML tokenizer
    does, for the entity names [amp], [lt], [gt] and [Lt]: the reference
    is replaced by its character, and the text is written back escaped.
    Entity names are case-sensitive: [&lt;] is the less-than sign, which
    is escaped again, and [&Lt;] is U+226A. An ampersand that starts none
    of these references is text, as is every byte outside a tag. *)
Fixpoint unescape_escape (inTag : bool) (s : string) : string :=
  match s with
  | EmptyString => EmptyString
  | String c t =>
    if inTag then unescape_escape (negb (byte_val c =? 62)) t
    else if byte_val c =? 60 then unescape_escape true t
    else if byte_val c =? 38 then
      match t with
      | String "L"%char (String "t"%char (String ";"%char r)) =>
        bytes_of [0xE2; 0x89; 0xAA] ++ unescape_escape false r
      | String "l"%char (String "t"%char (String ";"%char r)) =>
        "&lt;" ++ unescape_escape false r
      | String "g"%char (String "t"%char (String ";"%char r)) =>
        "&gt;" ++ unescape_escape false r
      | String "a"%char (String "m"%char (String "p"%char (String ";"%char r))) =>
        "&amp;" ++ unescape_escape false r
      | _ => "&amp;" ++ unescape_escape false t
      end
    else escape c ++ unescape_escape false t
  end.

Lemma unescape_escape_plain (s : string) :
  plain s = true -> unescape_escape false s = s.
Proof.
  induction s as [|c t IH]; [reflexivity|].
  cbn [plain string_forallb]. intros H. apply andb_prop in H. destruct H as [Hc Ht].
  apply negb_true_iff in Hc. unfold special in Hc.
  repeat (apply orb_false_elim in Hc; destruct Hc as [Hc ?]).
  cbn [unescape_escape]. unfold escape.
  repeat match goal with E : (byte_val c =? _) = false |- _ => rewrite E; clear E end.
  cbn [append]. f_equal. exact (IH Ht).
Qed.

Definition with_references : Policy :=
  mkPolicy (unescape_escape false) unescape_escape_plain.

End bluemonday.

(** ** Package [database/sql] *)

Module sql.

Record NullString : Type := mkNullString {
  String : string;
  Valid : bool
}.

End sql.

(** ** Package [database] *)

(** Go's fixed-width integers, as integers: the file compares an Id with
    0 and passes [RowsAffected] on, and does no arithmetic that could wrap.
    A [uint64] the store holds is a key it handed out or accepted. *)
Definition uint64 : Type := Z.
Definition uint : Type := Z.
Definition int64 : Type := Z.

(** [time.Time] as an instant count; [0] is the zero value. *)
Definition time_Time : Type := Z.

(** Go's [error] values met in this file: one made by [errors.New], the
    driver's report of a violated unique constraint, and any other fault
    of the backend. [None] of [option error] is [nil]. *)
Inductive error : Type :=
| errors_New (text : string)
| ErrUniqueViolation (column : string)
| ErrBackend (text : string).

(** A fault of the backend. The connection may be closed, so that no
    transaction opens and a write fails before its hooks run; or the
    connection stands and the statement itself fails (a timeout, a
    serialization failure, a constraint other than the unique ones). *)
Inductive Fault : Type :=
| ConnectionClosed (text : string)
| StatementFailed (text : string).

Definition fault_error (f : Fault) : error :=
  match f with
  | ConnectionClosed m => ErrBackend m
  | StatementFailed m => ErrBackend m
  end.

(** ** Package [gorm]: what its release and the other files decide *)

(** A selected name that is no field of the schema is read by gorm's
    regular expression [nameMatcher], which strips quotes and the name of
    the table; the expression is not the same in every release of gorm.
    Here it is a parameter: the keys under which gorm records such a name
    as selected. *)
Class NameMatcher : Type :=
  nameMatcher : string -> list string.

(** [T_ownership] is declared in another file of the package. What the
    table of ownerships holds for a user once the ownerships of the
    struct were written for it ([INSERT ... ON CONFLICT]) depends on the
    keys that file declares: [upsert written stored]. The keys gorm
    fills into a written ownership are fields of that type, too, and are
    not seen here. *)
Class Ownership (T_ownership : Type) : Type :=
  upsert : list T_ownership -> list T_ownership -> list T_ownership.

(** The expression of gorm 1.25 (the star written as a class),
    [^(?:\W?(\w+?)\W?\.)?(?:([*])|\W?(\w+?)\W?)$], read on the runes of
    the name: an optional table name with its dot, then a star or a column
    name; each name is a run of word characters that one other character
    may precede and one may follow. *)
Module gorm.

(** [\w]: an ASCII letter, a digit or the underscore. *)
Definition word (r : Z) : bool :=
  ((48 <=? r) && (r <=? 57)) || ((65 <=? r) && (r <=? 90)) ||
  ((97 <=? r) && (r <=? 122)) || (r =? 95).

(** The longest run of word characters at the front, and the rest. *)
Fixpoint span_word (l : list Z) : list Z * list Z :=
  match l with
  | [] => ([], [])
  | r :: t =>
    if word r then let (w, rest) := span_word t in (r :: w, rest)
    else ([], l)
  end.

(** [\W?]: one character that is no word character, if there is one. *)
Definition skip_other (l : list Z) : list Z :=
  match l with
  | r :: t => if word r then l else t
  | [] => l
  end.

(** [([*])|\W?(\w+?)\W?] up to the end: the star or the name. *)
Definition column_part (l : list Z) : option (list Z) :=
  match l with
  | [42] => Some [42]
  | _ =>
    match span_word (skip_other l) with
    | ((_ :: _) as w, []) => Some w
    | ((_ :: _) as w, [_]) => Some w
    | _ => None
    end
  end.

(** [matchName]: the table and the column a name is read as, two empty
    strings when the expression does not match. *)
Definition matchName (column : string) : string * string :=
  let l := utf8.runes column in
  let unqualified :=
    match column_part l with
    | Some c => ("", bytes_of c)
    | None => ("", "")
    end in
  match span_word (skip_other l) with
  | ((_ :: _) as table, rest) =>
    let after_dot :=
      match rest with
      | _ :: 46 :: r => column_part r
      | _ => None
      end in
    let after_dot :=
      match after_dot, rest with
      | None, 46 :: r => column_part r
      | _, _ => after_dot
      end in
    match after_dot with
    | Some c => (bytes_of table, bytes_of c)
    | None => unqualified
    end
  | _ => unqualified
  end.

End gorm.

(** ** Package [encoding/json] *)

(** What [encoding/json] writes for a value: a number, a string, a
    boolean, a time (as RFC 3339 text), a byte slice (as base64 text), an
    array, or an object with its members in order. *)
#[warnings="-register-all"]
Inductive json : Type :=
| J_number (n : Z)
| J_string (s : string)
| J_bool (b : bool)
| J_time (t : time_Time)
| J_base64 (l : list Byte.byte)
| J_array (l : list json)
| J_object (members : list (string * json)).

(** A string value is coerced to valid UTF-8 when it is written: every
    invalid byte becomes U+FFFD. *)
Definition json_string (s : string) : json :=
  J_string (bytes_of (flat_map utf8.EncodeRune (utf8.runes s))).

Section Database.

(** [T_ownership] is declared in another file of the package; here it is
    a parameter, with what [encoding/json] writes for it. *)
Context {T_ownership : Type} {ownership : Ownership T_ownership}.
Context {matcher : NameMatcher}.
Variable ownership_json : T_ownership -> json.

(** The policy [bluemonday.StrictPolicy()] returns. *)
Variable StrictPolicy : bluemonday.Policy.

Record T_user : Type := mkT_user {
  Id : uint64;
  Email : string;
  Password : sql.NullString;
  SsoId : sql.NullString;
  Company : string;
  Department : string;
  Created : time_Time;
  LastLogin : time_Time;
  LogoutCount : uint;
  Active : bool;
  Admin : bool;
  Name : string;
  Surname : string;
  Gender : string;
  Certificate : list Byte.byte;
  DbPasswordHash : string;
  Ownerships : list T_ownership
}.

Definition set_Id (v : uint64) (u : T_user) : T_user :=
  mkT_user v (Email u) (Password u) (SsoId u) (Company u) (Department u)
    (Created u) (LastLogin u) (LogoutCount u) (Active u) (Admin u) (Name u)
    (Surname u) (Gender u) (Certificate u) (DbPasswordHash u) (Ownerships u).

Definition set_Email (v : string) (u : T_user) : T_user :=
  mkT_user (Id u) v (Password u) (SsoId u) (Company u) (Department u)
    (Created u) (LastLogin u) (LogoutCount u) (Active u) (Admin u) (Name u)
    (Surname u) (Gender u) (Certificate u) (DbPasswordHash u) (Ownerships u).

Definition set_Password (v : sql.NullString) (u : T_user) : T_user :=
  mkT_user (Id u) (Email u) v (SsoId u) (Company u) (Department u)
    (Created u) (LastLogin u) (LogoutCount u) (Active u) (Admin u) (Name u)
    (Surname u) (Gender u) (Certificate u) (DbPasswordHash u) (Ownerships u).

Definition set_SsoId (v : sql.NullString) (u : T_user) : T_user :=
  mkT_user (Id u) (Email u) (Password u) v (Company u) (Department u)
    (Created u) (LastLogin u) (LogoutCount u) (Active u) (Admin u) (Name u)
    (Surname u) (Gender u) (Certificate u) (DbPasswordHash u) (Ownerships u).

Definition set_Company (v : string) (u : T_user) : T_user :=
  mkT_user (Id u) (Email u) (Password u) (SsoId u) v (Department u)
    (Created u) (LastLogin u) (LogoutCount u) (Active u) (Admin u) (Name u)
    (Surname u) (Gender u) (Certificate u) (DbPasswordHash u) (Ownerships u).

Definition set_Department (v : string) (u : T_user) : T_user :=
  mkT_user (Id u) (Email u) (Password u) (SsoId u) (Company u) v
    (Created u) (LastLogin u) (LogoutCount u) (Active u) (Admin u) (Name u)
    (Surname u) (Gender u) (Certificate u) (DbPasswordHash u) (Ownerships u).

Definition set_Created (v : time_Time) (u : T_user) : T_user :=
  mkT_user (Id u) (Email u) (Password u) (SsoId u) (Company u) (Department u)
    v (LastLogin u) (LogoutCount u) (Active u) (Admin u) (Name u)
    (Surname u) (Gender u) (Certificate u) (DbPasswordHash u) (Ownerships u).

Definition set_LastLogin (v : time_Time) (u : T_user) : T_user :=
  mkT_user (Id u) (Email u) (Password u) (SsoId u) (Company u) (Department u)
    (Created u) v (LogoutCount u) (Active u) (Admin u) (Name u)
    (Surname u) (Gender u) (Certificate u) (DbPasswordHash u) (Ownerships u).

Definition set_LogoutCount (v : uint) (u : T_user) : T_user :=
  mkT_user (Id u) (Email u) (Password u) (SsoId u) (Company u) (Department u)
    (Created u) (LastLogin u) v (Active u) (Admin u) (Name u)
    (Surname u) (Gender u) (Certificate u) (DbPasswordHash u) (Ownerships u).

Definition set_Active (v : bool) (u : T_user) : T_user :=
  mkT_user (Id u) (Email u) (Password u) (SsoId u) (Company u) (Department u)
    (Created u) (LastLogin u) (LogoutCount u) v (Admin u) (Name u)
    (Surname u) (Gender u) (Certificate u) (DbPasswordHash u) (Ownerships u).

Definition set_Admin (v : bool) (u : T_user) : T_user :=
  mkT_user (Id u) (Email u) (Password u) (SsoId u) (Company u) (Department u)
    (Created u) (LastLogin u) (LogoutCount u) (Active u) v (Name u)
    (Surname u) (Gender u) (Certificate u) (DbPasswordHash u) (Ownerships u).

Definition set_Name (v : string) (u : T_user) : T_user :=
  mkT_user (Id u) (Email u) (Password u) (SsoId u) (Company u) (Department u)
    (Created u) (LastLogin u) (LogoutCount u) (Active u) (Admin u) v
    (Surname u) (Gender u) (Certificate u) (DbPasswordHash u) (Ownerships u).

Definition set_Surname (v : string) (u : T_user) : T_user :=
  mkT_user (Id u) (Email u) (Password u) (SsoId u) (Company u) (Department u)
    (Created u) (LastLogin u) (LogoutCount u) (Active u) (Admin u) (Name u)
    v (Gender u) (Certificate u) (DbPasswordHash u) (Ownerships u).

Definition set_Gender (v : string) (u : T_user) : T_user :=
  mkT_user (Id u) (Email u) (Password u) (SsoId u) (Company u) (Department u)
    (Created u) (LastLogin u) (LogoutCount u) (Active u) (Admin u) (Name u)
    (Surname u) v (Certificate u) (DbPasswordHash u) (Ownerships u).

Definition set_Certificate (v : list Byte.byte) (u : T_user) : T_user :=
  mkT_user (Id u) (Email u) (Password u) (SsoId u) (Company u) (Department u)
    (Created u) (LastLogin u) (LogoutCount u) (Active u) (Admin u) (Name u)
    (Surname u) (Gender u) v (DbPasswordHash u) (Ownerships u).

Definition set_DbPasswordHash (v : string) (u : T_user) : T_user :=
  mkT_user (Id u) (Email u) (Password u) (SsoId u) (Company u) (Department u)
    (Created u) (LastLogin u) (LogoutCount u) (Active u) (Admin u) (Name u)
    (Surname u) (Gender u) (Certificate u) v (Ownerships u).

Definition set_Ownerships (v : list T_ownership) (u : T_user) : T_user :=
  mkT_user (Id u) (Email u) (Password u) (SsoId u) (Company u) (Department u)
    (Created u) (LastLogin u) (LogoutCount u) (Active u) (Admin u) (Name u)
    (Surname u) (Gender u) (Certificate u) (DbPasswordHash u) v.

(** The zero value of [sql.NullString]. *)
Definition NullString_zero : sql.NullString := sql.mkNullString "" false.

(** [NewUser] constructs a user and pre-fills it with given or default
    data; [now] is what [time.Now()] returns. The fields the literal
    leaves out hold their zero values. *)
Definition NewUser (now : time_Time)
    (email company department name surname : string) : T_user :=
  let company := if (String.length company =? 0)%nat then email else company in
  {| Id := 0;
     Email := email;
     Password := NullString_zero;
     SsoId := NullString_zero;
     Company := company;
     Department := department;
     Created := now;
     LastLogin := 0;
     LogoutCount := 0;
     Active := true;
     Admin := false;
     Name := name;
     Surname := surname;
     Gender := "";
     Certificate := [];
     DbPasswordHash := "";
     Ownerships := [] |}.

(** *** The schema gorm derives from the struct tags *)

Inductive column : Type :=
| col_id | col_email | col_password | col_sso_id | col_company
| col_department | col_created | col_last_login | col_logout_count
| col_active | col_admin | col_name | col_surname | col_gender
| col_certificate | col_db_password.

Definition DBNames : list column :=
  [col_id; col_email; col_password; col_sso_id; col_company; col_department;
   col_created; col_last_login; col_logout_count; col_active; col_admin;
   col_name; col_surname; col_gender; col_certificate; col_db_password].

Definition DBName (c : column) : string :=
  match c with
  | col_id => "id" | col_email => "email" | col_password => "password"
  | col_sso_id => "sso_id" | col_company => "company"
  | col_department => "department" | col_created => "created"
  | col_last_login => "last_login" | col_logout_count => "logout_count"
  | col_active => "active" | col_admin => "admin" | col_name => "name"
  | col_surname => "surname" | col_gender => "gender"
  | col_certificate => "certificate" | col_db_password => "db_password"
  end.

Definition FieldName (c : column) : string :=
  match c with
  | col_id => "Id" | col_email => "Email" | col_password => "Password"
  | col_sso_id => "SsoId" | col_company => "Company"
  | col_department => "Department" | col_created => "Created"
  | col_last_login => "LastLogin" | col_logout_count => "LogoutCount"
  | col_active => "Active" | col_admin => "Admin" | col_name => "Name"
  | col_surname => "Surname" | col_gender => "Gender"
  | col_certificate => "Certificate" | col_db_password => "DbPasswordHash"
  end.

Definition PrimaryKey (c : column) : bool :=
  match c with col_id => true | _ => false end.

(** [Schema.LookUpField]: a field by its column name or its Go name. *)
Definition LookUpField (name : string) : option column :=
  find (fun c => String.eqb (DBName c) name || String.eqb (FieldName c) name)
       DBNames.

(** The Go value a field holds. *)
Inductive value : Type :=
| V_uint (n : Z)
| V_string (s : string)
| V_NullString (n : sql.NullString)
| V_Time (t : time_Time)
| V_bool (b : bool)
| V_bytes (l : list Byte.byte).

Definition ValueOf (c : column) (u : T_user) : value :=
  match c with
  | col_id => V_uint (Id u)
  | col_email => V_string (Email u)
  | col_password => V_NullString (Password u)
  | col_sso_id => V_NullString (SsoId u)
  | col_company => V_string (Company u)
  | col_department => V_string (Department u)
  | col_created => V_Time (Created u)
  | col_last_login => V_Time (LastLogin u)
  | col_logout_count => V_uint (LogoutCount u)
  | col_active => V_bool (Active u)
  | col_admin => V_bool (Admin u)
  | col_name => V_string (Name u)
  | col_surname => V_string (Surname u)
  | col_gender => V_string (Gender u)
  | col_certificate => V_bytes (Certificate u)
  | col_db_password => V_string (DbPasswordHash u)
  end.

(** [field.Set]: a value of the field's own type is stored; any other is
    refused and the struct stays as it is. *)
Definition FieldSet (c : column) (v : value) (u : T_user) : T_user :=
  match c, v with
  | col_id, V_uint n => set_Id n u
  | col_email, V_string s => set_Email s u
  | col_password, V_NullString n => set_Password n u
  | col_sso_id, V_NullString n => set_SsoId n u
  | col_company, V_string s => set_Company s u
  | col_department, V_string s => set_Department s u
  | col_created, V_Time t => set_Created t u
  | col_last_login, V_Time t => set_LastLogin t u
  | col_logout_count, V_uint n => set_LogoutCount n u
  | col_active, V_bool b => set_Active b u
  | col_admin, V_bool b => set_Admin b u
  | col_name, V_string s => set_Name s u
  | col_surname, V_string s => set_Surname s u
  | col_gender, V_string s => set_Gender s u
  | col_certificate, V_bytes l => set_Certificate l u
  | col_db_password, V_string s => set_DbPasswordHash s u
  | _, _ => u
  end.

(** [tx.Statement] as a hook sees it: the struct being written. gorm calls
    the hook on that very struct, so [Dest] and the hook's receiver are one
    object. *)
Record Statement : Type := mkStatement {
  Dest : T_user
}.

(** [Statement.SetColumn]: sets the named field of the destination. *)
Definition SetColumn (name : string) (v : value) (stmt : Statement) : Statement :=
  match LookUpField name with
  | Some c => mkStatement (FieldSet c v (Dest stmt))
  | None => stmt
  end.

(** *** The write hook *)

(** [BeforeSave] is the hook gorm runs every time the user is written. It
    strips markup from the string attributes and brings them to their
    standard format. It returns the receiver and the statement as it
    leaves them, and [nil]. *)
Definition BeforeSave (user : T_user) (tx : Statement)
    : T_user * Statement * option error :=
  let b := StrictPolicy in
  let user := set_Email (bluemonday.Sanitize b (Email user)) user in
  let user := set_Email (strings.ToLower (Email user)) user in
  let tx := SetColumn "email" (V_string (Email user)) tx in
  let '(user, tx) :=
    if sql.Valid (SsoId user) then
      let ssoId := bluemonday.Sanitize b (sql.String (SsoId user)) in
      let ssoId := strings.ToUpper ssoId in
      let user := set_SsoId (sql.mkNullString ssoId true) user in
      (user, SetColumn "sso_id" (V_NullString (SsoId user)) tx)
    else (user, tx) in
  let user := set_Name (bluemonday.Sanitize b (Name user)) user in
  let tx := SetColumn "name" (V_string (Name user)) tx in
  let user := set_Surname (bluemonday.Sanitize b (Surname user)) user in
  let tx := SetColumn "surname" (V_string (Surname user)) tx in
  let user := set_Gender (bluemonday.Sanitize b (Gender user)) user in
  let user := set_Gender (strings.ToUpper (Gender user)) user in
  let user :=
    if (1 <? String.length (Gender user))%nat
    then set_Gender (substring 0 1 (Gender user)) user
    else user in
  let tx := SetColumn "gender" (V_string (Gender user)) tx in
  (user, tx, None).

(** The hook as gorm runs it on the struct [user]: receiver and
    destination are the same struct, and what the statement holds
    afterwards is what is written. *)
Definition run_BeforeSave (user : T_user) : T_user :=
  let '(_, tx, _) := BeforeSave user (mkStatement user) in Dest tx.

(** *** The store behind [backendDb] *)

(** The table [users], each row with the ownerships that refer to it, and
    the fault, if any, of the backend. *)
Record DB : Type := mkDB {
  users : list T_user;
  fault : option Fault
}.

(** [db.Begin()]: opening a transaction needs the connection. *)
Definition Begin (db : DB) : option error :=
  match fault db with
  | Some (ConnectionClosed m) => Some (ErrBackend m)
  | _ => None
  end.

(** [ExecContext] and [QueryContext]: a statement meets any fault. *)
Definition Exec (db : DB) : option error :=
  match fault db with
  | Some f => Some (fault_error f)
  | None => None
  end.

(** The unique constraints of the struct tags: [email], and [sso_id]
    where it is not NULL, of [row] against the rows [others]. *)
Definition same_sso (a b : sql.NullString) : bool :=
  sql.Valid a && sql.Valid b && String.eqb (sql.String a) (sql.String b).

Definition email_taken (others : list T_user) (row : T_user) : bool :=
  existsb (fun r => String.eqb (Email r) (Email row)) others.

Definition sso_taken (others : list T_user) (row : T_user) : bool :=
  existsb (fun r => same_sso (SsoId r) (SsoId row)) others.

Definition column_eqb (a b : column) : bool := String.eqb (DBName a) (DBName b).

Definition writes (set : list column) (c : column) : bool :=
  existsb (column_eqb c) set.

(** A statement that writes the columns [set] violates a unique
    constraint when it writes such a column to a value taken already. *)
Definition unique_violation (set : list column) (others : list T_user)
    (row : T_user) : option string :=
  if writes set col_email && email_taken others row then Some "email"
  else if writes set col_sso_id && sso_taken others row then Some "sso_id"
  else None.

Definition next_id (rows : list T_user) : uint64 :=
  1 + fold_right Z.max 0 (map Id rows).

(** [db.Create(value)]: gorm opens a transaction, runs the hook and
    inserts the row. When the transaction does not open the hook is not
    run and the value stays as it was. A zero primary key is assigned by
    the store; a key, an email or an SSO id that some row already has
    violates its constraint. *)
Definition gorm_Create (db : DB) (value : T_user) : DB * T_user * option error :=
  match Begin db with
  | Some e => (db, value, Some e)
  | None =>
    let value := run_BeforeSave value in
    match Exec db with
    | Some e => (db, value, Some e)
    | None =>
      let row := if Id value =? 0 then set_Id (next_id (users db)) value else value in
      if existsb (fun r => Id r =? Id row) (users db)
      then (db, value, Some (ErrUniqueViolation "id"))
      else
        match unique_violation DBNames (users db) row with
        | Some c => (db, value, Some (ErrUniqueViolation c))
        | None => (mkDB (users db ++ [row]) (fault db), row, None)
        end
    end
  end.

(** [db.Select(query, args...)] with names for query and arguments, as
    [Save] passes them: a session that restricts the next write to what
    the names select. (gorm takes a query that holds a placeholder for an
    SQL expression; the names of columns and relations hold none.) *)
Record Session : Type := mkSession {
  handle : DB;
  Selects : list string
}.

Definition gorm_Select (db : DB) (query : string) (args : list string) : Session :=
  mkSession db (query :: args).

(** [clause.Associations], the name that stands for every relation. *)
Definition clause_Associations : string := "~~~as~~~".

(** The relation of the schema: the field [Ownerships]. *)
Definition Relation : string := "Ownerships".

(** What [Statement.SelectAndOmitColumns] records for one selected name:
    every column for [*], every relation for [clause.Associations], the
    column of a field found by its column name or its Go name, and
    otherwise what [nameMatcher] reads. *)
Definition processColumn (column : string) : list string :=
  if String.eqb column "*" then map DBName DBNames
  else if String.eqb column clause_Associations then [Relation]
  else
    match LookUpField column with
    | Some c => [DBName c]
    | None => nameMatcher column
    end.

(** [Statement.SelectAndOmitColumns]: the selected keys, and whether the
    selection is restricted (it is not when it holds [*]). *)
Definition SelectAndOmitColumns (selects : list string) : list string * bool :=
  (flat_map processColumn selects,
   negb (existsb (String.eqb "*") selects) && (0 <? List.length selects)%nat).

(** A column is selected when its name is among the keys. *)
Definition selected (selects : list string) (c : column) : bool :=
  existsb (String.eqb (DBName c)) (fst (SelectAndOmitColumns selects)).

(** The relation is written when it is selected, or when nothing
    restricts the selection. *)
Definition saves_associations (selects : list string) : bool :=
  let '(selectColumns, restricted) := SelectAndOmitColumns selects in
  existsb (String.eqb Relation) selectColumns || negb restricted.

(** The [SET] clause: the selected columns, the primary key apart (it
    makes the [WHERE] clause). *)
Definition assignments (selects : list string) : list column :=
  filter (fun c => selected selects c && negb (PrimaryKey c)) DBNames.

Definition assign (set : list column) (value row : T_user) : T_user :=
  fold_left (fun r c => FieldSet c (ValueOf c value) r) set row.

(** What a write returns: [db.Error] and [db.RowsAffected]. *)
Record Result : Type := mkResult {
  Error : option error;
  RowsAffected : int64
}.

(** The callback [gorm:update]: the rows whose key is that of [value]
    get the values of the columns [set], empty ones too. Without a column
    to set no statement runs. It gives the rows it leaves, or the error. *)
Definition gorm_Update (db : DB) (set : list column) (value : T_user)
    : list T_user * Result :=
  match set with
  | [] => (users db, mkResult None 0)
  | _ :: _ =>
    match Exec db with
    | Some e => (users db, mkResult (Some e) 0)
    | None =>
      let hit := fun r => Id r =? Id value in
      let others := filter (fun r => negb (hit r)) (users db) in
      let matched := filter hit (users db) in
      match find (fun r => match unique_violation set others (assign set value r) with
                           | Some _ => true | None => false end) matched with
      | Some r =>
        let c := match unique_violation set others (assign set value r) with
                 | Some c => c | None => "" end in
        (users db, mkResult (Some (ErrUniqueViolation c)) 0)
      | None =>
        (map (fun r => if hit r then assign set value r else r) (users db),
         mkResult None (Z.of_nat (List.length matched)))
      end
    end
  end.

(** The callback [gorm:save_after_associations] for the relation
    [Ownerships]: when the relation is written and the struct holds
    ownerships, they are upserted for the user. It gives the rows it
    leaves, or the error. *)
Definition SaveAfterAssociations (db : DB) (selects : list string)
    (value : T_user) (rows : list T_user) : list T_user * option error :=
  if saves_associations selects then
    match Ownerships value with
    | [] => (rows, None)
    | _ :: _ =>
      match Exec db with
      | Some e => (rows, Some e)
      | None =>
        (map (fun r => if Id r =? Id value
                       then set_Ownerships (upsert (Ownerships value) (Ownerships r)) r
                       else r) rows, None)
      end
    end
  else (rows, None).

(** [tx.Save(value)] on a session with selected names. With a zero
    primary key gorm inserts the value. Otherwise it opens a transaction,
    runs the hook, updates the selected columns and writes the selected
    relation; an error rolls the transaction back. No row is inserted
    when none matches. *)
Definition gorm_Save (tx : Session) (value : T_user) : DB * T_user * Result :=
  let db := handle tx in
  if Id value =? 0 then
    let '(db, value, e) := gorm_Create db value in
    (db, value, mkResult e (match e with None => 1 | Some _ => 0 end))
  else
    match Begin db with
    | Some e => (db, value, mkResult (Some e) 0)
    | None =>
      let value := run_BeforeSave value in
      let '(rows, res) := gorm_Update db (assignments (Selects tx)) value in
      match Error res with
      | Some e => (db, value, mkResult (Some e) 0)
      | None =>
        match SaveAfterAssociations db (Selects tx) value rows with
        | (_, Some e) => (db, value, mkResult (Some e) 0)
        | (rows, None) => (mkDB rows (fault db), value, res)
        end
      end
    end.

(** [gorm.ErrMissingWhereClause]. *)
Definition ErrMissingWhereClause : error := errors_New "WHERE conditions required".

(** [db.Delete(value)]: gorm opens a transaction and removes the row
    with the value's primary key; a zero key leaves the statement without
    a condition, which gorm refuses. *)
Definition gorm_Delete (db : DB) (value : T_user) : DB * option error :=
  match Begin db with
  | Some e => (db, Some e)
  | None =>
    if Id value =? 0 then (db, Some ErrMissingWhereClause)
    else
      match Exec db with
      | Some e => (db, Some e)
      | None =>
        (mkDB (filter (fun r => negb (Id r =? Id value)) (users db)) (fault db), None)
      end
  end.

(** [db.Where(...).Limit(n).Find(&entries)]: the rows that satisfy the
    condition, in table order, at most [limit] of them; their ownerships
    only when preloading was asked for. *)
Definition gorm_Find (db : DB) (preload : bool) (where_ : T_user -> bool)
    (limit : option nat) : list T_user * option error :=
  match Exec db with
  | Some e => ([], Some e)
  | None =>
    let rows := filter where_ (users db) in
    let rows := match limit with Some n => firstn n rows | None => rows end in
    (map (fun r => if preload then r else set_Ownerships [] r) rows, None)
  end.

(** *** The repository *)

(** [Create] creates a user in the database. *)
Definition Create (backendDb : DB) (user : T_user) : DB * T_user * option error :=
  let '(backendDb, user, errDb) := gorm_Create backendDb user in
  match errDb with
  | Some e => (backendDb, user, Some e)
  | None => (backendDb, user, None)
  end.

(** [Save] updates the given columns of a user entry to the currently set
    values, even if the values are empty ones, such as 0, false or the
    empty string. It returns the store, the user as the hook left it, the
    number of rows affected and the error. *)
Definition Save (backendDb : DB) (user : T_user) (columns : list string)
    : DB * T_user * int64 * option error :=
  if (List.length columns <? 1)%nat then (backendDb, user, 0, None)
  else if Id user =? 0 then (backendDb, user, 0, Some (errors_New "invalid entry ID"))
  else
    let arg0 := hd "" columns in
    let args := fold_left (fun args column => (args ++ [column])%list) (tl columns) [] in
    let '(backendDb, user, db) := gorm_Save (gorm_Select backendDb arg0 args) user in
    match Error db with
    | Some e => (backendDb, user, 0, Some e)
    | None => (backendDb, user, RowsAffected db, None)
    end.

(** [Delete] deletes a user. *)
Definition Delete (backendDb : DB) (user : T_user) : DB * option error :=
  let '(backendDb, errDb) := gorm_Delete backendDb user in
  match errDb with
  | Some e => (backendDb, Some e)
  | None => (backendDb, None)
  end.

(** [GetUsers] gets all users from the db. [None] is the nil slice. *)
Definition GetUsers (backendDb : DB) : option (list T_user) * option error :=
  let '(entries, errDb) := gorm_Find backendDb false (fun _ => true) None in
  match errDb with
  | Some e => (None, Some e)
  | None => (Some entries, None)
  end.

(** [GetAdministrators] gets all administrative users from the db. *)
Definition GetAdministrators (backendDb : DB) : option (list T_user) * option error :=
  let '(entries, errDb) := gorm_Find backendDb false (fun r => Admin r) None in
  match errDb with
  | Some e => (None, Some e)
  | None => (Some entries, None)
  end.

(** [GetUser] searches a user by ID. If no user is found, a nil pointer
    but no error is returned. *)
Definition GetUser (backendDb : DB) (id : uint64) : option T_user * option error :=
  let '(entries, errDb) :=
    gorm_Find backendDb true (fun r => Id r =? id) (Some 1%nat) in
  match errDb with
  | Some e => (None, Some e)
  | None =>
    if (List.length entries <? 1)%nat then (None, None)
    else (nth_error entries 0, None)
  end.

(** [GetUserByMail] searches a user by e-mail address, converted to lower
    case first. *)
Definition GetUserByMail (backendDb : DB) (mail : string) : option T_user * option error :=
  let mail := strings.ToLower mail in
  let '(entries, errDb) :=
    gorm_Find backendDb false (fun r => String.eqb (Email r) mail) (Some 1%nat) in
  match errDb with
  | Some e => (None, Some e)
  | None =>
    if (List.length entries <? 1)%nat then (None, None)
    else (nth_error entries 0, None)
  end.

(** *** The external representation *)

(** [json.Marshal] of a user: one member per field, under the name its
    [json] tag gives, in the order of the struct; a field tagged ["-"] is
    left out. (A list stands for a slice, so a nil slice, which is
    written as [null], is not told from an empty one.) *)
Definition MarshalJSON (u : T_user) : json :=
  J_object
    [ ("id", J_number (Id u));
      ("email", json_string (Email u));
      ("company", json_string (Company u));
      ("department", json_string (Department u));
      ("created", J_time (Created u));
      ("last_login", J_time (LastLogin u));
      ("active", J_bool (Active u));
      ("admin", J_bool (Admin u));
      ("name", json_string (Name u));
      ("surname", json_string (Surname u));
      ("gender", json_string (Gender u));
      ("certificate", J_base64 (Certificate u));
      ("ownerships", J_array (map ownership_json (Ownerships u))) ].

End Database.

Arguments strings.ToLower : simpl never.
Arguments strings.ToUpper : simpl never.

(** ** The view list of the web frontend *)

(** The bindings of [components/views/list/list.html] that decide what is
    shown: the expressions are functions of the data they read, and a
    [ko if] block contributes its content when its condition holds. *)
Module list_html.

(** A string the view model may leave out ([null]) is truthy when it is
    there and not empty. *)
Definition truthy (s : option string) : bool :=
  match s with
  | Some (String _ _) => true
  | _ => false
  end.

(** What the template reads of a user of a view. *)
Record user_entry : Type := mkUserEntry {
  username : string;
  user_company : string;
  user_department : option string;
  is_inactive : bool;
  user_is_admin : bool;
  user_is_owner : bool
}.

(** [$data[0].scan_scope.group_name ? $data[0].scan_scope.group_name : '-'] *)
Definition group_title (group_name : option string) : string :=
  if truthy group_name
  then match group_name with Some s => s | None => "" end
  else "-".

(** [is_inactive ? 'red' : user_is_admin ? 'blue' : (user_is_owner ? 'blue' : 'teal')] *)
Definition label_class (e : user_entry) : string :=
  if is_inactive e then "red"
  else if user_is_admin e then "blue"
  else (if user_is_owner e then "blue" else "teal").

(** The label of a user: its class, the user name, and the department in
    parentheses inside the [ko if: $data.user_department] block. *)
Record label : Type := mkLabel {
  label_color : string;
  label_text : string;
  label_detail : option string
}.

Definition user_label (e : user_entry) : label :=
  mkLabel (label_class e) (username e)
    (if truthy (user_department e)
     then match user_department e with
          | Some d => Some ("(" ++ d ++ ")")
          | None => None
          end
     else None).

(** A group of [users_by_company]: the template reads the company of its
    first entry, so a group has one. *)
Definition company_group : Type := (user_entry * list user_entry)%type.

(** [$data[0].user_company === '' ? '' : $data[0].user_company] *)
Definition company_header (g : company_group) : string :=
  if String.eqb (user_company (fst g)) "" then "" else user_company (fst g).

Definition company_block (g : company_group) : string * list label :=
  (company_header g, map user_label (fst g :: snd g)).

(** A view as a table row reads it. *)
Record view : Type := mkView {
  name : string;
  scan_scope_name : string;
  filter_strings : list (string * string);
  users_by_company : list company_group
}.

(** The cells a row can hold. *)
Inductive cell : Type :=
| td_name (text : string)
| td_scope (text : string)
| td_filters (labels : list (string * string))
| td_no_filters
| td_users (companies : list (string * list label))
| td_no_users
| td_buttons.

(** The [<tr>] of a view: name, scope, the filter cell of the block whose
    condition holds, the user cell likewise, and the buttons. *)
Definition row (v : view) : list cell :=
  ([td_name (name v); td_scope (scan_scope_name v)] ++
   (if (0 <? List.length (filter_strings v))%nat
    then [td_filters (filter_strings v)] else []) ++
   (if (List.length (filter_strings v) <=? 0)%nat
    then [td_no_filters] else []) ++
   (if (0 <? List.length (users_by_company v))%nat
    then [td_users (map company_block (users_by_company v))] else []) ++
   (if (List.length (users_by_company v) <=? 0)%nat
    then [td_no_users] else []) ++
   [td_buttons])%list.

(** JavaScript's conversion of an array of strings to a string: the
    elements joined by commas. *)
Fixpoint toString (l : list string) : string :=
  match l with
  | [] => ""
  | [x] => x
  | x :: t => x ++ "," ++ toString t
  end.

(** What the warning message holds: the sentence about one user, with
    the HTML bound to it, or the list of several. *)
Inductive warning_part : Type :=
| one_user (html : string)
| several_users (items : list string).

(** The warning message: [None] when the block
    [ko if: inactiveUsers().length > 0] is not rendered. *)
Definition warning (inactiveUsers : list string) : option (list warning_part) :=
  if (0 <? List.length inactiveUsers)%nat
  then Some ((if (List.length inactiveUsers =? 1)%nat
              then [one_user ("<b>" ++ toString inactiveUsers ++ "</b>")] else []) ++
             (if (1 <? List.length inactiveUsers)%nat
              then [several_users inactiveUsers] else []))%list
  else None.

End list_html.

(** ** The spec's taxonomy of failures *)

(** The conditions the spec names, and the one it puts an error under.
    The code hands errors on as they are: it has no such conditions. *)
Inductive condition : Type := Conflict | InvalidEntity | StorageError.

Definition kind (e : error) : condition :=
  match e with
  | errors_New _ => InvalidEntity
  | ErrUniqueViolation _ => Conflict
  | ErrBackend _ => StorageError
  end.

(** ** Values the examples use *)

Definition a_umlaut : string := bytes_of [0xC3; 0xA4].

(** An address with the dotless i, U+0131; the capital sharp s, U+1E9E,
    and the small one, U+00DF. *)
Definition dotless_mail : string := bytes_of [0xC4; 0xB1; 0x40; 0x78; 0x2E; 0x63; 0x6F; 0x6D].
Definition capital_sharp_s : string := bytes_of [0xE1; 0xBA; 0x9E].
Definition small_sharp_s : string := bytes_of [0xC3; 0x9F].

Definition jane : @T_user unit :=
  NewUser 1700000000 "Jane.Doe@Example.COM" "ACME" "Research" "Jane" "Doe".

Definition jane_stored : @T_user unit :=
  set_Email "jane.doe@example.com" (set_Id 1 jane).

Definition one_row : @DB unit := mkDB [jane_stored] None.

Definition jane_sso : @T_user unit :=
  set_SsoId (sql.mkNullString "abc-123" true) (set_Gender "Diverse" jane_stored).

Definition john : @T_user unit :=
  set_Id 2 (NewUser 1700000001 "john.roe@example.com" "ACME" "Sales" "John" "Roe").

Definition two_rows : @DB unit := mkDB [jane_stored; john] None.

Definition broken_row : @DB unit :=
  mkDB [jane_stored] (Some (ConnectionClosed "sql: database is closed")).

Definition failing_row : @DB unit :=
  mkDB [jane_stored] (Some (StatementFailed "context deadline exceeded")).

Definition new_john : @T_user unit :=
  NewUser 1700000001 "John.Roe@Example.COM" "" "Sales" "John" "Roe".

Definition after_create : @DB unit :=
  fst (fst (Create bluemonday.reference one_row new_john)).

Definition john_created : @T_user unit :=
  snd (fst (Create bluemonday.reference one_row new_john)).

Definition no_ownership_json (o : unit) : json := J_object [].

(** The table gorm's naming strategy derives for [T_user]. *)
Definition Table : string := "t_users".

(** How gorm 1.25 records a selected name that is no field: the column
    [matchName] reads when the table is the statement's or none, every
    column for a star, and the name as it is otherwise. *)
#[export] Instance names_of_gorm : NameMatcher := fun column =>
  let '(table, col) := gorm.matchName column in
  if negb (String.eqb col "") && (String.eqb table Table || String.eqb table "")
  then (if String.eqb col "*" then map DBName DBNames else [col])
  else [column].

(** Ownerships without a key of their own: every written one is a new
    row. *)
#[export] Instance ownerships_appended : Ownership unit :=
  fun written stored => (stored ++ written)%list.

(** ** The vocabulary of the properties *)

(** Lower-casing of a byte value, as [strings.ToLower] does on ASCII. *)
Definition lowerZ (z : Z) : Z :=
  if (65 <=? z) && (z <=? 90) then z + 32 else z.

(** Two strings differ only in letter case when they are equal once
    their ASCII letters are lower-cased byte by byte. *)
Definition same_letters (s t : string) : Prop :=
  string_map strings.lower_byte s = string_map strings.lower_byte t.

(** The rune read from the lower-cased string: the same rune, or the
    lower-cased one when it is a single ASCII byte. *)
Definition rune_lower (r r' : Z) : Prop :=
  r' = r \/ (0 <= r < 128 /\ r' = lowerZ r).

(** A mapping that cannot tell an ASCII letter from its lower-case form
    maps a string and its lower-cased form alike. *)
Definition case_blind (mapping : Z -> Z) : Prop :=
  forall r, 0 <= r < 128 -> mapping (lowerZ r) = mapping r.

(** No byte of [s] is an ASCII upper-case letter; none is an ASCII
    lower-case letter. *)
Definition no_upper (s : string) : bool :=
  string_forallb (fun c => negb ((65 <=? byte_val c) && (byte_val c <=? 90))) s.

Definition no_lower (s : string) : bool :=
  string_forallb (fun c => negb ((97 <=? byte_val c) && (byte_val c <=? 122))) s.

(** Markup-free ASCII text. *)
Definition tidy (s : string) : bool :=
  bluemonday.plain s && strings.isASCII s.

(** [s[:1]] when [len(s) > 1]. *)
Definition first_byte (s : string) : string :=
  if (1 <? String.length s)%nat then substring 0 1 s else s.

(** What the hook makes of an SSO id and of a gender. *)
Definition normal_SsoId (b : bluemonday.Policy) (n : sql.NullString) : sql.NullString :=
  if sql.Valid n
  then sql.mkNullString (strings.ToUpper (bluemonday.Sanitize b (sql.String n))) true
  else n.

Definition normal_Gender (b : bluemonday.Policy) (g : string) : string :=
  first_byte (strings.ToUpper (bluemonday.Sanitize b g)).

(** What the spec calls a single upper-case character: valid UTF-8 of
    exactly one rune that upper-casing leaves as it is. *)
Definition upper_case_character (s : string) : Prop :=
  utf8.ValidString s = true /\
  List.length (utf8.runes s) = 1%nat /\
  strings.ToUpper s = s.


Definition member_names (j : json) : list string :=
  match j with
  | J_object members => map fst members
  | _ => []
  end.

(** Two users that agree on every field but the password hash, the SSO
    id, the logout counter and the database password hash. *)
Definition same_public {T_ownership : Type} (u v : @T_user T_ownership) : Prop :=
  Id u = Id v /\ Email u = Email v /\ Company u = Company v /\
  Department u = Department v /\ Created u = Created v /\
  LastLogin u = LastLogin v /\ Active u = Active v /\ Admin u = Admin v /\
  Name u = Name v /\ Surname u = Surname v /\ Gender u = Gender v /\
  Certificate u = Certificate v /\ Ownerships u = Ownerships v.

(** What the write of the relation leaves in a row of the user, and what
    a Save that succeeds leaves there: the selected columns assigned,
    then the ownerships written. *)
Definition written_ownerships {T_ownership : Type} {ownership : Ownership T_ownership}
    {matcher : NameMatcher} (selects : list string)
    (value row : @T_user T_ownership) : @T_user T_ownership :=
  if saves_associations selects then
    match Ownerships value with
    | [] => row
    | _ :: _ => set_Ownerships (upsert (Ownerships value) (Ownerships row)) row
    end
  else row.

Definition saved_row {T_ownership : Type} {ownership : Ownership T_ownership}
    {matcher : NameMatcher} (selects : list string)
    (value row : @T_user T_ownership) : @T_user T_ownership :=
  written_ownerships selects value (assign (assignments selects) value row).

(** The byte [c] occurs in [s]. *)
Definition holds (c : ascii) (s : string) : bool :=
  negb (string_forallb (fun x => negb (Ascii.eqb x c)) s).

(** A column list that [Select] takes for names: with more than one
    entry, the first holds no placeholder. *)
Definition names (columns : list string) : Prop :=
  match columns with
  | query :: _ :: _ => holds "?" query = false /\ holds "@" query = false
  | _ => True
  end.

(** No two stored users share an Id or an email. *)
Definition unique_keys {T_ownership : Type} (db : @DB T_ownership) : Prop :=
  NoDup (map Id (users db)) /\ NoDup (map Email (users db)).

(** * Properties *)

(** ** Bytes and case *)

Lemma byte_val_range (c : ascii) : 0 <= byte_val c < 256.
Proof.
  unfold byte_val. pose proof (N_ascii_bounded c). lia.
Qed.

Lemma byte_of_val (c : ascii) : byte_of (byte_val c) = c.
Proof.
  unfold byte_of, byte_val. rewrite N2Z.id. apply ascii_N_embedding.
Qed.

Lemma byte_val_of (z : Z) : 0 <= z < 256 -> byte_val (byte_of z) = z.
Proof.
  intros H. unfold byte_of, byte_val.
  rewrite N_ascii_embedding by lia. lia.
Qed.

Lemma lower_byte_val (c : ascii) :
  byte_val (strings.lower_byte c) = lowerZ (byte_val c).
Proof.
  unfold strings.lower_byte, lowerZ. pose proof (byte_val_range c).
  destruct ((65 <=? byte_val c) && (byte_val c <=? 90)) eqn:E; [|reflexivity].
  apply byte_val_of. lia.
Qed.

Lemma lower_byte_high (c : ascii) :
  128 <= byte_val c -> strings.lower_byte c = c.
Proof.
  intros H. unfold strings.lower_byte.
  destruct ((65 <=? byte_val c) && (byte_val c <=? 90)) eqn:E; [lia|reflexivity].
Qed.

Lemma lower_byte_idem (c : ascii) :
  strings.lower_byte (strings.lower_byte c) = strings.lower_byte c.
Proof.
  unfold strings.lower_byte at 1. rewrite lower_byte_val. unfold lowerZ.
  destruct ((65 <=? byte_val c) && (byte_val c <=? 90)) eqn:E.
  - replace ((65 <=? byte_val c + 32) && (byte_val c + 32 <=? 90)) with false by lia.
    reflexivity.
  - rewrite E. reflexivity.
Qed.

Lemma upper_lower_byte (c : ascii) :
  strings.upper_byte (strings.lower_byte c) = strings.upper_byte c.
Proof.
  unfold strings.upper_byte. rewrite lower_byte_val. unfold lowerZ.
  pose proof (byte_val_range c).
  destruct ((65 <=? byte_val c) && (byte_val c <=? 90)) eqn:E.
  - replace ((97 <=? byte_val c + 32) && (byte_val c + 32 <=? 122)) with true by lia.
    replace ((97 <=? byte_val c) && (byte_val c <=? 122)) with false by lia.
    replace (byte_val c + 32 - 32) with (byte_val c) by lia.
    apply byte_of_val.
  - destruct ((97 <=? byte_val c) && (byte_val c <=? 122)) eqn:E'; [reflexivity|].
    unfold strings.lower_byte. rewrite E. reflexivity.
Qed.

Lemma string_map_length (f : ascii -> ascii) (s : string) :
  String.length (string_map f s) = String.length s.
Proof.
  induction s; simpl; congruence.
Qed.

Lemma drop_string_map (f : ascii -> ascii) (n : nat) (s : string) :
  drop n (string_map f s) = string_map f (drop n s).
Proof.
  revert s. induction n as [|n IH]; intros [|c t]; simpl; auto.
Qed.

Lemma isASCII_lower (s : string) :
  strings.isASCII (string_map strings.lower_byte s) = strings.isASCII s.
Proof.
  unfold strings.isASCII. induction s as [|c t IH]; simpl; [reflexivity|].
  rewrite IH, lower_byte_val. f_equal. unfold lowerZ, utf8.RuneSelf.
  destruct ((65 <=? byte_val c) && (byte_val c <=? 90)) eqn:E; lia.
Qed.

(** *** Decoding a lower-cased string *)

Lemma first_as (p : Z) : utf8.first p = utf8.lead_as <-> p < 128.
Proof.
  unfold utf8.first.
  repeat match goal with
         | |- context [if ?c then _ else _] => destruct c eqn:?
         end; split; intros; try discriminate; try reflexivity; lia.
Qed.

Lemma first_sz (p : Z) (sz : nat) (lo hi : Z) :
  utf8.first p = utf8.lead_sz sz lo hi -> 128 <= p /\ 128 <= lo.
Proof.
  unfold utf8.first, utf8.locb.
  repeat match goal with
         | |- context [if ?c then _ else _] => destruct c eqn:?
         end; intros H; inversion H; subst; lia.
Qed.

Lemma first_xx (p : Z) : utf8.first p = utf8.lead_xx -> 128 <= p.
Proof.
  intros H. destruct (Z_lt_ge_dec p 128) as [L|G]; [|lia].
  apply first_as in L. congruence.
Qed.

(** A byte a multi-byte sequence accepts is not a letter, so lower-casing
    leaves it alone; a byte it refuses stays refused. *)
Lemma outside_lower (lo hi : Z) (c : ascii) :
  128 <= lo ->
  utf8.outside lo hi (byte_val (strings.lower_byte c)) = utf8.outside lo hi (byte_val c) /\
  (utf8.outside lo hi (byte_val c) = false -> strings.lower_byte c = c).
Proof.
  intros Hlo. rewrite lower_byte_val. unfold utf8.outside, lowerZ. split.
  - destruct ((65 <=? byte_val c) && (byte_val c <=? 90)) eqn:E; lia.
  - intros H. apply lower_byte_high. lia.
Qed.

Lemma lowerZ_high (z : Z) : 128 <= z -> lowerZ z = z.
Proof.
  intros H. unfold lowerZ.
  destruct ((65 <=? z) && (z <=? 90)) eqn:E; [lia|reflexivity].
Qed.

Lemma Decode_lower (s : string) :
  exists r',
    utf8.DecodeRuneInString (string_map strings.lower_byte s) =
      (r', snd (utf8.DecodeRuneInString s)) /\
    rune_lower (fst (utf8.DecodeRuneInString s)) r'.
Proof.
  destruct s as [|c0 t1].
  { exists utf8.RuneError. split; [reflexivity|left; reflexivity]. }
  unfold utf8.DecodeRuneInString.
  cbn [string_map]. rewrite lower_byte_val.
  cbn [String.length]. rewrite string_map_length.
  destruct (utf8.first (byte_val c0)) as [| |sz lo hi] eqn:F.
  - pose proof (byte_val_range c0) as R0.
    apply first_as in F.
    assert (F' : utf8.first (lowerZ (byte_val c0)) = utf8.lead_as).
    { apply first_as. unfold lowerZ.
      destruct ((65 <=? byte_val c0) && (byte_val c0 <=? 90)) eqn:E; lia. }
    rewrite F'. eexists. split; [reflexivity|]. right. simpl. split; [lia|reflexivity].
  - apply first_xx in F as G. rewrite (lowerZ_high _ G), F.
    eexists. split; [reflexivity|left; reflexivity].
  - destruct (first_sz _ _ _ _ F) as [G Hlo].
    rewrite (lowerZ_high _ G), F.
    destruct (S (String.length t1) <? sz)%nat.
    { eexists. split; [reflexivity|left; reflexivity]. }
    destruct t1 as [|c1 t2]; cbn [string_map].
    { eexists. split; [reflexivity|left; reflexivity]. }
    destruct (outside_lower lo hi c1 Hlo) as [O1 K1]. rewrite O1.
    destruct (utf8.outside lo hi (byte_val c1)) eqn:E1.
    { eexists. split; [reflexivity|left; reflexivity]. }
    rewrite (K1 eq_refl).
    destruct (sz <=? 2)%nat.
    { eexists. split; [reflexivity|left; reflexivity]. }
    destruct t2 as [|c2 t3]; cbn [string_map].
    { eexists. split; [reflexivity|left; reflexivity]. }
    assert (Hcb : 128 <= utf8.locb) by (unfold utf8.locb; lia).
    destruct (outside_lower utf8.locb utf8.hicb c2 Hcb) as [O2 K2]. rewrite O2.
    destruct (utf8.outside utf8.locb utf8.hicb (byte_val c2)) eqn:E2.
    { eexists. split; [reflexivity|left; reflexivity]. }
    rewrite (K2 eq_refl).
    destruct (sz <=? 3)%nat.
    { eexists. split; [reflexivity|left; reflexivity]. }
    destruct t3 as [|c3 t4]; cbn [string_map].
    { eexists. split; [reflexivity|left; reflexivity]. }
    destruct (outside_lower utf8.locb utf8.hicb c3 Hcb) as [O3 K3]. rewrite O3.
    destruct (utf8.outside utf8.locb utf8.hicb (byte_val c3)) eqn:E3.
    { eexists. split; [reflexivity|left; reflexivity]. }
    rewrite (K3 eq_refl).
    eexists. split; [reflexivity|left; reflexivity].
Qed.

Lemma range_loop_lower (mapping : Z -> Z) (g : Z -> list Z) (n : nat) (s : string) :
  case_blind mapping ->
  flat_map (fun c => g (mapping c))
    (utf8.range_loop n (string_map strings.lower_byte s)) =
  flat_map (fun c => g (mapping c)) (utf8.range_loop n s).
Proof.
  intros Hm. revert s. induction n as [|n IH]; intros s; [reflexivity|].
  destruct s as [|c t]; [reflexivity|].
  destruct (Decode_lower (String c t)) as [r' [D Hr]].
  cbn [utf8.range_loop string_map]. cbn [string_map] in D. rewrite D.
  destruct (utf8.DecodeRuneInString (String c t)) as [r w]. cbn [fst snd] in *.
  cbn [flat_map].
  change (String (strings.lower_byte c) (string_map strings.lower_byte t))
    with (string_map strings.lower_byte (String c t)).
  rewrite drop_string_map, IH. f_equal.
  destruct Hr as [->|[Hr ->]]; [reflexivity|]. rewrite (Hm r Hr). reflexivity.
Qed.

Lemma Map_lower (mapping : Z -> Z) (s : string) :
  case_blind mapping ->
  strings.Map mapping (string_map strings.lower_byte s) = strings.Map mapping s.
Proof.
  intros Hm. unfold strings.Map, utf8.runes. rewrite string_map_length.
  f_equal.
  exact (range_loop_lower mapping
           (fun r => if r <? 0 then [] else utf8.EncodeRune r) _ s Hm).
Qed.

Lemma ToLower_case_blind : case_blind unicode.ToLower.
Proof.
  intros r Hr. unfold unicode.ToLower, unicode.MaxASCII, lowerZ.
  destruct ((65 <=? r) && (r <=? 90)) eqn:E; [|cbv iota; rewrite ?E; reflexivity].
  replace (r + 32 <=? 127) with true by lia.
  replace (r <=? 127) with true by lia.
  replace ((65 <=? r + 32) && (r + 32 <=? 90)) with false by lia.
  reflexivity.
Qed.

Lemma ToUpper_case_blind : case_blind unicode.ToUpper.
Proof.
  intros r Hr. unfold unicode.ToUpper, unicode.MaxASCII, lowerZ.
  destruct ((65 <=? r) && (r <=? 90)) eqn:E; [|reflexivity].
  replace (r + 32 <=? 127) with true by lia.
  replace (r <=? 127) with true by lia.
  replace ((97 <=? r + 32) && (r + 32 <=? 122)) with true by lia.
  replace ((97 <=? r) && (r <=? 122)) with false by lia.
  lia.
Qed.

Lemma string_map_lower_idem (s : string) :
  string_map strings.lower_byte (string_map strings.lower_byte s) =
  string_map strings.lower_byte s.
Proof.
  induction s as [|c t IH]; simpl; [reflexivity|].
  rewrite lower_byte_idem, IH. reflexivity.
Qed.

Lemma string_map_upper_lower (s : string) :
  string_map strings.upper_byte (string_map strings.lower_byte s) =
  string_map strings.upper_byte s.
Proof.
  induction s as [|c t IH]; simpl; [reflexivity|].
  rewrite upper_lower_byte, IH. reflexivity.
Qed.

Lemma ToLower_lower (s : string) :
  strings.ToLower (string_map strings.lower_byte s) = strings.ToLower s.
Proof.
  unfold strings.ToLower. rewrite isASCII_lower.
  destruct (strings.isASCII s).
  - apply string_map_lower_idem.
  - apply Map_lower, ToLower_case_blind.
Qed.

Lemma ToUpper_lower (s : string) :
  strings.ToUpper (string_map strings.lower_byte s) = strings.ToUpper s.
Proof.
  unfold strings.ToUpper. rewrite isASCII_lower.
  destruct (strings.isASCII s).
  - apply string_map_upper_lower.
  - apply Map_lower, ToUpper_case_blind.
Qed.

Lemma same_letters_ToLower (s t : string) :
  same_letters s t -> strings.ToLower s = strings.ToLower t.
Proof.
  intros H. rewrite <- (ToLower_lower s), <- (ToLower_lower t).
  unfold same_letters in H. rewrite H. reflexivity.
Qed.

Lemma same_letters_ToUpper (s t : string) :
  same_letters s t -> strings.ToUpper s = strings.ToUpper t.
Proof.
  intros H. rewrite <- (ToUpper_lower s), <- (ToUpper_lower t).
  unfold same_letters in H. rewrite H. reflexivity.
Qed.

(** ** No letter of ASCII keeps the wrong case *)

Lemma string_forallb_bytes_of (p : ascii -> bool) (l : list Z) :
  string_forallb p (bytes_of l) = forallb (fun z => p (byte_of z)) l.
Proof.
  induction l as [|z l IH]; cbn [bytes_of string_forallb forallb]; congruence.
Qed.

Lemma forallb_flat_map {A B : Type} (p : B -> bool) (f : A -> list B) (l : list A) :
  (forall x, forallb p (f x) = true) -> forallb p (flat_map f l) = true.
Proof.
  intros H. induction l as [|x l IH]; cbn [flat_map]; [reflexivity|].
  rewrite forallb_app, H, IH. reflexivity.
Qed.

Lemma below_64 (P : Z -> bool) :
  forallb P (map Z.of_nat (seq 0 64)) = true ->
  forall x, 0 <= x < 64 -> P x = true.
Proof.
  intros H x Hx. rewrite forallb_forall in H. apply H.
  apply in_map_iff. exists (Z.to_nat x). split; [lia|].
  apply in_seq. lia.
Qed.

(** A byte made of a leading or continuation mark and six bits or fewer
    lies above ASCII. *)
Lemma lor_mark (h x : Z) :
  In h [0x80; 0xC0; 0xE0; 0xF0] -> 0 <= x < 64 -> 128 <= Z.lor h x < 256.
Proof.
  intros Hh Hx.
  pose proof (below_64
                (fun x => forallb (fun h => (128 <=? Z.lor h x) && (Z.lor h x <? 256))
                                  [0x80; 0xC0; 0xE0; 0xF0])) as C.
  assert (C0 : forallb
                 (fun x => forallb (fun h => (128 <=? Z.lor h x) && (Z.lor h x <? 256))
                                   [0x80; 0xC0; 0xE0; 0xF0])
                 (map Z.of_nat (seq 0 64)) = true) by (vm_compute; reflexivity).
  specialize (C C0 x Hx). cbn beta in C.
  rewrite forallb_forall in C. specialize (C h Hh). lia.
Qed.

Lemma land_maskx (a : Z) : 0 <= Z.land a utf8.maskx < 64.
Proof.
  change utf8.maskx with (Z.ones 6). rewrite Z.land_ones by lia.
  apply Z.mod_pos_bound. lia.
Qed.

(** The encoding of a rune outside ASCII has no ASCII byte. *)
Lemma EncodeRune_high (r : Z) :
  ~ (0 <= r <= 127) -> Forall (fun z => 128 <= z < 256) (utf8.EncodeRune r).
Proof.
  intros H. unfold utf8.EncodeRune, utf8.MaxRune.
  destruct ((0 <=? r) && (r <=? 127)) eqn:E1; [lia|].
  destruct ((0 <=? r) && (r <=? 2047)) eqn:E2.
  { apply Forall_cons; [|apply Forall_cons; [|apply Forall_nil]].
    - apply lor_mark; [cbn; tauto|]. rewrite Z.shiftr_div_pow2 by lia.
      change (2 ^ 6) with 64. split; [apply Z.div_pos; lia|].
      apply Z.div_lt_upper_bound; lia.
    - apply lor_mark; [cbn; tauto|apply land_maskx]. }
  destruct ((r <? 0) || (1114111 <? r) || ((55296 <=? r) && (r <=? 57343))) eqn:E3.
  { apply Forall_cons; [lia|]. apply Forall_cons; [lia|].
    apply Forall_cons; [lia|apply Forall_nil]. }
  destruct (r <=? 65535) eqn:E4.
  { apply Forall_cons; [|apply Forall_cons; [|apply Forall_cons; [|apply Forall_nil]]].
    - apply lor_mark; [cbn; tauto|]. rewrite Z.shiftr_div_pow2 by lia.
      change (2 ^ 12) with 4096. split; [apply Z.div_pos; lia|].
      apply Z.div_lt_upper_bound; lia.
    - apply lor_mark; [cbn; tauto|apply land_maskx].
    - apply lor_mark; [cbn; tauto|apply land_maskx]. }
  apply Forall_cons;
    [|apply Forall_cons; [|apply Forall_cons; [|apply Forall_cons; [|apply Forall_nil]]]].
  - apply lor_mark; [cbn; tauto|]. rewrite Z.shiftr_div_pow2 by lia.
    change (2 ^ 18) with 262144. split; [apply Z.div_pos; lia|].
    apply Z.div_lt_upper_bound; lia.
  - apply lor_mark; [cbn; tauto|apply land_maskx].
  - apply lor_mark; [cbn; tauto|apply land_maskx].
  - apply lor_mark; [cbn; tauto|apply land_maskx].
Qed.

(** [Map] writes no byte of an ASCII range that the mapping avoids. *)
Lemma Map_avoids (lo hi : Z) (mapping : Z -> Z) (s : string) :
  hi < 128 ->
  (forall r, ~ (lo <= mapping r <= hi)) ->
  string_forallb (fun c => negb ((lo <=? byte_val c) && (byte_val c <=? hi)))
    (strings.Map mapping s) = true.
Proof.
  intros Hhi H. unfold strings.Map. rewrite string_forallb_bytes_of.
  apply forallb_flat_map. intros c. cbn zeta.
  destruct (mapping c <? 0) eqn:N; [reflexivity|].
  destruct (Z_le_dec (mapping c) 127) as [A|A].
  - unfold utf8.EncodeRune.
    replace ((0 <=? mapping c) && (mapping c <=? 127)) with true by lia.
    cbn [forallb]. rewrite byte_val_of by lia.
    specialize (H c). rewrite andb_true_r. apply negb_true_iff. lia.
  - apply forallb_forall. intros z Hz.
    pose proof (EncodeRune_high (mapping c)) as F.
    rewrite Forall_forall in F. specialize (F ltac:(lia) z Hz).
    rewrite byte_val_of by lia. apply negb_true_iff. lia.
Qed.

(** A rune that [to] moves lies in a range of the table and is moved by
    the distance of that range. *)
Lemma to_in_range (delta : unicode.CaseRange -> Z) (r : Z) (l : list unicode.CaseRange) :
  unicode.to delta r l = r \/
  exists cr, In cr l /\ unicode.Lo cr <= r <= unicode.Hi cr /\
             unicode.to delta r l = r + delta cr.
Proof.
  induction l as [|cr l IH]; cbn [unicode.to]; [left; reflexivity|].
  destruct ((unicode.Lo cr <=? r) && (r <=? unicode.Hi cr)) eqn:E.
  - right. exists cr. split; [left; reflexivity|]. split; [lia|reflexivity].
  - destruct IH as [IH|[cr' [I [R T]]]]; [left; exact IH|].
    right. exists cr'. split; [right; exact I|]. split; assumption.
Qed.

Lemma ToLower_not_upper (r : Z) : ~ (65 <= unicode.ToLower r <= 90).
Proof.
  unfold unicode.ToLower, unicode.MaxASCII.
  destruct (r <=? 127) eqn:A.
  { destruct ((65 <=? r) && (r <=? 90)) eqn:E; lia. }
  assert (C : forallb (fun cr => (90 <? unicode.Lo cr + unicode.deltaLower cr) ||
                                 (unicode.Hi cr + unicode.deltaLower cr <? 65))
                      unicode.CaseRanges = true) by (vm_compute; reflexivity).
  rewrite forallb_forall in C.
  destruct (to_in_range unicode.deltaLower r unicode.CaseRanges) as [E|[cr [I [R E]]]];
    rewrite E; [lia|].
  specialize (C cr I). lia.
Qed.

Lemma ToUpper_not_lower (r : Z) : ~ (97 <= unicode.ToUpper r <= 122).
Proof.
  unfold unicode.ToUpper, unicode.MaxASCII.
  destruct (r <=? 127) eqn:A.
  { destruct ((97 <=? r) && (r <=? 122)) eqn:E; lia. }
  assert (C : forallb (fun cr => (122 <? unicode.Lo cr + unicode.deltaUpper cr) ||
                                 (unicode.Hi cr + unicode.deltaUpper cr <? 97))
                      unicode.CaseRanges = true) by (vm_compute; reflexivity).
  rewrite forallb_forall in C.
  destruct (to_in_range unicode.deltaUpper r unicode.CaseRanges) as [E|[cr [I [R E]]]];
    rewrite E; [lia|].
  specialize (C cr I). lia.
Qed.

(** What [strings.ToLower] returns holds no ASCII upper-case letter, and
    what [strings.ToUpper] returns no ASCII lower-case letter. *)
Lemma ToLower_no_upper (s : string) : no_upper (strings.ToLower s) = true.
Proof.
  unfold no_upper, strings.ToLower. destruct (strings.isASCII s).
  - induction s as [|c t IH]; cbn [string_map string_forallb]; [reflexivity|].
    rewrite IH, andb_true_r, lower_byte_val. unfold lowerZ.
    destruct ((65 <=? byte_val c) && (byte_val c <=? 90)) eqn:E;
      apply negb_true_iff; lia.
  - apply Map_avoids; [lia|exact ToLower_not_upper].
Qed.

Lemma ToUpper_no_lower (s : string) : no_lower (strings.ToUpper s) = true.
Proof.
  unfold no_lower, strings.ToUpper. destruct (strings.isASCII s).
  - induction s as [|c t IH]; cbn [string_map string_forallb]; [reflexivity|].
    rewrite IH, andb_true_r. unfold strings.upper_byte.
    pose proof (byte_val_range c).
    destruct ((97 <=? byte_val c) && (byte_val c <=? 122)) eqn:E.
    + rewrite byte_val_of by lia. apply negb_true_iff. lia.
    + rewrite E. reflexivity.
  - apply Map_avoids; [lia|exact ToUpper_not_lower].
Qed.

(** ** The write hook, field by field *)

Section Hook.

Context {T_ownership : Type}.
Variable b : bluemonday.Policy.

Implicit Types u v : @T_user T_ownership.

Lemma BeforeSave_eq u :
  BeforeSave b u (mkStatement u) =
  (let u' :=
     mkT_user (Id u) (strings.ToLower (bluemonday.Sanitize b (Email u)))
       (Password u) (normal_SsoId b (SsoId u)) (Company u) (Department u)
       (Created u) (LastLogin u) (LogoutCount u) (Active u) (Admin u)
       (bluemonday.Sanitize b (Name u)) (bluemonday.Sanitize b (Surname u))
       (normal_Gender b (Gender u)) (Certificate u) (DbPasswordHash u)
       (Ownerships u) in
   (u', mkStatement u', None)).
Proof.
  unfold BeforeSave, normal_SsoId, normal_Gender, first_byte.
  destruct u as [i e p [ss sv] c d cr ll lc ac ad n sn g ce dh ow].
  destruct sv; cbn -[Nat.ltb String.length substring];
    destruct (1 <? String.length (strings.ToUpper (bluemonday.Sanitize b g)))%nat;
    reflexivity.
Qed.

Lemma run_BeforeSave_eq u :
  run_BeforeSave b u =
  mkT_user (Id u) (strings.ToLower (bluemonday.Sanitize b (Email u)))
    (Password u) (normal_SsoId b (SsoId u)) (Company u) (Department u)
    (Created u) (LastLogin u) (LogoutCount u) (Active u) (Admin u)
    (bluemonday.Sanitize b (Name u)) (bluemonday.Sanitize b (Surname u))
    (normal_Gender b (Gender u)) (Certificate u) (DbPasswordHash u)
    (Ownerships u).
Proof.
  unfold run_BeforeSave. rewrite BeforeSave_eq. reflexivity.
Qed.

(** The receiver and the statement's destination leave the hook equal:
    they are one struct. *)
Lemma BeforeSave_receiver u :
  fst (fst (BeforeSave b u (mkStatement u))) = run_BeforeSave b u.
Proof.
  unfold run_BeforeSave. rewrite BeforeSave_eq. reflexivity.
Qed.

Lemma BeforeSave_nil u (tx : Statement) : snd (BeforeSave b u tx) = None.
Proof.
  unfold BeforeSave.
  destruct (sql.Valid (SsoId _)); reflexivity.
Qed.

Lemma Id_run u : Id (run_BeforeSave b u) = Id u.
Proof. rewrite run_BeforeSave_eq. reflexivity. Qed.

Lemma Email_run u :
  Email (run_BeforeSave b u) = strings.ToLower (bluemonday.Sanitize b (Email u)).
Proof. rewrite run_BeforeSave_eq. reflexivity. Qed.

Lemma SsoId_run u : SsoId (run_BeforeSave b u) = normal_SsoId b (SsoId u).
Proof. rewrite run_BeforeSave_eq. reflexivity. Qed.


Lemma Gender_run u : Gender (run_BeforeSave b u) = normal_Gender b (Gender u).
Proof. rewrite run_BeforeSave_eq. reflexivity. Qed.

(** *** Case folding *)

(** C4, amended. On every write the hook stores the email as
    [strings.ToLower] of its sanitized text and a present SSO id as
    [strings.ToUpper] of its sanitized text (an absent one is left
    alone). Hence two emails, or two SSO ids, whose sanitized texts
    differ only in the case of ASCII letters are persisted as the same
    value, and so are two markup-free inputs that do. The stored email
    holds no ASCII upper-case letter and the stored SSO id no ASCII
    lower-case letter; where the sanitized text is ASCII the stored value
    is that text with every letter put to the one case, byte by byte.
    The spec's examples are folded as it says, and so are letters outside
    ASCII that have the other case. *)
Theorem BeforeSave_folds_case u :
  Email (run_BeforeSave b u) = strings.ToLower (bluemonday.Sanitize b (Email u)) /\
  SsoId (run_BeforeSave b u) =
    (if sql.Valid (SsoId u)
     then sql.mkNullString
            (strings.ToUpper (bluemonday.Sanitize b (sql.String (SsoId u)))) true
     else SsoId u) /\
  (forall v,
      same_letters (bluemonday.Sanitize b (Email u)) (bluemonday.Sanitize b (Email v)) ->
      Email (run_BeforeSave b v) = Email (run_BeforeSave b u)) /\
  (forall v,
      sql.Valid (SsoId u) = true -> sql.Valid (SsoId v) = true ->
      same_letters (bluemonday.Sanitize b (sql.String (SsoId u)))
                   (bluemonday.Sanitize b (sql.String (SsoId v))) ->
      SsoId (run_BeforeSave b v) = SsoId (run_BeforeSave b u)) /\
  (forall v,
      bluemonday.plain (Email u) = true -> bluemonday.plain (Email v) = true ->
      same_letters (Email u) (Email v) ->
      Email (run_BeforeSave b v) = Email (run_BeforeSave b u)) /\
  (forall v,
      sql.Valid (SsoId u) = true -> sql.Valid (SsoId v) = true ->
      bluemonday.plain (sql.String (SsoId u)) = true ->
      bluemonday.plain (sql.String (SsoId v)) = true ->
      same_letters (sql.String (SsoId u)) (sql.String (SsoId v)) ->
      SsoId (run_BeforeSave b v) = SsoId (run_BeforeSave b u)) /\
  no_upper (Email (run_BeforeSave b u)) = true /\
  (sql.Valid (SsoId u) = true ->
   no_lower (sql.String (SsoId (run_BeforeSave b u))) = true) /\
  (strings.isASCII (bluemonday.Sanitize b (Email u)) = true ->
   Email (run_BeforeSave b u) =
     string_map strings.lower_byte (bluemonday.Sanitize b (Email u))) /\
  (sql.Valid (SsoId u) = true ->
   strings.isASCII (bluemonday.Sanitize b (sql.String (SsoId u))) = true ->
   SsoId (run_BeforeSave b u) =
     sql.mkNullString
       (string_map strings.upper_byte (bluemonday.Sanitize b (sql.String (SsoId u)))) true) /\
  Email (run_BeforeSave b (set_Email "User@Example.COM" u)) = "user@example.com" /\
  SsoId (run_BeforeSave b (set_SsoId (sql.mkNullString "abc-123" true) u)) =
    sql.mkNullString "ABC-123" true /\
  Email (run_BeforeSave b (set_Email (bytes_of [0xC4; 0x80; 0x40; 0x58]) u)) =
    bytes_of [0xC4; 0x81; 0x40; 0x78] /\
  SsoId (run_BeforeSave b
           (set_SsoId (sql.mkNullString (bytes_of [0xC3; 0xA4; 0x2D; 0x61]) true) u)) =
    sql.mkNullString (bytes_of [0xC3; 0x84; 0x2D; 0x41]) true.
Proof.
  split; [apply Email_run|].
  split; [rewrite SsoId_run; reflexivity|].
  split.
  { intros v H. rewrite !Email_run. symmetry. apply same_letters_ToLower, H. }
  split.
  { intros v Hu Hv H. rewrite !SsoId_run. unfold normal_SsoId. rewrite Hu, Hv.
    f_equal. symmetry. apply same_letters_ToUpper, H. }
  split.
  { intros v Pu Pv H. rewrite !Email_run.
    rewrite !(bluemonday.Sanitize_plain b) by assumption.
    symmetry. apply same_letters_ToLower, H. }
  split.
  { intros v Hu Hv Pu Pv H. rewrite !SsoId_run. unfold normal_SsoId.
    rewrite Hu, Hv. rewrite !(bluemonday.Sanitize_plain b) by assumption.
    f_equal. symmetry. apply same_letters_ToUpper, H. }
  split; [rewrite Email_run; apply ToLower_no_upper|].
  split.
  { intros Hu. rewrite SsoId_run. unfold normal_SsoId. rewrite Hu.
    cbn [sql.String]. apply ToUpper_no_lower. }
  split.
  { intros A. rewrite Email_run. unfold strings.ToLower. rewrite A. reflexivity. }
  split.
  { intros Hu A. rewrite SsoId_run. unfold normal_SsoId. rewrite Hu.
    unfold strings.ToUpper. rewrite A. reflexivity. }
  split.
  { rewrite Email_run. cbn [Email set_Email].
    rewrite bluemonday.Sanitize_plain by reflexivity. reflexivity. }
  split.
  { rewrite SsoId_run. cbn [SsoId set_SsoId]. unfold normal_SsoId.
    cbn [sql.Valid sql.String].
    rewrite bluemonday.Sanitize_plain by reflexivity. reflexivity. }
  split.
  { rewrite Email_run. cbn [Email set_Email].
    rewrite bluemonday.Sanitize_plain by reflexivity. vm_compute. reflexivity. }
  rewrite SsoId_run. cbn [SsoId set_SsoId]. unfold normal_SsoId.
  cbn [sql.Valid sql.String].
  rewrite bluemonday.Sanitize_plain by reflexivity. vm_compute. reflexivity.
Qed.

(** *** Gender *)

Lemma normal_Gender_plain (g : string) :
  bluemonday.plain g = true ->
  normal_Gender b g = first_byte (strings.ToUpper g).
Proof.
  intros H. unfold normal_Gender. rewrite bluemonday.Sanitize_plain by exact H.
  reflexivity.
Qed.

(** C6, at the input [a_umlaut] (the two bytes of U+00E4). Upper-casing
    gives the two bytes of U+00C4 and [[:1]] keeps the first of them: the
    stored gender is the lone byte 0xC3, which is no character at all, not
    valid UTF-8 and not its own upper-case form. *)
Theorem BeforeSave_gender_cuts_a_character u :
  Gender (run_BeforeSave b (set_Gender a_umlaut u)) = bytes_of [0xC3] /\
  utf8.ValidString (Gender (run_BeforeSave b (set_Gender a_umlaut u))) = false /\
  ~ upper_case_character (Gender (run_BeforeSave b (set_Gender a_umlaut u))) /\
  Gender (run_BeforeSave b (set_Gender a_umlaut u)) <> "".
Proof.
  assert (E : Gender (run_BeforeSave b (set_Gender a_umlaut u)) = bytes_of [0xC3]).
  { rewrite Gender_run. cbn [Gender set_Gender].
    rewrite normal_Gender_plain by reflexivity. reflexivity. }
  rewrite E. repeat split.
  - intros [V _]. vm_compute in V. discriminate.
  - discriminate.
Qed.

(** C5, at a user whose gender is [a_umlaut]. The first run stores the
    byte 0xC3; the second run reads that byte as an invalid sequence,
    which upper-casing replaces by U+FFFD, and keeps the first byte 0xEF
    of its encoding: running the hook twice does not give what running
    it once gives. *)
Theorem BeforeSave_twice_differs u :
  Gender (run_BeforeSave b (set_Gender a_umlaut u)) = bytes_of [0xC3] /\
  Gender (run_BeforeSave b (run_BeforeSave b (set_Gender a_umlaut u))) = bytes_of [0xEF] /\
  run_BeforeSave b (run_BeforeSave b (set_Gender a_umlaut u)) <>
  run_BeforeSave b (set_Gender a_umlaut u).
Proof.
  assert (E1 : Gender (run_BeforeSave b (set_Gender a_umlaut u)) = bytes_of [0xC3]).
  { rewrite Gender_run. cbn [Gender set_Gender].
    rewrite normal_Gender_plain by reflexivity. reflexivity. }
  assert (E2 : Gender (run_BeforeSave b (run_BeforeSave b (set_Gender a_umlaut u)))
               = bytes_of [0xEF]).
  { rewrite Gender_run, E1. rewrite normal_Gender_plain by reflexivity. reflexivity. }
  repeat split; [exact E1|exact E2|].
  intros H. rewrite H, E1 in E2. discriminate.
Qed.

Lemma first_byte_length (s : string) : (String.length (first_byte s) <= 1)%nat.
Proof.
  unfold first_byte. destruct s as [|a [|a' t]]; cbn; lia.
Qed.

(** X1. After the hook the gender holds at most one byte; "Diverse" becomes
    "D" and the empty gender stays empty. *)
Theorem BeforeSave_gender_one_byte u :
  (String.length (Gender (run_BeforeSave b u)) <= 1)%nat /\
  Gender (run_BeforeSave b (set_Gender "Diverse" u)) = "D" /\
  Gender (run_BeforeSave b (set_Gender "" u)) = "".
Proof.
  split; [|split].
  - rewrite Gender_run. apply first_byte_length.
  - rewrite Gender_run. cbn [Gender set_Gender].
    rewrite normal_Gender_plain by reflexivity. reflexivity.
  - rewrite Gender_run. cbn [Gender set_Gender].
    rewrite normal_Gender_plain by reflexivity. reflexivity.
Qed.

(** *** Idempotence on markup-free ASCII text *)

Lemma tidy_plain (s : string) : tidy s = true -> bluemonday.plain s = true.
Proof.
  unfold tidy. intros H. apply andb_prop in H. tauto.
Qed.

Lemma tidy_ascii (s : string) : tidy s = true -> strings.isASCII s = true.
Proof.
  unfold tidy. intros H. apply andb_prop in H. tauto.
Qed.

Lemma upper_byte_val (c : ascii) :
  byte_val (strings.upper_byte c) =
  if (97 <=? byte_val c) && (byte_val c <=? 122) then byte_val c - 32 else byte_val c.
Proof.
  unfold strings.upper_byte. pose proof (byte_val_range c).
  destruct ((97 <=? byte_val c) && (byte_val c <=? 122)) eqn:E; [|reflexivity].
  apply byte_val_of. lia.
Qed.

Lemma upper_byte_idem (c : ascii) :
  strings.upper_byte (strings.upper_byte c) = strings.upper_byte c.
Proof.
  unfold strings.upper_byte at 1. rewrite upper_byte_val.
  destruct ((97 <=? byte_val c) && (byte_val c <=? 122)) eqn:E.
  - replace ((97 <=? byte_val c - 32) && (byte_val c - 32 <=? 122)) with false by lia.
    reflexivity.
  - rewrite E. reflexivity.
Qed.

(** Changing the case of a letter keeps a byte markup-free and ASCII. *)
Lemma tidy_map (f : ascii -> ascii) (s : string) :
  (forall c, bluemonday.special (f c) = bluemonday.special c) ->
  (forall c, (byte_val (f c) <? utf8.RuneSelf) = (byte_val c <? utf8.RuneSelf)) ->
  tidy (string_map f s) = tidy s.
Proof.
  intros Hs Ha. unfold tidy. f_equal.
  - unfold bluemonday.plain. induction s as [|c t IH]; [reflexivity|].
    cbn [string_map string_forallb]. rewrite Hs, IH. reflexivity.
  - unfold strings.isASCII. induction s as [|c t IH]; [reflexivity|].
    cbn [string_map string_forallb]. rewrite Ha, IH. reflexivity.
Qed.

Lemma special_lower (c : ascii) :
  bluemonday.special (strings.lower_byte c) = bluemonday.special c.
Proof.
  unfold bluemonday.special. rewrite lower_byte_val. unfold lowerZ.
  destruct ((65 <=? byte_val c) && (byte_val c <=? 90)) eqn:E; lia.
Qed.

Lemma special_upper (c : ascii) :
  bluemonday.special (strings.upper_byte c) = bluemonday.special c.
Proof.
  unfold bluemonday.special. rewrite upper_byte_val.
  destruct ((97 <=? byte_val c) && (byte_val c <=? 122)) eqn:E; lia.
Qed.

Lemma ascii_lower (c : ascii) :
  (byte_val (strings.lower_byte c) <? utf8.RuneSelf) = (byte_val c <? utf8.RuneSelf).
Proof.
  rewrite lower_byte_val. unfold lowerZ, utf8.RuneSelf.
  destruct ((65 <=? byte_val c) && (byte_val c <=? 90)) eqn:E; lia.
Qed.

Lemma ascii_upper (c : ascii) :
  (byte_val (strings.upper_byte c) <? utf8.RuneSelf) = (byte_val c <? utf8.RuneSelf).
Proof.
  rewrite upper_byte_val. unfold utf8.RuneSelf.
  destruct ((97 <=? byte_val c) && (byte_val c <=? 122)) eqn:E; lia.
Qed.

Lemma ToLower_tidy (s : string) :
  tidy s = true ->
  strings.ToLower s = string_map strings.lower_byte s /\
  tidy (strings.ToLower s) = true.
Proof.
  intros H. unfold strings.ToLower. rewrite (tidy_ascii s H). split; [reflexivity|].
  rewrite (tidy_map _ s special_lower ascii_lower). exact H.
Qed.

Lemma ToUpper_tidy (s : string) :
  tidy s = true ->
  strings.ToUpper s = string_map strings.upper_byte s /\
  tidy (strings.ToUpper s) = true.
Proof.
  intros H. unfold strings.ToUpper. rewrite (tidy_ascii s H). split; [reflexivity|].
  rewrite (tidy_map _ s special_upper ascii_upper). exact H.
Qed.

Lemma string_map_upper_idem (s : string) :
  string_map strings.upper_byte (string_map strings.upper_byte s) =
  string_map strings.upper_byte s.
Proof.
  induction s as [|c t IH]; simpl; [reflexivity|].
  rewrite upper_byte_idem, IH. reflexivity.
Qed.

Lemma first_byte_tidy (s : string) : tidy s = true -> tidy (first_byte s) = true.
Proof.
  unfold first_byte. destruct s as [|a [|a' t]]; cbn [String.length Nat.ltb Nat.leb];
    try (intros H; exact H).
  unfold tidy, bluemonday.plain, strings.isASCII.
  cbn [substring string_forallb]. intros H.
  apply andb_prop in H. destruct H as [H1 H2].
  apply andb_prop in H1. destruct H1 as [H1 _].
  apply andb_prop in H2. destruct H2 as [H2 _].
  rewrite H1, H2. reflexivity.
Qed.

Lemma first_byte_upper (s : string) :
  first_byte (string_map strings.upper_byte (first_byte s)) =
  first_byte (string_map strings.upper_byte s).
Proof.
  unfold first_byte. destruct s as [|a [|a' t]]; reflexivity.
Qed.

(** X3. On a user whose email, name, surname, gender and present SSO id are
    markup-free ASCII text, running the hook twice gives what running it
    once gives. *)
Theorem BeforeSave_idempotent_on_tidy u :
  tidy (Email u) = true ->
  tidy (Name u) = true ->
  tidy (Surname u) = true ->
  tidy (Gender u) = true ->
  (sql.Valid (SsoId u) = true -> tidy (sql.String (SsoId u)) = true) ->
  run_BeforeSave b (run_BeforeSave b u) = run_BeforeSave b u.
Proof.
  intros He Hn Hs Hg Hsso.
  rewrite (run_BeforeSave_eq (run_BeforeSave b u)).
  rewrite (run_BeforeSave_eq u).
  cbn [Id Email Password SsoId Company Department Created LastLogin LogoutCount
       Active Admin Name Surname Gender Certificate DbPasswordHash Ownerships].
  pose proof (bluemonday.Sanitize_plain b) as P.
  f_equal.
  - rewrite (P (Email u)) by (apply tidy_plain; exact He).
    destruct (ToLower_tidy _ He) as [E T].
    rewrite (P _ (tidy_plain _ T)).
    destruct (ToLower_tidy _ T) as [E' _]. rewrite E', E.
    apply string_map_lower_idem.
  - unfold normal_SsoId. destruct (sql.Valid (SsoId u)) eqn:V; [|rewrite V; reflexivity].
    cbn [sql.Valid sql.String]. specialize (Hsso eq_refl).
    rewrite (P (sql.String (SsoId u))) by (apply tidy_plain; exact Hsso).
    destruct (ToUpper_tidy _ Hsso) as [E T].
    rewrite (P _ (tidy_plain _ T)).
    destruct (ToUpper_tidy _ T) as [E' _]. rewrite E', E.
    rewrite string_map_upper_idem. reflexivity.
  - rewrite (P (Name u)) by (apply tidy_plain; exact Hn).
    apply P, tidy_plain, Hn.
  - rewrite (P (Surname u)) by (apply tidy_plain; exact Hs).
    apply P, tidy_plain, Hs.
  - unfold normal_Gender.
    rewrite (P (Gender u)) by (apply tidy_plain; exact Hg).
    destruct (ToUpper_tidy _ Hg) as [E T]. rewrite E in *.
    pose proof (first_byte_tidy _ T) as T1.
    rewrite (P _ (tidy_plain _ T1)).
    destruct (ToUpper_tidy _ T1) as [E1 _]. rewrite E1.
    rewrite first_byte_upper, string_map_upper_idem. reflexivity.
Qed.

End Hook.

(** ** The repository *)

Section Repository.

Context {T_ownership : Type} {ownership : Ownership T_ownership}.
Context {matcher : NameMatcher}.
Variable b : bluemonday.Policy.

Implicit Types u r : @T_user T_ownership.
Implicit Types db : @DB T_ownership.

(** *** Partial updates *)

(** C1. Save with an empty column list returns affected-count 0 and no
    error, and writes nothing: the store and the user are unchanged. *)
Theorem Save_without_columns db u : Save b db u [] = (db, u, 0, None).
Proof.
  reflexivity.
Qed.

(** C2. Save of a user whose Id is 0 with a non-empty column list fails
    with the error "invalid entry ID" (an InvalidEntity condition),
    returns affected-count 0 and writes nothing. *)
Theorem Save_unassigned_identity db u (columns : list string) :
  columns <> [] ->
  Id u = 0 ->
  Save b db u columns = (db, u, 0, Some (errors_New "invalid entry ID")) /\
  kind (errors_New "invalid entry ID") = InvalidEntity.
Proof.
  intros Hc Hid. split; [|reflexivity].
  destruct columns as [|c cs]; [congruence|].
  unfold Save. cbn [List.length Nat.ltb Nat.leb]. rewrite Hid. reflexivity.
Qed.

Lemma append_loop (l acc : list string) :
  fold_left (fun args column => (args ++ [column])%list) l acc = (acc ++ l)%list.
Proof.
  revert acc. induction l as [|x l IH]; intros acc; simpl.
  - symmetry. apply app_nil_r.
  - rewrite IH, <- app_assoc. reflexivity.
Qed.

(** Past its two guards [Save] is gorm's selective write. *)
Lemma Save_eq db u (columns : list string) :
  columns <> [] ->
  Id u <> 0 ->
  Save b db u columns =
  (let '(db', u', res) := gorm_Save b (mkSession db columns) u in
   match Error res with
   | Some e => (db', u', 0, Some e)
   | None => (db', u', RowsAffected res, None)
   end).
Proof.
  intros Hc Hid. destruct columns as [|c cs]; [congruence|].
  unfold Save. cbn [List.length Nat.ltb Nat.leb].
  apply Z.eqb_neq in Hid. rewrite Hid.
  cbn [hd tl]. rewrite append_loop. reflexivity.
Qed.

(** *** Construction and the company *)

(** C7. NewUser with an empty company argument gives a user whose
    company is the email argument; with a non-empty company argument the
    company is that argument. *)
Theorem NewUser_company (now : time_Time) (email company department name surname : string) :
  (company = "" ->
   Company (NewUser (T_ownership := T_ownership) now email company department name surname)
   = email) /\
  (company <> "" ->
   Company (NewUser (T_ownership := T_ownership) now email company department name surname)
   = company).
Proof.
  split; intros H; unfold NewUser; cbn [Company].
  - subst company. reflexivity.
  - destruct company as [|c t]; [congruence|reflexivity].
Qed.

(** *** Failures of Create *)




(** *** Lookups that find nothing *)

Lemma filter_none {A : Type} (p : A -> bool) (l : list A) :
  (forall x, In x l -> p x = false) -> filter p l = [].
Proof.
  induction l as [|x l IH]; intros H; simpl; [reflexivity|].
  rewrite (H x (or_introl eq_refl)). apply IH. intros y Hy. apply H. right. exact Hy.
Qed.

(** C10. When the query runs and no row matches, GetUser and
    GetUserByMail return a nil user together with a nil error. *)
Theorem lookup_finds_nothing db :
  fault db = None ->
  (forall id, (forall r, In r (users db) -> Id r <> id) ->
              GetUser db id = (None, None)) /\
  (forall mail, (forall r, In r (users db) -> Email r <> strings.ToLower mail) ->
                GetUserByMail db mail = (None, None)).
Proof.
  intros Hf. split.
  - intros id H. unfold GetUser, gorm_Find, Exec. rewrite Hf.
    rewrite filter_none; [reflexivity|].
    intros r Hr. apply Z.eqb_neq. exact (H r Hr).
  - intros mail H. unfold GetUserByMail, gorm_Find, Exec. rewrite Hf.
    rewrite filter_none; [reflexivity|].
    intros r Hr. apply String.eqb_neq. exact (H r Hr).
Qed.

(** *** Further facts about the repository *)

Lemma find_never {A : Type} (l : list A) : find (fun _ => false) l = None.
Proof.
  induction l; simpl; auto.
Qed.

(** X4. Save of the column "active" alone stores the user's in-memory value,
    true or false, in the row with the user's Id and leaves every other
    column and every other row as they were; it reports the number of
    rows with that Id. *)
Theorem Save_writes_active_only db u :
  fault db = None ->
  Id u <> 0 ->
  Save b db u ["active"] =
    (mkDB (map (fun r => if Id r =? Id u then set_Active (Active u) r else r) (users db))
          None,
     run_BeforeSave b u,
     Z.of_nat (List.length (filter (fun r => Id r =? Id u) (users db))),
     None).
Proof.
  intros Hf Hid. rewrite Save_eq by (discriminate || assumption).
  unfold gorm_Save, Begin. cbn [handle Selects].
  apply Z.eqb_neq in Hid. rewrite Hid, Hf.
  change (assignments ["active"]) with [col_active].
  unfold SaveAfterAssociations.
  change (saves_associations ["active"]) with false. cbv iota.
  unfold gorm_Update, Exec. rewrite Hf.
  change (fun r => match unique_violation [col_active]
                           (filter (fun r0 => negb (Id r0 =? Id (run_BeforeSave b u))) (users db))
                           (assign [col_active] (run_BeforeSave b u) r)
                   with Some _ => true | None => false end)
    with (fun _ : @T_user T_ownership => false).
  rewrite find_never. cbn [Error RowsAffected].
  unfold assign. cbn [fold_left ValueOf FieldSet].
  assert (EI : Id (run_BeforeSave b u) = Id u) by apply Id_run.
  assert (EA : Active (run_BeforeSave b u) = Active u)
    by (rewrite run_BeforeSave_eq; reflexivity).
  rewrite EI, EA. reflexivity.
Qed.

(** X5. When the query runs, GetUsers and GetAdministrators return a slice,
    never nil: every row, and every row whose admin flag is set; on an
    empty table the slice is empty. *)
Theorem listings_never_nil db :
  fault db = None ->
  GetUsers db = (Some (map (set_Ownerships []) (users db)), None) /\
  GetAdministrators db =
    (Some (map (set_Ownerships []) (filter (fun r => Admin r) (users db))), None) /\
  (users db = [] -> GetUsers db = (Some [], None) /\ GetAdministrators db = (Some [], None)).
Proof.
  intros Hf. unfold GetUsers, GetAdministrators, gorm_Find, Exec. rewrite Hf.
  assert (E : filter (fun _ : @T_user T_ownership => true) (users db) = users db).
  { induction (users db) as [|x l IH]; simpl; congruence. }
  rewrite E. split; [reflexivity|]. split; [reflexivity|].
  intros E0. rewrite E0. split; reflexivity.
Qed.

(** X6. GetUserByMail answers alike for two addresses that differ only in
    letter case. *)
Theorem GetUserByMail_ignores_case db (mail mail' : string) :
  same_letters mail mail' ->
  GetUserByMail db mail = GetUserByMail db mail'.
Proof.
  intros H. unfold GetUserByMail. rewrite (same_letters_ToLower _ _ H). reflexivity.
Qed.

End Repository.

(** ** The external representation *)

Section Representation.

Context {T_ownership : Type}.
Variable ownership_json : T_ownership -> json.

Implicit Types u v : @T_user T_ownership.

(** C3. The JSON object of a user has exactly the thirteen members named
    below, none of them under the name of the password, SSO-id,
    logout-counter or database-password column or field; whatever values
    those four fields are given the object is the same, and two users
    that differ only in those fields have the same object. *)
Theorem MarshalJSON_hides_secrets u :
  member_names (MarshalJSON ownership_json u) =
    ["id"; "email"; "company"; "department"; "created"; "last_login";
     "active"; "admin"; "name"; "surname"; "gender"; "certificate";
     "ownerships"] /\
  (forall c, In c [col_password; col_sso_id; col_logout_count; col_db_password] ->
             ~ In (DBName c) (member_names (MarshalJSON ownership_json u)) /\
             ~ In (FieldName c) (member_names (MarshalJSON ownership_json u))) /\
  (forall p s l d,
      MarshalJSON ownership_json
        (set_Password p (set_SsoId s (set_LogoutCount l (set_DbPasswordHash d u))))
      = MarshalJSON ownership_json u) /\
  (forall v, same_public u v ->
             MarshalJSON ownership_json v = MarshalJSON ownership_json u).
Proof.
  split; [reflexivity|]. split; [|split].
  - intros c Hc. cbn [member_names MarshalJSON map fst].
    cbn [In] in Hc.
    destruct Hc as [<-|[<-|[<-|[<-|[]]]]]; cbn [DBName FieldName];
      split; intros H; cbn [In] in H;
      repeat (destruct H as [H|H]; [discriminate H|]); exact H.
  - intros p s l d. reflexivity.
  - intros v H. unfold same_public in H. unfold MarshalJSON.
    destruct H as (-> & -> & -> & -> & -> & -> & -> & -> & -> & -> & -> & -> & ->).
    reflexivity.
Qed.

End Representation.

(** ** What a partial update touches *)

Section Columns.

Context {T_ownership : Type} {ownership : Ownership T_ownership}.
Context {matcher : NameMatcher}.
Variable b : bluemonday.Policy.

Implicit Types u v r : @T_user T_ownership.
Implicit Types db : @DB T_ownership.

Lemma column_eq_dec (c c' : column) : {c = c'} + {c <> c'}.
Proof.
  decide equality.
Defined.

Lemma In_DBNames (c : column) : In c DBNames.
Proof.
  destruct c; cbn; tauto.
Qed.

Lemma ValueOf_FieldSet_other (c c' : column) (x : value) r :
  c <> c' -> ValueOf c (FieldSet c' x r) = ValueOf c r.
Proof.
  intros H. destruct c, c'; try congruence; destruct x; reflexivity.
Qed.

Lemma ValueOf_FieldSet_same (c : column) v r :
  ValueOf c (FieldSet c (ValueOf c v) r) = ValueOf c v.
Proof.
  destruct c; reflexivity.
Qed.

Lemma Ownerships_FieldSet (c : column) (x : value) r :
  Ownerships (FieldSet c x r) = Ownerships r.
Proof.
  destruct c, x; reflexivity.
Qed.

Lemma ValueOf_assign_other (set : list column) (c : column) v r :
  ~ In c set -> ValueOf c (assign set v r) = ValueOf c r.
Proof.
  unfold assign. revert r. induction set as [|c0 set IH]; intros r H; cbn [fold_left].
  - reflexivity.
  - rewrite IH by (intros I; apply H; right; exact I).
    apply ValueOf_FieldSet_other. intros ->. apply H. left. reflexivity.
Qed.

Lemma ValueOf_assign_in (set : list column) (c : column) v r :
  In c set -> ValueOf c (assign set v r) = ValueOf c v.
Proof.
  revert r. induction set as [|c0 set IH]; intros r H; [destruct H|].
  destruct (in_dec column_eq_dec c set) as [I|N].
  - unfold assign. cbn [fold_left]. apply (IH _ I).
  - destruct H as [->|H]; [|contradiction].
    change (assign (c :: set) v r)
      with (assign set v (FieldSet c (ValueOf c v) r)).
    rewrite ValueOf_assign_other by exact N.
    apply ValueOf_FieldSet_same.
Qed.

Lemma Ownerships_assign (set : list column) v r :
  Ownerships (assign set v r) = Ownerships r.
Proof.
  unfold assign. revert r. induction set as [|c0 set IH]; intros r; cbn [fold_left].
  - reflexivity.
  - rewrite IH. apply Ownerships_FieldSet.
Qed.

Lemma assignments_In (selects : list string) (c : column) :
  In c (assignments selects) <-> selected selects c = true /\ PrimaryKey c = false.
Proof.
  unfold assignments. rewrite filter_In. split.
  - intros [_ H]. apply andb_prop in H. destruct H as [H1 H2].
    split; [exact H1|]. apply negb_true_iff. exact H2.
  - intros [H1 H2]. split; [apply In_DBNames|]. rewrite H1, H2. reflexivity.
Qed.

Lemma Id_assign (selects : list string) v r :
  Id (assign (assignments selects) v r) = Id r.
Proof.
  assert (H : ValueOf col_id (assign (assignments selects) v r) = ValueOf col_id r).
  { apply ValueOf_assign_other. intros I. apply assignments_In in I.
    destruct I as [_ I]. discriminate I. }
  cbn [ValueOf] in H. congruence.
Qed.

Lemma map_unless {A : Type} (p : A -> bool) (g : A -> A) (l : list A) :
  (forall x, In x l -> p x = false) ->
  map (fun x => if p x then g x else x) l = l.
Proof.
  induction l as [|x l IH]; intros H; cbn [map]; [reflexivity|].
  rewrite (H x (or_introl eq_refl)). f_equal. apply IH.
  intros y Hy. apply H. right. exact Hy.
Qed.


Lemma map_same {A : Type} (p : A -> bool) (l : list A) :
  map (fun x => if p x then x else x) l = l.
Proof.
  induction l as [|x l IH]; cbn [map]; [reflexivity|].
  rewrite IH. destruct (p x); reflexivity.
Qed.

Lemma ValueOf_written (selects : list string) (c : column) v r :
  ValueOf c (written_ownerships selects v r) = ValueOf c r.
Proof.
  unfold written_ownerships.
  destruct (saves_associations selects); [|reflexivity].
  destruct (Ownerships v); [reflexivity|]. destruct c; reflexivity.
Qed.

Lemma ValueOf_saved_row (selects : list string) (c : column) v r :
  ValueOf c (saved_row selects v r) = ValueOf c (assign (assignments selects) v r).
Proof.
  apply ValueOf_written.
Qed.

Lemma Id_saved_row (selects : list string) v r : Id (saved_row selects v r) = Id r.
Proof.
  pose proof (ValueOf_saved_row selects col_id v r) as H. cbn [ValueOf] in H.
  rewrite Id_assign in H. congruence.
Qed.

Lemma Ownerships_saved_row (selects : list string) v r :
  saves_associations selects = false ->
  Ownerships (saved_row selects v r) = Ownerships r.
Proof.
  intros H. unfold saved_row, written_ownerships. rewrite H. apply Ownerships_assign.
Qed.

(** The callback [gorm:update] leaves the rows as they were and reports
    no row, or assigns the columns in the rows that carry the Id. *)
Lemma gorm_Update_rows db (set : list column) v :
  (fst (gorm_Update db set v) = users db /\
   RowsAffected (snd (gorm_Update db set v)) = 0 /\
   (Error (snd (gorm_Update db set v)) <> None \/ set = []))
  \/
  (fst (gorm_Update db set v) =
     map (fun r => if Id r =? Id v then assign set v r else r) (users db) /\
   Error (snd (gorm_Update db set v)) = None /\
   RowsAffected (snd (gorm_Update db set v)) =
     Z.of_nat (List.length (filter (fun r => Id r =? Id v) (users db))) /\
   set <> [] /\ fault db = None /\
   forall r, In r (users db) -> Id r = Id v ->
     unique_violation set (filter (fun r0 => negb (Id r0 =? Id v)) (users db))
       (assign set v r) = None).
Proof.
  unfold gorm_Update, Exec. destruct set as [|c0 set].
  { left. cbn [fst snd Error RowsAffected]. auto. }
  destruct (fault db) as [f|] eqn:F.
  { left. cbn [fst snd Error RowsAffected].
    split; [reflexivity|]. split; [reflexivity|]. left. discriminate. }
  destruct (find _ _) as [r0|] eqn:Fd.
  { left. cbn [fst snd Error RowsAffected].
    split; [reflexivity|]. split; [reflexivity|]. left. discriminate. }
  right. cbn [fst snd Error RowsAffected].
  split; [reflexivity|]. split; [reflexivity|]. split; [reflexivity|].
  split; [discriminate|]. split; [reflexivity|].
  intros r Hr Hid.
  assert (M : In r (filter (fun r1 => Id r1 =? Id v) (users db))).
  { apply filter_In. split; [exact Hr|]. apply Z.eqb_eq. exact Hid. }
  pose proof (find_none _ _ Fd r M) as P. cbn beta in P.
  destruct (unique_violation _ _ _); [discriminate P|reflexivity].
Qed.

(** The callback [gorm:save_after_associations] fails and leaves the
    rows, or writes the ownerships in the rows that carry the Id. *)
Lemma SaveAfterAssociations_rows db (selects : list string) v
    (rows : list (@T_user T_ownership)) :
  snd (SaveAfterAssociations db selects v rows) <> None \/
  SaveAfterAssociations db selects v rows =
    (map (fun r => if Id r =? Id v then written_ownerships selects v r else r) rows, None).
Proof.
  unfold SaveAfterAssociations, written_ownerships.
  destruct (saves_associations selects).
  - destruct (Ownerships v) as [|o os].
    + right. rewrite map_same. reflexivity.
    + destruct (Exec db); [left; discriminate|right; reflexivity].
  - right. rewrite map_same. reflexivity.
Qed.

(** What [gorm_Save] leaves in the store, for a user with an Id: the
    store as it was, with an error; or, without one, the rows that carry
    the Id written anew. *)
Lemma gorm_Save_users (selects : list string) db u :
  Id u <> 0 ->
  (fst (fst (gorm_Save b (mkSession db selects) u)) = db /\
   Error (snd (gorm_Save b (mkSession db selects) u)) <> None /\
   RowsAffected (snd (gorm_Save b (mkSession db selects) u)) = 0)
  \/
  (fst (fst (gorm_Save b (mkSession db selects) u)) =
     mkDB (map (fun r => if Id r =? Id u
                         then saved_row selects (run_BeforeSave b u) r
                         else r) (users db)) (fault db) /\
   snd (fst (gorm_Save b (mkSession db selects) u)) = run_BeforeSave b u /\
   Error (snd (gorm_Save b (mkSession db selects) u)) = None /\
   (RowsAffected (snd (gorm_Save b (mkSession db selects) u)) = 0 /\
    assignments selects = []
    \/
    RowsAffected (snd (gorm_Save b (mkSession db selects) u)) =
      Z.of_nat (List.length (filter (fun r => Id r =? Id u) (users db))) /\
    assignments selects <> [] /\ fault db = None /\
    forall r, In r (users db) -> Id r = Id u ->
      unique_violation (assignments selects)
        (filter (fun r0 => negb (Id r0 =? Id u)) (users db))
        (assign (assignments selects) (run_BeforeSave b u) r) = None)).
Proof.
  intros Hid. unfold gorm_Save. cbn [handle Selects].
  apply Z.eqb_neq in Hid. rewrite Hid.
  destruct (Begin db) as [e|].
  { left. cbn [fst snd Error RowsAffected].
    split; [reflexivity|]. split; [discriminate|reflexivity]. }
  pose proof (gorm_Update_rows db (assignments selects) (run_BeforeSave b u)) as U.
  rewrite (Id_run b u) in U.
  destruct (gorm_Update db (assignments selects) (run_BeforeSave b u)) as [rows res].
  cbn [fst snd] in U.
  destruct (Error res) as [e|] eqn:E.
  { left. cbn [fst snd Error RowsAffected].
    split; [reflexivity|]. split; [discriminate|reflexivity]. }
  pose proof (SaveAfterAssociations_rows db selects (run_BeforeSave b u) rows) as W.
  rewrite (Id_run b u) in W.
  destruct (SaveAfterAssociations db selects (run_BeforeSave b u) rows) as [rows' [e|]].
  { left. cbn [fst snd Error RowsAffected].
    split; [reflexivity|]. split; [discriminate|reflexivity]. }
  destruct W as [W|W]; [exfalso; apply W; reflexivity|].
  inversion W as [W']. clear W.
  right. cbn [fst snd]. split; [|split; [reflexivity|split; [exact E|]]].
  - f_equal. destruct U as [(-> & _ & [U|U])|(-> & _)].
    + congruence.
    + apply map_ext. intros r. unfold saved_row. rewrite U. reflexivity.
    + rewrite map_map. apply map_ext. intros r.
      destruct (Id r =? Id u) eqn:Er.
      * rewrite Id_assign, Er. reflexivity.
      * rewrite Er. reflexivity.
  - destruct U as [(_ & U0 & [U|U])|(_ & _ & U0 & U1 & U2 & U3)].
    + congruence.
    + left. split; assumption.
    + right. split; [exact U0|]. split; [exact U1|]. split; [exact U2|exact U3].
Qed.


Lemma Save_store db u (columns : list string) :
  columns <> [] ->
  Id u <> 0 ->
  fst (fst (fst (Save b db u columns))) =
  fst (fst (gorm_Save b (mkSession db columns) u)).
Proof.
  intros Hc Hid. rewrite Save_eq by assumption.
  destruct (gorm_Save b (mkSession db columns) u) as [[db' u'] res].
  destruct (Error res); reflexivity.
Qed.

(** The rows [Save] leaves: those it found, or those with the rows of
    the user written anew. *)
Lemma Save_rows db u (columns : list string) :
  users (fst (fst (fst (Save b db u columns)))) = users db \/
  Id u <> 0 /\
  users (fst (fst (fst (Save b db u columns)))) =
    map (fun r => if Id r =? Id u
                  then saved_row columns (run_BeforeSave b u) r
                  else r) (users db).
Proof.
  destruct columns as [|c0 cs]; [left; reflexivity|].
  destruct (Z.eq_dec (Id u) 0) as [Z0|NZ].
  { left. unfold Save. cbn [List.length Nat.ltb Nat.leb]. rewrite Z0. reflexivity. }
  rewrite Save_store by (congruence || assumption).
  destruct (gorm_Save_users (c0 :: cs) db u NZ) as [(-> & _)|(-> & _)].
  - left. reflexivity.
  - right. split; [exact NZ|reflexivity].
Qed.

(** X7. Save of a list of names never adds or removes a row and never
    changes an Id; it leaves every ownership as it was unless the names
    select the relation; a row with another Id than the user's keeps
    every column, and every row keeps the columns that the names do not
    select. *)
Theorem Save_touches_only_named_columns db u (columns : list string) :
  names columns ->
  map Id (users (fst (fst (fst (Save b db u columns))))) = map Id (users db) /\
  (saves_associations columns = false ->
   map Ownerships (users (fst (fst (fst (Save b db u columns))))) =
     map Ownerships (users db)) /\
  (forall c,
     map (ValueOf c)
       (filter (fun r => negb (Id r =? Id u)) (users (fst (fst (fst (Save b db u columns)))))) =
     map (ValueOf c) (filter (fun r => negb (Id r =? Id u)) (users db))) /\
  (forall c, selected columns c = false ->
     map (ValueOf c) (users (fst (fst (fst (Save b db u columns))))) =
     map (ValueOf c) (users db)).
Proof.
  intros _.
  destruct (Save_rows db u columns) as [E | [_ E]]; rewrite E; clear E.
  { split; [reflexivity|]. split; [reflexivity|]. split; reflexivity. }
  split; [|split; [|split]].
  - rewrite map_map. apply map_ext. intros r.
    destruct (Id r =? Id u); [apply Id_saved_row|reflexivity].
  - intros NA. rewrite map_map. apply map_ext. intros r.
    destruct (Id r =? Id u); [apply Ownerships_saved_row; exact NA|reflexivity].
  - intros c. induction (users db) as [|r l IH]; [reflexivity|].
    cbn [map filter]. destruct (Id r =? Id u) eqn:E.
    + rewrite Id_saved_row, E. cbn [negb]. exact IH.
    + rewrite E. cbn [negb map]. f_equal. exact IH.
  - intros c Hc. rewrite map_map. apply map_ext. intros r.
    destruct (Id r =? Id u); [|reflexivity].
    rewrite ValueOf_saved_row.
    apply ValueOf_assign_other. intros I. apply assignments_In in I.
    destruct I as [I _]. congruence.
Qed.



(** *** The company *)







End Columns.

(** ** Faults, deletions and lookups *)

Section Store.

Context {T_ownership : Type} {ownership : Ownership T_ownership}.
Context {matcher : NameMatcher}.
Variable b : bluemonday.Policy.

Implicit Types u v r : @T_user T_ownership.
Implicit Types db : @DB T_ownership.

(** X10. A fault of the backend is never swallowed and nothing is
    written under it. With the connection closed Create, Save (of a user
    with an Id, with at least one column) and Delete return the fault,
    the store as it was and the user as it came: the hook has not run.
    When the statement fails Create, Save (naming at least one column
    that is not the primary key) and Delete (of a user with an Id) return
    the fault, the store as it was and the user as the hook left it.
    Under either fault the two listings return it with a nil slice and
    the two lookups with a nil user. *)
Theorem backend_fault_is_returned db (m : string) :
  (fault db = Some (ConnectionClosed m) ->
   (forall u, Create b db u = (db, u, Some (ErrBackend m))) /\
   (forall u columns,
       Id u <> 0 -> columns <> [] ->
       Save b db u columns = (db, u, 0, Some (ErrBackend m))) /\
   (forall u, Delete db u = (db, Some (ErrBackend m)))) /\
  (fault db = Some (StatementFailed m) ->
   (forall u, Create b db u = (db, run_BeforeSave b u, Some (ErrBackend m))) /\
   (forall u columns,
       Id u <> 0 -> columns <> [] -> assignments columns <> [] ->
       Save b db u columns = (db, run_BeforeSave b u, 0, Some (ErrBackend m))) /\
   (forall u, Id u <> 0 -> Delete db u = (db, Some (ErrBackend m)))) /\
  (fault db = Some (ConnectionClosed m) \/ fault db = Some (StatementFailed m) ->
   GetUsers db = (None, Some (ErrBackend m)) /\
   GetAdministrators db = (None, Some (ErrBackend m)) /\
   (forall id, GetUser db id = (None, Some (ErrBackend m))) /\
   (forall mail, GetUserByMail db mail = (None, Some (ErrBackend m)))).
Proof.
  split; [|split].
  - intros Hf. split; [|split].
    + intros u. unfold Create, gorm_Create, Begin. rewrite Hf. reflexivity.
    + intros u columns Hid Hc. rewrite Save_eq by assumption.
      unfold gorm_Save, Begin. cbn [handle Selects].
      apply Z.eqb_neq in Hid. rewrite Hid, Hf. reflexivity.
    + intros u. unfold Delete, gorm_Delete, Begin. rewrite Hf. reflexivity.
  - intros Hf. split; [|split].
    + intros u. unfold Create, gorm_Create, Begin, Exec. rewrite Hf. reflexivity.
    + intros u columns Hid Hc Ha. rewrite Save_eq by assumption.
      unfold gorm_Save, Begin, gorm_Update, Exec. cbn [handle Selects].
      apply Z.eqb_neq in Hid. rewrite Hid, Hf.
      destruct (assignments columns) as [|c0 set]; [congruence|]. reflexivity.
    + intros u Hid. unfold Delete, gorm_Delete, Begin, Exec.
      apply Z.eqb_neq in Hid. rewrite Hid, Hf. reflexivity.
  - intros Hf.
    assert (E : Exec db = Some (ErrBackend m)).
    { unfold Exec. destruct Hf as [Hf|Hf]; rewrite Hf; reflexivity. }
    split; [|split; [|split]].
    + unfold GetUsers, gorm_Find. rewrite E. reflexivity.
    + unfold GetAdministrators, gorm_Find. rewrite E. reflexivity.
    + intros id. unfold GetUser, gorm_Find. rewrite E. reflexivity.
    + intros mail. unfold GetUserByMail, gorm_Find. rewrite E. reflexivity.
Qed.

Lemma filter_filter_other (k id : Z) (l : list (@T_user T_ownership)) :
  id <> k ->
  filter (fun r => Id r =? id) (filter (fun r => negb (Id r =? k)) l) =
  filter (fun r => Id r =? id) l.
Proof.
  intros H. induction l as [|r l IH]; [reflexivity|].
  cbn [filter]. destruct (Id r =? k) eqn:E; cbn [negb].
  - apply Z.eqb_eq in E.
    replace (Id r =? id) with false by (symmetry; apply Z.eqb_neq; congruence).
    exact IH.
  - cbn [filter]. destruct (Id r =? id); [f_equal|]; exact IH.
Qed.

Lemma filter_idem {A : Type} (p : A -> bool) (l : list A) :
  filter p (filter p l) = filter p l.
Proof.
  induction l as [|x l IH]; [reflexivity|].
  cbn [filter]. destruct (p x) eqn:E; [cbn [filter]; rewrite E; f_equal|]; exact IH.
Qed.

(** X11. With the backend sound, Delete of a user with an Id removes the
    rows with that Id and no other: afterwards GetUser finds nothing
    under that Id and answers as before under every other Id, and a
    second Delete changes nothing and returns no error. Only the Id of
    the user matters. *)
Theorem Delete_removes_the_row db u :
  fault db = None ->
  Id u <> 0 ->
  Delete db u =
    (mkDB (filter (fun r => negb (Id r =? Id u)) (users db)) None, None) /\
  GetUser (fst (Delete db u)) (Id u) = (None, None) /\
  (forall id, id <> Id u -> GetUser (fst (Delete db u)) id = GetUser db id) /\
  Delete (fst (Delete db u)) u = (fst (Delete db u), None) /\
  (forall v, Id v = Id u -> Delete db v = Delete db u).
Proof.
  intros Hf Hid.
  assert (E : Delete db u =
              (mkDB (filter (fun r => negb (Id r =? Id u)) (users db)) None, None)).
  { unfold Delete, gorm_Delete, Begin, Exec. pose proof Hid as H0.
    apply Z.eqb_neq in H0. rewrite H0, Hf. reflexivity. }
  rewrite E. cbn [fst]. split; [reflexivity|]. split; [|split; [|split]].
  - unfold GetUser, gorm_Find, Exec. cbn [fault users].
    rewrite filter_none; [reflexivity|].
    intros r Hr. apply filter_In in Hr. destruct Hr as [_ Hr].
    apply negb_true_iff. exact Hr.
  - intros id Hne. unfold GetUser, gorm_Find, Exec. cbn [fault users].
    rewrite Hf, filter_filter_other by exact Hne. reflexivity.
  - unfold Delete, gorm_Delete, Begin, Exec. cbn [fault users].
    pose proof Hid as H0. apply Z.eqb_neq in H0. rewrite H0.
    rewrite filter_idem. reflexivity.
  - intros v Hv. unfold Delete, gorm_Delete, Begin, Exec. rewrite Hv.
    pose proof Hid as H0. apply Z.eqb_neq in H0. rewrite H0, Hf. reflexivity.
Qed.

(** X12. A user that GetUser returns is a stored row with the Id asked
    for, and comes without an error; with the backend sound GetUser
    returns a user whenever a row carries that Id. A user that
    GetUserByMail returns is a stored row, its ownerships left out, whose
    email is the lower-cased address; it returns one whenever a row has
    that email. *)
Theorem lookup_returns_a_match db :
  (forall id r e, GetUser db id = (Some r, e) ->
                  e = None /\ In r (users db) /\ Id r = id) /\
  (forall id, fault db = None -> (exists r, In r (users db) /\ Id r = id) ->
              exists r, GetUser db id = (Some r, None)) /\
  (forall mail r e, GetUserByMail db mail = (Some r, e) ->
                    e = None /\ Email r = strings.ToLower mail /\
                    exists r0, In r0 (users db) /\ r = set_Ownerships [] r0) /\
  (forall mail, fault db = None ->
                (exists r, In r (users db) /\ Email r = strings.ToLower mail) ->
                exists r, GetUserByMail db mail = (Some r, None)).
Proof.
  split; [|split; [|split]].
  - intros id r e H. unfold GetUser, gorm_Find, Exec in H.
    destruct (fault db); [discriminate H|].
    destruct (filter (fun r0 => Id r0 =? id) (users db)) as [|x l] eqn:F;
      [discriminate H|].
    cbn in H. inversion H; subst.
    assert (I : In r (filter (fun r0 => Id r0 =? id) (users db)))
      by (rewrite F; left; reflexivity).
    apply filter_In in I. destruct I as [I1 I2]. apply Z.eqb_eq in I2. auto.
  - intros id Hf [r [Hr Hid]]. unfold GetUser, gorm_Find, Exec. rewrite Hf.
    destruct (filter (fun r0 => Id r0 =? id) (users db)) as [|x l] eqn:F.
    + exfalso. assert (I : In r (filter (fun r0 => Id r0 =? id) (users db))).
      { apply filter_In. split; [exact Hr|]. apply Z.eqb_eq. exact Hid. }
      rewrite F in I. destruct I.
    + eexists. reflexivity.
  - intros mail r e H. unfold GetUserByMail, gorm_Find, Exec in H.
    destruct (fault db); [discriminate H|].
    destruct (filter (fun r0 => String.eqb (Email r0) (strings.ToLower mail)) (users db))
      as [|x l] eqn:F; [discriminate H|].
    cbn in H. inversion H; subst.
    assert (I : In x (filter (fun r0 => String.eqb (Email r0) (strings.ToLower mail))
                             (users db)))
      by (rewrite F; left; reflexivity).
    apply filter_In in I. destruct I as [I1 I2]. apply String.eqb_eq in I2.
    split; [reflexivity|]. split; [exact I2|]. exists x. auto.
  - intros mail Hf [r [Hr He]]. unfold GetUserByMail, gorm_Find, Exec. rewrite Hf.
    destruct (filter (fun r0 => String.eqb (Email r0) (strings.ToLower mail)) (users db))
      as [|x l] eqn:F.
    + exfalso.
      assert (I : In r (filter (fun r0 => String.eqb (Email r0) (strings.ToLower mail))
                               (users db))).
      { apply filter_In. split; [exact Hr|]. apply String.eqb_eq. exact He. }
      rewrite F in I. destruct I.
    + eexists. reflexivity.
Qed.

End Store.

(** ** Creation and the keys of the store *)

Section Keys.

Context {T_ownership : Type} {ownership : Ownership T_ownership}.
Context {matcher : NameMatcher}.
Variable b : bluemonday.Policy.

Implicit Types u v r : @T_user T_ownership.
Implicit Types db : @DB T_ownership.

Lemma Create_gorm db u : Create b db u = gorm_Create b db u.
Proof.
  unfold Create. destruct (gorm_Create b db u) as [[db' u'] [e|]]; reflexivity.
Qed.

Lemma max_ids_nonneg (l : list (@T_user T_ownership)) :
  0 <= fold_right Z.max 0 (map Id l).
Proof.
  induction l as [|r l IH]; cbn [map fold_right]; lia.
Qed.

Lemma next_id_fresh (l : list (@T_user T_ownership)) r :
  In r l -> Id r < next_id l.
Proof.
  unfold next_id. induction l as [|x l IH]; intros H; [destruct H|].
  cbn [map fold_right]. destruct H as [->|H]; [lia|]. specialize (IH H). lia.
Qed.

Lemma column_eqb_refl (c : column) : column_eqb c c = true.
Proof.
  unfold column_eqb. apply String.eqb_refl.
Qed.

Lemma column_eqb_eq (c c' : column) : column_eqb c c' = true -> c = c'.
Proof.
  destruct c, c'; cbn; intros H; try reflexivity; discriminate H.
Qed.

Lemma writes_In (set : list column) (c : column) : writes set c = true <-> In c set.
Proof.
  unfold writes. rewrite existsb_exists. split.
  - intros [x [Hx E]]. apply column_eqb_eq in E. subst x. exact Hx.
  - intros H. exists c. split; [exact H|apply column_eqb_refl].
Qed.

(** What a successful [gorm_Create] did. *)
Lemma gorm_Create_ok db u db' u' :
  gorm_Create b db u = (db', u', None) ->
  fault db = None /\
  u' = (if Id u =? 0 then set_Id (next_id (users db)) (run_BeforeSave b u)
        else run_BeforeSave b u) /\
  db' = mkDB (users db ++ [u']) None /\
  (forall r, In r (users db) -> Id r <> Id u') /\
  (forall r, In r (users db) -> Email r <> Email u').
Proof.
  unfold gorm_Create, Begin, Exec. rewrite Id_run. intros H.
  destruct (fault db) as [[m|m]|] eqn:F; [discriminate H|discriminate H|].
  set (row := if Id u =? 0 then set_Id (next_id (users db)) (run_BeforeSave b u)
              else run_BeforeSave b u) in *.
  destruct (existsb (fun r => Id r =? Id row) (users db)) eqn:X; [discriminate H|].
  destruct (unique_violation DBNames (users db) row) as [c|] eqn:V; [discriminate H|].
  inversion H; subst db' u'. clear H.
  split; [reflexivity|]. split; [reflexivity|]. split; [reflexivity|]. split.
  - intros r Hr E.
    assert (T : existsb (fun r0 => Id r0 =? Id row) (users db) = true).
    { apply existsb_exists. exists r. split; [exact Hr|]. apply Z.eqb_eq. exact E. }
    congruence.
  - intros r Hr E. unfold unique_violation in V.
    change (writes DBNames col_email) with true in V. cbn [andb] in V.
    destruct (email_taken (users db) row) eqn:T; [discriminate V|].
    assert (T' : email_taken (users db) row = true).
    { apply existsb_exists. exists r. split; [exact Hr|]. apply String.eqb_eq. exact E. }
    congruence.
Qed.

(** A failed [gorm_Create] wrote nothing. *)
Lemma gorm_Create_failed db u db' u' (e : error) :
  gorm_Create b db u = (db', u', Some e) -> db' = db.
Proof.
  unfold gorm_Create. intros H.
  destruct (Begin db); [inversion H; reflexivity|].
  destruct (Exec db); [inversion H; reflexivity|].
  destruct (existsb _ (users db)); [inversion H; reflexivity|].
  destruct (unique_violation _ _ _); [inversion H; reflexivity|discriminate H].
Qed.

Lemma gorm_Create_email_clash db v r :
  fault db = None ->
  In r (users db) ->
  Email r = Email (run_BeforeSave b v) ->
  exists e, gorm_Create b db v = (db, run_BeforeSave b v, Some e) /\ kind e = Conflict.
Proof.
  intros Hf Hr He. unfold gorm_Create, Begin, Exec. rewrite Hf.
  set (w := run_BeforeSave b v) in *.
  set (row := if Id w =? 0 then set_Id (next_id (users db)) w else w).
  assert (Ee : Email row = Email w) by (unfold row; destruct (Id w =? 0); reflexivity).
  destruct (existsb (fun r0 => Id r0 =? Id row) (users db)).
  { eexists. split; reflexivity. }
  unfold unique_violation. change (writes DBNames col_email) with true. cbn [andb].
  assert (T : email_taken (users db) row = true).
  { apply existsb_exists. exists r. split; [exact Hr|].
    rewrite Ee, He. apply String.eqb_refl. }
  rewrite T. eexists. split; reflexivity.
Qed.

Lemma filter_app_single {A : Type} (p : A -> bool) (l : list A) (x : A) :
  (forall y, In y l -> p y = false) -> p x = true ->
  filter p (l ++ [x]) = [x].
Proof.
  intros Hl Hx. rewrite filter_app, (filter_none p l Hl). cbn [filter app].
  rewrite Hx. reflexivity.
Qed.

(** X13. A Create that returns no error appended exactly one row: the
    user as the hook normalized it, under the Id it came with or, for Id
    0, under a fresh Id that is not 0. The user handed back is that row.
    GetUser finds it under its Id, and GetUserByMail finds it under the
    address it was created with when that address is free of markup. *)
Theorem Create_then_lookup db u db' u' :
  Create b db u = (db', u', None) ->
  users db' = (users db ++ [u'])%list /\
  set_Id (Id u) u' = run_BeforeSave b u /\
  Id u' <> 0 /\
  (Id u <> 0 -> Id u' = Id u) /\
  GetUser db' (Id u') = (Some u', None) /\
  (bluemonday.plain (Email u) = true ->
   GetUserByMail db' (Email u) = (Some (set_Ownerships [] u'), None)).
Proof.
  rewrite Create_gorm. intros H.
  destruct (gorm_Create_ok db u db' u' H) as (Hf & Eu & Ed & Hid & Hem).
  assert (Eemail : Email u' = Email (run_BeforeSave b u)).
  { rewrite Eu. destruct (Id u =? 0); reflexivity. }
  subst db'. cbn [users]. split; [reflexivity|]. split; [|split; [|split; [|split]]].
  - rewrite Eu. destruct (Id u =? 0) eqn:Z0.
    + apply Z.eqb_eq in Z0. rewrite run_BeforeSave_eq. unfold set_Id. cbn. congruence.
    + rewrite <- (Id_run b u). destruct (run_BeforeSave b u). reflexivity.
  - rewrite Eu. destruct (Id u =? 0) eqn:Z0.
    + cbn [Id set_Id]. unfold next_id.
      pose proof (max_ids_nonneg (users db)). lia.
    + rewrite Id_run. apply Z.eqb_neq. exact Z0.
  - intros NZ. rewrite Eu. apply Z.eqb_neq in NZ. rewrite NZ. apply Id_run.
  - unfold GetUser, gorm_Find. cbn [fault users].
    rewrite filter_app_single.
    + reflexivity.
    + intros r Hr. apply Z.eqb_neq. exact (Hid r Hr).
    + apply Z.eqb_refl.
  - intros Hp. unfold GetUserByMail, gorm_Find. cbn [fault users].
    assert (El : strings.ToLower (Email u) = Email u').
    { rewrite Eemail, Email_run, bluemonday.Sanitize_plain by exact Hp. reflexivity. }
    rewrite El. rewrite filter_app_single.
    + reflexivity.
    + intros r Hr. apply String.eqb_neq. exact (Hem r Hr).
    + apply String.eqb_refl.
Qed.

(** X14. Once a user is created, creating another whose email, markup
    stripped, differs from the first one's only in letter case fails with
    a Conflict and writes nothing: no second row can hold the address. *)
Theorem Create_twice_conflicts db u db' u' v :
  Create b db u = (db', u', None) ->
  same_letters (bluemonday.Sanitize b (Email u)) (bluemonday.Sanitize b (Email v)) ->
  exists e, Create b db' v = (db', run_BeforeSave b v, Some e) /\ kind e = Conflict.
Proof.
  rewrite !Create_gorm. intros H S.
  destruct (gorm_Create_ok db u db' u' H) as (Hf & Eu & Ed & _ & _).
  apply (gorm_Create_email_clash db' v u').
  - subst db'. reflexivity.
  - subst db'. cbn [users]. apply in_or_app. right. left. reflexivity.
  - assert (Eemail : Email u' = Email (run_BeforeSave b u)).
    { rewrite Eu. destruct (Id u =? 0); reflexivity. }
    rewrite Eemail, !Email_run. apply same_letters_ToLower. exact S.
Qed.

(** *** Unique Ids and emails *)

Lemma NoDup_app_single {A : Type} (l : list A) (x : A) :
  NoDup l -> ~ In x l -> NoDup (l ++ [x]).
Proof.
  intros Hl Hx. induction l as [|a l IH]; cbn [app].
  - constructor; [intros []|constructor].
  - inversion Hl; subst. constructor.
    + intros I. apply in_app_or in I. destruct I as [I|[I|[]]].
      * contradiction.
      * subst. apply Hx. left. reflexivity.
    + apply IH; [assumption|]. intros I. apply Hx. right. exact I.
Qed.

Lemma kept_rows_distinct {K : Type} (key : @T_user T_ownership -> K)
    (keep : @T_user T_ownership -> bool) (rows : list (@T_user T_ownership)) :
  NoDup (map key rows) -> NoDup (map key (filter keep rows)).
Proof.
  intros D. induction rows as [|r rows IH]; [exact D|].
  cbn [map] in D. inversion D as [|? ? Hr Hrows]; subst. cbn [filter].
  destruct (keep r); [|exact (IH Hrows)].
  cbn [map]. constructor; [|exact (IH Hrows)].
  intros I. apply in_map_iff in I. destruct I as [y [E Hy]].
  apply filter_In in Hy. apply Hr. rewrite <- E. apply in_map. tauto.
Qed.

(** Rewriting the email of the rows with the Id [k] keeps the emails
    distinct when Ids are distinct and no other row holds the new one. *)
Lemma NoDup_update (k : Z) (e' : string) (f : @T_user T_ownership -> @T_user T_ownership)
    (l : list (@T_user T_ownership)) :
  (forall r, Email (f r) = e') ->
  NoDup (map Id l) ->
  NoDup (map Email l) ->
  ((exists r, In r l /\ Id r = k) ->
   forall r, In r l -> Id r <> k -> Email r <> e') ->
  NoDup (map Email (map (fun r => if Id r =? k then f r else r) l)).
Proof.
  intros Hf. induction l as [|a t IH]; intros Hi He Hn; [constructor|].
  cbn [map] in *. inversion Hi as [|? ? Hia Hit]; subst.
  inversion He as [|? ? Hea Het]; subst.
  destruct (Id a =? k) eqn:E.
  - apply Z.eqb_eq in E.
    assert (Ht : forall r, In r t -> Id r <> k).
    { intros r Hr Ek. apply Hia. rewrite E, <- Ek. apply in_map. exact Hr. }
    rewrite map_unless by (intros r Hr; apply Z.eqb_neq; exact (Ht r Hr)).
    constructor; [|exact Het].
    rewrite Hf. intros I. apply in_map_iff in I. destruct I as [r [Er Hr]].
    apply (Hn (ex_intro _ a (conj (or_introl eq_refl) E)) r);
      [right; exact Hr|exact (Ht r Hr)|exact Er].
  - apply Z.eqb_neq in E. constructor.
    + intros I. apply in_map_iff in I. destruct I as [x [Ex Hx]].
      apply in_map_iff in Hx. destruct Hx as [r [Er Hr]]. subst x.
      destruct (Id r =? k) eqn:Ek.
      * apply Z.eqb_eq in Ek. rewrite Hf in Ex.
        apply (Hn (ex_intro _ r (conj (or_intror Hr) Ek)) a);
          [left; reflexivity|exact E|symmetry; exact Ex].
      * apply Hea. rewrite <- Ex. apply in_map. exact Hr.
    + apply IH; [exact Hit|exact Het|].
      intros [r [Hr Ek]] r' Hr' Ek'.
      apply (Hn (ex_intro _ r (conj (or_intror Hr) Ek)) r'); [right; exact Hr'|exact Ek'].
Qed.

Lemma gorm_Save_unique (selects : list string) db u :
  Id u <> 0 ->
  unique_keys db ->
  unique_keys (fst (fst (gorm_Save b (mkSession db selects) u))).
Proof.
  intros Hid [Hi He].
  destruct (gorm_Save_users b selects db u Hid) as [(-> & _)|(-> & _ & _ & G)];
    [split; assumption|].
  unfold unique_keys. cbn [users].
  set (v := run_BeforeSave b u) in *.
  assert (Em : forall r, Email (saved_row selects v r) =
                         Email (assign (assignments selects) v r)).
  { intros r. pose proof (ValueOf_saved_row selects col_email v r) as E.
    cbn [ValueOf] in E. congruence. }
  split.
  - rewrite map_map.
    replace (map (fun r => Id (if Id r =? Id u then saved_row selects v r else r))
                 (users db)) with (map Id (users db)); [exact Hi|].
    apply map_ext. intros r. destruct (Id r =? Id u); [|reflexivity].
    symmetry. apply Id_saved_row.
  - destruct (in_dec column_eq_dec col_email (assignments selects)) as [I|N].
    + apply (NoDup_update (Id u) (Email v)); [|exact Hi|exact He|].
      * intros r. rewrite Em.
        pose proof (ValueOf_assign_in (assignments selects) col_email v r I) as E.
        cbn [ValueOf] in E. congruence.
      * intros [r0 [Hr0 Ek]] r Hr Hne Ee.
        destruct G as [[_ G]|(_ & _ & _ & G)]; [rewrite G in I; destruct I|].
        pose proof (G r0 Hr0 Ek) as P.
        unfold unique_violation in P.
        rewrite (proj2 (writes_In _ _) I) in P. cbn [andb] in P.
        destruct (email_taken _ _) eqn:T; [discriminate P|].
        assert (T' : email_taken
                       (filter (fun r1 => negb (Id r1 =? Id u)) (users db))
                       (assign (assignments selects) v r0) = true).
        { apply existsb_exists. exists r. split.
          - apply filter_In. split; [exact Hr|].
            apply negb_true_iff. apply Z.eqb_neq. exact Hne.
          - pose proof (ValueOf_assign_in (assignments selects) col_email v r0 I) as E.
            cbn [ValueOf] in E. apply String.eqb_eq. congruence. }
        congruence.
    + rewrite map_map.
      replace (map (fun r => Email (if Id r =? Id u then saved_row selects v r else r))
                   (users db)) with (map Email (users db)); [exact He|].
      apply map_ext. intros r. destruct (Id r =? Id u); [|reflexivity].
      rewrite Em.
      pose proof (ValueOf_assign_other (assignments selects) col_email v r N) as E.
      cbn [ValueOf] in E. congruence.
Qed.

(** X15. A store in which no two users share an Id or an email stays so
    under Create, Save and Delete, whatever user and columns they are
    given and whether they succeed or fail. *)
Theorem unique_keys_are_kept db :
  unique_keys db ->
  (forall u, unique_keys (fst (fst (Create b db u)))) /\
  (forall u columns, unique_keys (fst (fst (fst (Save b db u columns))))) /\
  (forall u, unique_keys (fst (Delete db u))).
Proof.
  intros K. split; [|split].
  - intros u. rewrite Create_gorm.
    destruct (gorm_Create b db u) as [[db' u'] [e|]] eqn:C.
    + apply gorm_Create_failed in C. subst db'. exact K.
    + destruct (gorm_Create_ok db u db' u' C) as (_ & _ & Ed & Hid & Hem).
      subst db'. cbn [fst]. destruct K as [Ki Ke]. unfold unique_keys. cbn [users].
      rewrite !map_app. cbn [map]. split.
      * apply NoDup_app_single; [exact Ki|].
        intros I. apply in_map_iff in I. destruct I as [r [E Hr]]. exact (Hid r Hr E).
      * apply NoDup_app_single; [exact Ke|].
        intros I. apply in_map_iff in I. destruct I as [r [E Hr]]. exact (Hem r Hr E).
  - intros u columns. destruct columns as [|c0 cs]; [exact K|].
    destruct (Z.eq_dec (Id u) 0) as [Z0|NZ].
    + unfold Save. cbn [List.length Nat.ltb Nat.leb]. rewrite Z0. exact K.
    + rewrite Save_store by (congruence || assumption).
      apply gorm_Save_unique; assumption.
  - intros u. unfold Delete, gorm_Delete.
    destruct (Begin db); [exact K|].
    destruct (Id u =? 0); [exact K|]. destruct (Exec db); [exact K|].
    cbn [fst]. destruct K as [Ki Ke]. unfold unique_keys. cbn [users].
    split; apply kept_rows_distinct; assumption.
Qed.

End Keys.

(** ** From construction to the first update *)

Section Lifecycle.

Context {T_ownership : Type} {ownership : Ownership T_ownership}.
Context {matcher : NameMatcher}.
Variable b : bluemonday.Policy.

Implicit Types u v r : @T_user T_ownership.
Implicit Types db : @DB T_ownership.

Lemma existsb_never {A : Type} (p : A -> bool) (l : list A) :
  (forall x, In x l -> p x = false) -> existsb p l = false.
Proof.
  induction l as [|x l IH]; intros H; cbn [existsb]; [reflexivity|].
  rewrite (H x (or_introl eq_refl)). apply IH. intros y Hy. apply H. right. exact Hy.
Qed.

(** X2. The hook rewrites the email, the SSO id, the name, the surname
    and the gender and nothing else: the other twelve fields leave it as
    they entered, an SSO id that is not valid is left alone, the receiver
    and the statement's destination agree afterwards, and the error it
    returns is nil whatever statement it runs on. *)
Theorem BeforeSave_touches_five_fields u :
  Id (run_BeforeSave b u) = Id u /\
  Password (run_BeforeSave b u) = Password u /\
  Company (run_BeforeSave b u) = Company u /\
  Department (run_BeforeSave b u) = Department u /\
  Created (run_BeforeSave b u) = Created u /\
  LastLogin (run_BeforeSave b u) = LastLogin u /\
  LogoutCount (run_BeforeSave b u) = LogoutCount u /\
  Active (run_BeforeSave b u) = Active u /\
  Admin (run_BeforeSave b u) = Admin u /\
  Certificate (run_BeforeSave b u) = Certificate u /\
  DbPasswordHash (run_BeforeSave b u) = DbPasswordHash u /\
  Ownerships (run_BeforeSave b u) = Ownerships u /\
  (sql.Valid (SsoId u) = false -> SsoId (run_BeforeSave b u) = SsoId u) /\
  BeforeSave b u (mkStatement u) =
    (run_BeforeSave b u, mkStatement (run_BeforeSave b u), None) /\
  (forall tx, snd (BeforeSave b u tx) = None).
Proof.
  rewrite BeforeSave_eq, run_BeforeSave_eq. cbn.
  repeat (split; [reflexivity|]). split; [|split; [reflexivity|]].
  - intros V. unfold normal_SsoId. rewrite V. reflexivity.
  - intros tx. apply BeforeSave_nil.
Qed.

(** Create of a user without Id and without SSO id whose normalized
    email is free. *)
Lemma gorm_Create_fresh db u :
  fault db = None ->
  Id u = 0 ->
  sql.Valid (SsoId u) = false ->
  (forall r, In r (users db) ->
             Email r <> strings.ToLower (bluemonday.Sanitize b (Email u))) ->
  gorm_Create b db u =
    (mkDB (users db ++ [set_Id (next_id (users db)) (run_BeforeSave b u)]) None,
     set_Id (next_id (users db)) (run_BeforeSave b u), None).
Proof.
  intros Hf Hid Hv Hfree. unfold gorm_Create, Begin, Exec. rewrite Hf, Id_run, Hid.
  change (0 =? 0) with true. cbv iota.
  rewrite existsb_never.
  2:{ intros r Hr. apply Z.eqb_neq.
      pose proof (next_id_fresh (users db) r Hr). cbn [Id set_Id]. lia. }
  unfold unique_violation, email_taken, sso_taken.
  rewrite (existsb_never (fun r => String.eqb (Email r) _)).
  2:{ intros r Hr. apply String.eqb_neq.
      cbn [Email set_Id]. rewrite Email_run. exact (Hfree r Hr). }
  rewrite (existsb_never (fun r => same_sso (SsoId r) _)).
  2:{ intros r Hr. unfold same_sso. cbn [SsoId set_Id].
      rewrite SsoId_run. unfold normal_SsoId. rewrite Hv, Hv.
      rewrite andb_false_r. reflexivity. }
  rewrite !andb_false_r. reflexivity.
Qed.

(** X16. A user fresh from NewUser has no identity yet: Save refuses it,
    whatever the non-empty column list, and writes nothing. Create
    accepts it whenever the backend is sound and no stored row holds its
    normalized email: the row is appended under a fresh Id that is not 0,
    active, not an administrator, and with the company NewUser chose. *)
Theorem NewUser_is_created_before_it_is_saved
    (now : time_Time) (email company department name surname : string) db :
  (forall columns, columns <> [] ->
     Save b db (NewUser now email company department name surname) columns =
       (db, NewUser now email company department name surname, 0,
        Some (errors_New "invalid entry ID"))) /\
  (fault db = None ->
   (forall r, In r (users db) ->
              Email r <> strings.ToLower (bluemonday.Sanitize b email)) ->
   exists u',
     Create b db (NewUser now email company department name surname) =
       (mkDB (users db ++ [u']) None, u', None) /\
     Id u' = next_id (users db) /\ Id u' <> 0 /\
     Active u' = true /\ Admin u' = false /\
     Company u' = (if (String.length company =? 0)%nat then email else company)).
Proof.
  split.
  - intros columns Hc. destruct columns as [|c cs]; [congruence|].
    unfold Save. cbn [List.length Nat.ltb Nat.leb]. reflexivity.
  - intros Hf Hfree. rewrite Create_gorm.
    rewrite (gorm_Create_fresh db (NewUser now email company department name surname)
               Hf eq_refl eq_refl Hfree).
    eexists. split; [reflexivity|].
    cbn [Id set_Id]. split; [reflexivity|].
    split.
    + unfold next_id. pose proof (max_ids_nonneg (users db)). lia.
    + rewrite run_BeforeSave_eq. cbn [Active Admin Company set_Id NewUser].
      repeat split.
Qed.

(** X17. A user that Create handed back can be updated at once: with a
    column list that names at least one column and neither the email nor
    the SSO id, Save affects exactly one row and returns no error. *)
Theorem Create_then_Save_affects_one_row db u db' u' (columns : list string) :
  Create b db u = (db', u', None) ->
  assignments columns <> [] ->
  selected columns col_email = false ->
  selected columns col_sso_id = false ->
  exists db'', Save b db' u' columns = (db'', run_BeforeSave b u', 1, None).
Proof.
  rewrite Create_gorm. intros H Ha Se Ss.
  destruct (gorm_Create_ok b db u db' u' H) as (Hf & Eu & Ed & Hid & _).
  assert (NZ : Id u' <> 0).
  { rewrite Eu. destruct (Id u =? 0) eqn:Z0.
    - cbn [Id set_Id]. unfold next_id. pose proof (max_ids_nonneg (users db)). lia.
    - rewrite Id_run. apply Z.eqb_neq. exact Z0. }
  assert (Hc : columns <> []) by (intros ->; apply Ha; reflexivity).
  rewrite Save_eq by assumption.
  unfold gorm_Save, Begin, gorm_Update, SaveAfterAssociations, Exec.
  cbn [handle Selects].
  pose proof NZ as NZ'. apply Z.eqb_neq in NZ'. rewrite NZ'.
  destruct (assignments columns) as [|c0 set] eqn:A; [congruence|].
  subst db'. cbn [fault users]. rewrite Id_run.
  assert (We : writes (c0 :: set) col_email = false).
  { destruct (writes (c0 :: set) col_email) eqn:W; [|reflexivity].
    apply writes_In in W. rewrite <- A in W. apply assignments_In in W.
    destruct W as [W _]. congruence. }
  assert (Ws : writes (c0 :: set) col_sso_id = false).
  { destruct (writes (c0 :: set) col_sso_id) eqn:W; [|reflexivity].
    apply writes_In in W. rewrite <- A in W. apply assignments_In in W.
    destruct W as [W _]. congruence. }
  unfold unique_violation. rewrite We, Ws. cbn [andb].
  rewrite find_never. cbn [Error RowsAffected].
  rewrite filter_app_single.
  - destruct (saves_associations columns);
      [destruct (Ownerships (run_BeforeSave b u'))|]; eexists; reflexivity.
  - intros r Hr. apply Z.eqb_neq. exact (Hid r Hr).
  - apply Z.eqb_refl.
Qed.

End Lifecycle.

(** ** The view list *)

(** X19. Every row of the view table has exactly five cells, whatever
    the view: the third is the filter labels when there are filters and
    the "No Filters" cell otherwise, the fourth the users by company when
    there are any and the "No Users" cell otherwise. *)
Theorem row_has_five_cells (v : list_html.view) :
  List.length (list_html.row v) = 5%nat /\
  nth_error (list_html.row v) 2 =
    Some (match list_html.filter_strings v with
          | [] => list_html.td_no_filters
          | _ :: _ => list_html.td_filters (list_html.filter_strings v)
          end) /\
  nth_error (list_html.row v) 3 =
    Some (match list_html.users_by_company v with
          | [] => list_html.td_no_users
          | _ :: _ =>
            list_html.td_users (map list_html.company_block (list_html.users_by_company v))
          end) /\
  nth_error (list_html.row v) 4 = Some list_html.td_buttons.
Proof.
  unfold list_html.row.
  destruct (list_html.filter_strings v) as [|f fs];
    destruct (list_html.users_by_company v) as [|g gs]; cbn; repeat split.
Qed.

(** X20. The colour of a user label: red exactly for an inactive user,
    whether administrator or owner or neither; blue exactly for an active
    administrator or owner; teal exactly for an active user who is
    neither. A label carries the department in parentheses exactly when
    the department is there and not empty. *)
Theorem label_class_precedence (e : list_html.user_entry) :
  (list_html.label_class e = "red" <-> list_html.is_inactive e = true) /\
  (list_html.label_class e = "blue" <->
     list_html.is_inactive e = false /\
     (list_html.user_is_admin e = true \/ list_html.user_is_owner e = true)) /\
  (list_html.label_class e = "teal" <->
     list_html.is_inactive e = false /\ list_html.user_is_admin e = false /\
     list_html.user_is_owner e = false) /\
  (list_html.label_detail (list_html.user_label e) <> None <->
     exists d, list_html.user_department e = Some d /\ d <> "") /\
  (forall d, list_html.label_detail (list_html.user_label e) = Some d ->
             exists d0, list_html.user_department e = Some d0 /\ d = "(" ++ d0 ++ ")").
Proof.
  unfold list_html.label_class, list_html.user_label. cbn [list_html.label_detail].
  destruct e as [n c d i a o]. cbn.
  split; [|split; [|split; [|split]]].
  - destruct i, a, o; intuition discriminate.
  - destruct i, a, o; intuition discriminate.
  - destruct i, a, o; intuition discriminate.
  - destruct d as [[|x t]|]; cbn; split.
    + intros H. congruence.
    + intros [d0 [E N]]. inversion E. congruence.
    + intros _. eexists. split; [reflexivity|discriminate].
    + intros _. discriminate.
    + intros H. congruence.
    + intros [d0 [E _]]. discriminate E.
  - intros d1 H. destruct d as [[|x t]|]; cbn in H; try discriminate H.
    inversion H. eexists. split; reflexivity.
Qed.

Lemma toString_single (x : string) : list_html.toString [x] = x.
Proof.
  reflexivity.
Qed.

(** X21. The warning about inactive users is rendered exactly when the
    list is not empty, and then holds exactly one part: for one user the
    sentence with that name between bold tags, for more the list of all
    of them in order. *)
Theorem warning_forms (inactiveUsers : list string) :
  (list_html.warning inactiveUsers = None <-> inactiveUsers = []) /\
  (forall x, inactiveUsers = [x] ->
     list_html.warning inactiveUsers = Some [list_html.one_user ("<b>" ++ x ++ "</b>")]) /\
  ((2 <= List.length inactiveUsers)%nat ->
     list_html.warning inactiveUsers = Some [list_html.several_users inactiveUsers]) /\
  (forall parts, list_html.warning inactiveUsers = Some parts -> List.length parts = 1%nat).
Proof.
  unfold list_html.warning. split; [|split; [|split]].
  - destruct inactiveUsers; cbn; split; intros H; try reflexivity; discriminate H.
  - intros x ->. reflexivity.
  - intros H. destruct inactiveUsers as [|x [|y t]]; cbn in H; try lia. reflexivity.
  - intros parts H. destruct inactiveUsers as [|x [|y t]]; cbn in H;
      try discriminate H; inversion H; reflexivity.
Qed.

(** ** The theorems on concrete values *)

Lemma Save_unassigned_identity_witness :
  ["active"] <> [] /\ Id jane = 0 /\
  Save bluemonday.reference one_row jane ["active"] =
    (one_row, jane, 0, Some (errors_New "invalid entry ID")) /\
  kind (errors_New "invalid entry ID") = InvalidEntity.
Proof.
  split; [discriminate|]. split; [reflexivity|].
  apply (Save_unassigned_identity bluemonday.reference one_row jane ["active"]);
    [discriminate|reflexivity].
Defined.

Lemma lookup_finds_nothing_witness :
  fault one_row = None /\
  (forall id, (forall r, In r (users one_row) -> Id r <> id) ->
              GetUser one_row id = (None, None)) /\
  (forall mail, (forall r, In r (users one_row) -> Email r <> strings.ToLower mail) ->
                GetUserByMail one_row mail = (None, None)).
Proof.
  split; [reflexivity|].
  apply (lookup_finds_nothing one_row). reflexivity.
Defined.

Lemma BeforeSave_idempotent_on_tidy_witness :
  run_BeforeSave bluemonday.reference (run_BeforeSave bluemonday.reference jane_sso) =
  run_BeforeSave bluemonday.reference jane_sso.
Proof.
  apply (BeforeSave_idempotent_on_tidy bluemonday.reference jane_sso);
    reflexivity.
Defined.

Lemma Save_writes_active_only_witness :
  fault one_row = None /\ Id (set_Active false jane_stored) <> 0 /\
  Save bluemonday.reference one_row (set_Active false jane_stored) ["active"] =
    (mkDB [set_Active false jane_stored] None,
     set_Active false jane_stored, 1, None).
Proof.
  split; [reflexivity|]. split; [discriminate|].
  rewrite (Save_writes_active_only bluemonday.reference one_row
             (set_Active false jane_stored) eq_refl); [reflexivity|discriminate].
Defined.

Lemma listings_never_nil_witness :
  GetUsers (mkDB (@nil (@T_user unit)) None) = (Some [], None) /\
  GetAdministrators (mkDB (@nil (@T_user unit)) None) = (Some [], None).
Proof.
  apply (listings_never_nil (mkDB (@nil (@T_user unit)) None) eq_refl). reflexivity.
Defined.

Lemma GetUserByMail_ignores_case_witness :
  GetUserByMail one_row "Jane.Doe@Example.COM" = (Some (set_Ownerships [] jane_stored), None) /\
  GetUserByMail one_row "Jane.Doe@Example.COM" = GetUserByMail one_row "JANE.DOE@example.com".
Proof.
  split; [reflexivity|].
  apply (GetUserByMail_ignores_case one_row). reflexivity.
Defined.

Lemma BeforeSave_folds_case_witness :
  Email (run_BeforeSave bluemonday.reference (set_Email "JANE.DOE@example.com" jane)) =
  Email (run_BeforeSave bluemonday.reference jane) /\
  Email (run_BeforeSave bluemonday.reference jane) = "jane.doe@example.com" /\
  SsoId (run_BeforeSave bluemonday.reference
           (set_SsoId (sql.mkNullString "<b>ABC</b>-123" true) jane_sso)) =
  SsoId (run_BeforeSave bluemonday.reference jane_sso) /\
  SsoId (run_BeforeSave bluemonday.reference jane_sso) = sql.mkNullString "ABC-123" true.
Proof.
  split; [|split; [reflexivity|split; [|reflexivity]]].
  - apply (proj1 (proj2 (proj2 (proj2 (proj2
             (BeforeSave_folds_case bluemonday.reference jane))))));
      reflexivity.
  - apply (proj1 (proj2 (proj2 (proj2
             (BeforeSave_folds_case bluemonday.reference jane_sso)))));
      reflexivity.
Defined.

(** C4 as stated fails: inputs that differ only in letter case are
    stored as distinct values. The upper-case form Go gives the email
    with a dotless i is written with the ASCII letter I, which is stored
    with a dotted i. The lower-case form Go gives the capital sharp s is
    the small sharp s, which has no upper-case form of one rune, so the
    two SSO ids are stored as they came. And a policy that reads
    character references keeps [&Lt;] and [&lt;] apart, since the names
    of entities are case-sensitive. *)
Lemma case_variants_are_stored_apart :
  strings.ToUpper dotless_mail = "I@X.COM" /\
  Email (run_BeforeSave bluemonday.reference (set_Email dotless_mail jane)) =
    dotless_mail /\
  Email (run_BeforeSave bluemonday.reference (set_Email "I@X.COM" jane)) =
    "i@x.com" /\
  dotless_mail <> "i@x.com" /\
  strings.ToLower capital_sharp_s = small_sharp_s /\
  SsoId (run_BeforeSave bluemonday.reference
           (set_SsoId (sql.mkNullString capital_sharp_s true) jane)) =
    sql.mkNullString capital_sharp_s true /\
  SsoId (run_BeforeSave bluemonday.reference
           (set_SsoId (sql.mkNullString small_sharp_s true) jane)) =
    sql.mkNullString small_sharp_s true /\
  capital_sharp_s <> small_sharp_s /\
  same_letters "&Lt;@x.com" "&lt;@x.com" /\
  Email (run_BeforeSave bluemonday.with_references (set_Email "&Lt;@x.com" jane)) =
    (bytes_of [0xE2; 0x89; 0xAA] ++ "@x.com")%string /\
  Email (run_BeforeSave bluemonday.with_references (set_Email "&lt;@x.com" jane)) =
    "&lt;@x.com".
Proof.
  vm_compute. repeat split; discriminate.
Qed.







Lemma Save_touches_only_named_columns_witness :
  names ["active"; "t_users.last_login"] /\
  map Id (users (fst (fst (fst (Save bluemonday.reference two_rows
                                  (set_Active false jane_stored)
                                  ["active"; "t_users.last_login"]))))) =
    map Id (users two_rows) /\
  map (ValueOf col_company)
      (users (fst (fst (fst (Save bluemonday.reference two_rows
                               (set_Active false (set_Company "" jane_stored))
                               ["active"; "t_users.last_login"]))))) =
    map (ValueOf col_company) (users two_rows).
Proof.
  assert (N : names ["active"; "t_users.last_login"]) by (split; reflexivity).
  split; [exact N|]. split.
  - apply (Save_touches_only_named_columns bluemonday.reference two_rows
             (set_Active false jane_stored) ["active"; "t_users.last_login"] N).
  - apply (Save_touches_only_named_columns bluemonday.reference two_rows
             (set_Active false (set_Company "" jane_stored))
             ["active"; "t_users.last_login"] N).
    vm_compute. reflexivity.
Defined.

Lemma backend_fault_is_returned_witness :
  Save bluemonday.reference broken_row (set_Id 1 jane) ["active"] =
    (broken_row, set_Id 1 jane, 0, Some (ErrBackend "sql: database is closed")) /\
  Save bluemonday.reference failing_row (set_Id 1 jane) ["active"] =
    (failing_row, run_BeforeSave bluemonday.reference (set_Id 1 jane), 0,
     Some (ErrBackend "context deadline exceeded")) /\
  GetUsers failing_row = (None, Some (ErrBackend "context deadline exceeded")).
Proof.
  destruct (backend_fault_is_returned bluemonday.reference broken_row
              "sql: database is closed") as ((_ & C & _) & _); [reflexivity|].
  destruct (backend_fault_is_returned bluemonday.reference failing_row
              "context deadline exceeded") as (_ & (_ & S & _) & (G & _));
    [reflexivity|right; reflexivity|].
  split; [|split; [|exact G]].
  - apply C; discriminate.
  - apply S; [discriminate|discriminate|].
    intros H. vm_compute in H. discriminate H.
Defined.

Lemma Delete_removes_the_row_witness :
  Delete two_rows john =
    (mkDB (filter (fun r => negb (Id r =? Id john)) (users two_rows)) None, None) /\
  GetUser (fst (Delete two_rows john)) (Id john) = (None, None) /\
  GetUser (fst (Delete two_rows john)) 1 = GetUser two_rows 1.
Proof.
  destruct (Delete_removes_the_row two_rows john eq_refl) as (D & G & O & _).
  { discriminate. }
  split; [exact D|]. split; [exact G|].
  apply (O 1). discriminate.
Defined.

Lemma Create_then_lookup_witness :
  Id john_created = 2 /\
  Email john_created = "john.roe@example.com" /\
  users after_create = (users one_row ++ [john_created])%list /\
  GetUser after_create (Id john_created) = (Some john_created, None) /\
  GetUserByMail after_create (Email new_john) =
    (Some (set_Ownerships [] john_created), None).
Proof.
  split; [vm_compute; reflexivity|]. split; [vm_compute; reflexivity|].
  destruct (Create_then_lookup bluemonday.reference one_row new_john
              after_create john_created) as (U & _ & _ & _ & G & M).
  { vm_compute. reflexivity. }
  split; [exact U|]. split; [exact G|]. apply M. vm_compute. reflexivity.
Defined.

Lemma Create_twice_conflicts_witness :
  exists e,
    Create bluemonday.reference after_create (set_Email "JOHN.ROE@example.com" new_john) =
      (after_create,
       run_BeforeSave bluemonday.reference (set_Email "JOHN.ROE@example.com" new_john),
       Some e) /\
    kind e = Conflict.
Proof.
  apply (Create_twice_conflicts bluemonday.reference one_row new_john
           after_create john_created (set_Email "JOHN.ROE@example.com" new_john));
    vm_compute; reflexivity.
Defined.

Lemma unique_keys_are_kept_witness :
  unique_keys two_rows /\
  unique_keys (fst (fst (fst (Save bluemonday.reference two_rows
                                (set_Email "john.roe@example.com" jane_stored)
                                ["email"])))).
Proof.
  assert (K : unique_keys two_rows).
  { split; cbn; repeat constructor; cbn; intuition discriminate. }
  split; [exact K|].
  apply (proj1 (proj2 (unique_keys_are_kept bluemonday.reference two_rows K))).
Defined.

Lemma Create_then_Save_affects_one_row_witness :
  exists db'',
    Save bluemonday.reference after_create john_created ["active"; "last_login"] =
      (db'', run_BeforeSave bluemonday.reference john_created, 1, None).
Proof.
  apply (Create_then_Save_affects_one_row bluemonday.reference one_row new_john
           after_create john_created ["active"; "last_login"]).
  - vm_compute. reflexivity.
  - intros H. vm_compute in H. discriminate H.
  - vm_compute. reflexivity.
  - vm_compute. reflexivity.
Defined.

